(** * converter_x: Excel-to-XML conversion service

    A shallow embedding of [backend/src/services/converter.js] and
    [backend/src/utils/encryption.js], with the properties of the
    conversion pipeline stated and proved over it.

    JavaScript strings are sequences of UTF-16 code units; they are
    modelled as lists of [N].  JavaScript objects used as ordered
    dictionaries are modelled as insertion-ordered association lists with
    the enumeration order of [Object.entries].  The file system is a finite
    map from paths to byte contents. *)

From Stdlib Require Import NArith ZArith Ascii String DecimalString.
From Stdlib.Strings Require Import Byte.
From stdpp Require Import gmap list.

Local Open Scope N_scope.

(** ** JavaScript strings *)

Abbreviation jsstring := (list N).

(** An ASCII literal as a JavaScript string. *)
Definition js (s : string) : jsstring :=
  N_of_ascii <$> list_ascii_of_string s.

Module JsString.

(** ECMAScript [WhiteSpace] and [LineTerminator] code units: the set
    matched by the regular-expression class [\s] and stripped by
    [String.prototype.trim]. *)
Definition is_space (c : N) : bool :=
  ((9 <=? c) && (c <=? 13)) || (c =? 32) || (c =? 160) || (c =? 5760)
  || ((8192 <=? c) && (c <=? 8202)) || (c =? 8232) || (c =? 8233)
  || (c =? 8239) || (c =? 8287) || (c =? 12288) || (c =? 65279).

Definition is_upper (c : N) : bool := (65 <=? c) && (c <=? 90).
Definition is_lower (c : N) : bool := (97 <=? c) && (c <=? 122).
Definition is_letter (c : N) : bool := is_upper c || is_lower c.
Definition is_digit (c : N) : bool := (48 <=? c) && (c <=? 57).

Definition underscore : N := 95.
Definition hyphen : N := 45.
Definition period : N := 46.

(** The class [[a-zA-Z0-9_.-]]. *)
Definition is_tag_char (c : N) : bool :=
  is_letter c || is_digit c || (c =? underscore) || (c =? period)
  || (c =? hyphen).

(** The class [[a-zA-Z_]]. *)
Definition is_tag_start (c : N) : bool := is_letter c || (c =? underscore).

Fixpoint trimStart (s : jsstring) : jsstring :=
  match s with
  | c :: s' => if is_space c then trimStart s' else s
  | [] => []
  end.

Definition trimEnd (s : jsstring) : jsstring := rev (trimStart (rev s)).

(** [String.prototype.trim]. *)
Definition trim (s : jsstring) : jsstring := trimEnd (trimStart s).

(** [s.replace(/\s+/g, r)]: every maximal run of white space becomes one
    copy of [r].  [in_run] records that the previous code unit belonged to
    a run that has already been replaced. *)
Fixpoint replace_ws_from (in_run : bool) (r s : jsstring) : jsstring :=
  match s with
  | [] => []
  | c :: s' =>
      if is_space c
      then (if in_run then replace_ws_from true r s'
            else r ++ replace_ws_from true r s')
      else c :: replace_ws_from false r s'
  end.

Definition replace_ws (r s : jsstring) : jsstring := replace_ws_from false r s.

(** [/^[a-zA-Z_]/.test(s)]. *)
Definition starts_with_tag_start (s : jsstring) : bool :=
  match s with
  | c :: _ => is_tag_start c
  | [] => false
  end.

(** JavaScript truthiness of a string: only the empty string is falsy. *)
Definition truthy (s : jsstring) : bool :=
  match s with [] => false | _ :: _ => true end.

End JsString.

Import JsString.

(** ** Tag sanitizer: [ExcelToXMLConverter._sanitizeXmlTag] *)

Definition EMPTY_TAG : jsstring := js "EMPTY_TAG".

Definition _sanitizeXmlTag (tag : jsstring) : jsstring :=
  if negb (truthy tag) then EMPTY_TAG
  else
    let tag := trim tag in
    let tag := replace_ws [underscore] tag in
    let tag := filter (fun c => is_tag_char c = true) tag in
    let tag := if negb (starts_with_tag_start tag) then underscore :: tag else tag in
    let tag := if negb (truthy tag) then EMPTY_TAG else tag in
    tag.

(** The string left by the third sanitization step: trimmed,
    white-space runs collapsed to an underscore, characters outside
    [[a-zA-Z0-9_.-]] removed. *)
Definition sanitize_step3 (tag : jsstring) : jsstring :=
  filter (fun c => is_tag_char c = true) (replace_ws [underscore] (trim tag)).

(** A well-formed tag: only characters of [[a-zA-Z0-9_.-]], the first one a
    letter or an underscore. *)
Definition valid_tag (s : jsstring) : bool :=
  forallb is_tag_char s && starts_with_tag_start s.

(** ** JavaScript values and objects *)

(** The values that reach the converter, as far as [String(value)]
    returns for them.  [VNumber] covers integral numbers below 10^21 in
    magnitude (printed in decimal); [VOther] stands for any other value (a fractional number, a
    date, an array, an object) and carries the string that [String(value)]
    produces for it.  An object whose conversion to a string throws is not
    among these values. *)
Inductive jsval :=
| VUndefined
| VNull
| VBool (b : bool)
| VNumber (n : Z)
| VString (s : jsstring)
| VOther (str : jsstring).

#[global] Instance jsval_eq_dec : EqDecision jsval.
Proof. solve_decision. Defined.

Definition decimal_of_Z (n : Z) : jsstring :=
  js (DecimalString.NilEmpty.string_of_int (Z.to_int n)).

Definition decimal_of_nat (n : nat) : jsstring :=
  js (DecimalString.NilEmpty.string_of_uint (Nat.to_uint n)).

(** [String(value)]. *)
Definition ToString (x : jsval) : jsstring :=
  match x with
  | VUndefined => js "undefined"
  | VNull => js "null"
  | VBool true => js "true"
  | VBool false => js "false"
  | VNumber n => decimal_of_Z n
  | VString s => s
  | VOther str => str
  end.

Module JsObject.

Section Object.
Context {V : Type}.

(** An object is the list of its own string-keyed properties in insertion
    order; a key occurs once.  [define k v o] creates the own property [k]
    or overwrites it, as an object literal and a spread do: an existing
    property keeps its position, a new one goes last. *)
Fixpoint define (k : jsstring) (v : V) (o : list (jsstring * V))
  : list (jsstring * V) :=
  match o with
  | [] => [(k, v)]
  | (k', v') :: o' =>
      if decide (k' = k) then (k', v) :: o' else (k', v') :: define k v o'
  end.

Definition PROTO : jsstring := js "__proto__".

(** The assignment [o[k] = v] of a string to an object created by [{}].
    The key ["__proto__"] reaches the setter that the object inherits from
    [Object.prototype]: no own property is stored (and, the value not being
    an object, the prototype stays as it is).  Every other key is
    defined. *)
Definition set (k : jsstring) (v : V) (o : list (jsstring * V))
  : list (jsstring * V) :=
  if decide (k = PROTO) then o else define k v o.

(** The own property [k] of [o], [None] when there is none. *)
Fixpoint get (k : jsstring) (o : list (jsstring * V)) : option V :=
  match o with
  | [] => None
  | (k', v') :: o' => if decide (k' = k) then Some v' else get k o'
  end.

(** The properties [k1: v1, ..., kn: vn] defined in sequence. *)
Definition define_all (kvs : list (jsstring * V)) (o : list (jsstring * V))
  : list (jsstring * V) :=
  foldl (fun o kv => define kv.1 kv.2 o) o kvs.

(** The assignments [o[k1] = v1; ...; o[kn] = vn] in sequence. *)
Definition assign_all (kvs : list (jsstring * V)) (o : list (jsstring * V))
  : list (jsstring * V) :=
  foldl (fun o kv => set kv.1 kv.2 o) o kvs.

Fixpoint digits_value (acc : N) (s : jsstring) : option N :=
  match s with
  | [] => Some acc
  | c :: s' =>
      if is_digit c then digits_value (acc * 10 + (c - 48)) s' else None
  end.

(** A key that is an array index: the canonical decimal form of an integer
    between 0 and 2^32 - 2. *)
Definition array_index (k : jsstring) : option N :=
  match k with
  | [] => None
  | c :: rest =>
      if c =? 48 then (match rest with [] => Some 0 | _ => None end)
      else match digits_value 0 k with
           | Some n => if n <=? 4294967294 then Some n else None
           | None => None
           end
  end.

Fixpoint insert_index (n : N) (kv : jsstring * V)
    (l : list (N * (jsstring * V))) : list (N * (jsstring * V)) :=
  match l with
  | [] => [(n, kv)]
  | (m, kv') :: l' =>
      if n <? m then (n, kv) :: l else (m, kv') :: insert_index n kv l'
  end.

Definition index_entries (o : list (jsstring * V))
  : list (N * (jsstring * V)) :=
  foldr (fun kv acc =>
           match array_index kv.1 with
           | Some n => insert_index n kv acc
           | None => acc
           end) [] o.

Definition string_entries (o : list (jsstring * V)) : list (jsstring * V) :=
  filter (fun kv => array_index kv.1 = None) o.

(** [Object.entries(o)]: array-index keys in ascending numeric order, then
    the other keys in insertion order. *)
Definition entries (o : list (jsstring * V)) : list (jsstring * V) :=
  (snd <$> index_entries o) ++ string_entries o.

(** [Object.keys(o)]. *)
Definition keys (o : list (jsstring * V)) : list jsstring :=
  fst <$> entries o.

End Object.

End JsObject.

Abbreviation jsobject V := (list (jsstring * V)).

(** ** Worksheets *)

(** A cell object of the spreadsheet library: [w] is the formatted display
    text, [v] the raw value; either may be [undefined]. *)
Record Cell := { w : jsval; v : jsval }.

(** A decoded range: start and end row and column, zero-based. *)
Record Range := { s_r : nat; s_c : nat; e_r : nat; e_c : nat }.

(** A worksheet: the decoded ["!ref"] property ([None] when it is missing or
    empty) and the cells, keyed by (row, column) in place of the A1-style
    address that [encode_cell] computes from them. *)
Record Worksheet := {
  ws_ref : option Range;
  ws_cells : gmap (nat * nat) Cell
}.

Record Workbook := {
  SheetNames : list jsstring;
  Sheets : gmap jsstring Worksheet
}.

(** [XLSX.utils.decode_range(worksheet["!ref"] || "A1")]. *)
Definition decode_range (worksheet : Worksheet) : Range :=
  match ws_ref worksheet with
  | Some range => range
  | None => {| s_r := 0; s_c := 0; e_r := 0; e_c := 0 |}
  end.

(** The values taken by [for (let i = lo; i <= hi; i++)]. *)
Definition from_to (lo hi : nat) : list nat := seq lo (S hi - lo).

(** ** Cell extractor: [ExcelToXMLConverter._processExcelData] *)

Definition getDisplay (cell : option Cell) : jsstring :=
  match cell with
  | None => []
  | Some cell =>
      if bool_decide (w cell <> VUndefined) && bool_decide (w cell <> VString [])
      then ToString (w cell)
      else if bool_decide (v cell <> VUndefined) then ToString (v cell)
      else []
  end.

(** The template literal [`COL_${c + 1}`]. *)
Definition COL (c : nat) : jsstring := js "COL_" ++ decimal_of_nat (c + 1).

(** One iteration of the header loop. *)
Definition header_step (worksheet : Worksheet) (range : Range)
    (headerMap : gmap nat jsstring) (c : nat) : gmap nat jsstring :=
  match ws_cells worksheet !! (s_r range, c) with
  | Some cell =>
      let headerName := trim (getDisplay (Some cell)) in
      <[c := if truthy headerName then headerName else COL c]> headerMap
  | None => <[c := COL c]> headerMap
  end.

Definition build_headerMap (worksheet : Worksheet) (range : Range)
  : gmap nat jsstring :=
  foldl (header_step worksheet range) ∅ (from_to (s_c range) (e_c range)).

(** [headerMap[c]], with the key ["undefined"] that a missing entry would
    give when used as a property name. *)
Definition colName_of (headerMap : gmap nat jsstring) (c : nat) : jsstring :=
  default (js "undefined") (headerMap !! c).

(** One iteration of the inner loop over the columns of row [r]. *)
Definition row_step (worksheet : Worksheet) (headerMap : gmap nat jsstring)
    (r : nat) (acc : jsobject jsstring * bool) (c : nat)
  : jsobject jsstring * bool :=
  let '(rowRecord, hasData) := acc in
  let colName := colName_of headerMap c in
  match ws_cells worksheet !! (r, c) with
  | Some cell =>
      let text := getDisplay (Some cell) in
      (JsObject.set colName text rowRecord,
       if bool_decide (text <> []) then true else hasData)
  | None => (JsObject.set colName [] rowRecord, hasData)
  end.

Definition build_row (worksheet : Worksheet) (range : Range)
    (headerMap : gmap nat jsstring) (r : nat) : jsobject jsstring * bool :=
  foldl (row_step worksheet headerMap r) ([], false)
    (from_to (s_c range) (e_c range)).

(** One iteration of the outer loop over the data rows. *)
Definition records_step (worksheet : Worksheet) (range : Range)
    (headerMap : gmap nat jsstring) (records : list (jsobject jsstring))
    (r : nat) : list (jsobject jsstring) :=
  let '(rowRecord, hasData) := build_row worksheet range headerMap r in
  if hasData then records ++ [rowRecord] else records.

Definition _processExcelData (worksheet : Worksheet)
  : list (jsobject jsstring) :=
  let range := decode_range worksheet in
  let headerMap := build_headerMap worksheet range in
  foldl (records_step worksheet range headerMap) []
    (from_to (s_r range + 1) (e_r range)).

(** *** Notions used to state the properties of the extractor *)

(** The columns and the data rows in bounds. *)
Definition sheet_columns (worksheet : Worksheet) : list nat :=
  from_to (s_c (decode_range worksheet)) (e_c (decode_range worksheet)).

Definition sheet_data_rows (worksheet : Worksheet) : list nat :=
  from_to (s_r (decode_range worksheet) + 1) (e_r (decode_range worksheet)).

(** The name the header row gives to column [c]: the trimmed display text of
    the header cell, or the placeholder when it is blank or missing. *)
Definition header_name (worksheet : Worksheet) (c : nat) : jsstring :=
  match ws_cells worksheet !! (s_r (decode_range worksheet), c) with
  | Some cell =>
      let headerName := trim (getDisplay (Some cell)) in
      if truthy headerName then headerName else COL c
  | None => COL c
  end.

(** The text read from the cell at row [r], column [c]. *)
Definition cell_text (worksheet : Worksheet) (r c : nat) : jsstring :=
  getDisplay (ws_cells worksheet !! (r, c)).

(** The assignments made to the record of row [r] by the loop over the
    columns, the record they build, and whether the row has data. *)
Definition row_assignments (worksheet : Worksheet)
    (headerMap : gmap nat jsstring) (r : nat) (cols : list nat)
  : list (jsstring * jsstring) :=
  (fun c => (colName_of headerMap c, cell_text worksheet r c)) <$> cols.

Definition row_record (worksheet : Worksheet) (r : nat) : jsobject jsstring :=
  JsObject.assign_all
    (row_assignments worksheet
       (build_headerMap worksheet (decode_range worksheet)) r
       (sheet_columns worksheet)) [].

Definition row_has_data (worksheet : Worksheet) (r : nat) : bool :=
  existsb (fun c => bool_decide (cell_text worksheet r c <> []))
    (sheet_columns worksheet).

(** The rule of the specification for the text of a cell, read literally:
    the display value when the cell has one, else the string form of the
    raw value when it has one, else the empty string. *)
Definition spec_cell_text (cell : option Cell) : jsstring :=
  match cell with
  | None => []
  | Some cell =>
      if bool_decide (w cell <> VUndefined) then ToString (w cell)
      else if bool_decide (v cell <> VUndefined) then ToString (v cell)
      else []
  end.

(** ** Exceptions *)

(** A thrown [Error] object, identified by its message. *)
Record exn := Error { message : jsstring }.

Inductive res (A : Type) :=
| Ok (a : A)
| Throw (e : exn).

Arguments Ok {A} a.
Arguments Throw {A} e.

Definition res_bind {A B} (m : res A) (k : A -> res B) : res B :=
  match m with
  | Ok a => k a
  | Throw e => Throw e
  end.

(** [try { m } catch (error) { h error }] for code without side effects. *)
Definition res_catch {A} (m : res A) (h : exn -> res A) : res A :=
  match m with
  | Ok a => Ok a
  | Throw e => h e
  end.

(** A [for ... of] loop whose body may throw. *)
Fixpoint res_for {A S} (l : list A) (body : S -> A -> res S) (s : S) : res S :=
  match l with
  | [] => Ok s
  | a :: l' => res_bind (body s a) (res_for l' body)
  end.

(** ** XML documents and the document builder *)

#[warnings="-register-all"]
Inductive XmlNode :=
| Element (name : jsstring) (children : list XmlNode)
| Text (data : jsstring).

Definition XML_ROOT_ELEMENT : jsstring := js "CALLREPORT".
Definition XML_HEADER_ELEMENT : jsstring := js "HEADER".
Definition XML_BODY_ELEMENT : jsstring := js "BODY".
Definition XML_ROW_ELEMENT : jsstring := js "CALLREPORT_DATA".

Module XmlBuilder.

(** The builder mutates one document; a builder handle ([root], [header],
    [body], [row]) designates a node of it, here by the path of child
    positions leading to the node from the root. *)
Definition handle := list nat.

Fixpoint update_at (path : handle) (f : XmlNode -> XmlNode) (t : XmlNode)
    {struct path} : XmlNode :=
  match path with
  | [] => f t
  | i :: path' =>
      match t with
      | Element name cs => Element name (alter (update_at path' f) i cs)
      | Text d => Text d
      end
  end.

Fixpoint node_at (path : handle) (t : XmlNode) {struct path}
  : option XmlNode :=
  match path with
  | [] => Some t
  | i :: path' =>
      match t with
      | Element _ cs =>
          match cs !! i with
          | Some c => node_at path' c
          | None => None
          end
      | Text _ => None
      end
  end.

Definition add_child (n : XmlNode) (t : XmlNode) : XmlNode :=
  match t with
  | Element name cs => Element name (cs ++ [n])
  | Text d => Text d
  end.

Definition child_count (path : handle) (doc : XmlNode) : nat :=
  match node_at path doc with
  | Some (Element _ cs) => length cs
  | _ => 0
  end.

(** [create(...).ele(name)]: a document with its root element; the handle
    of the root is the empty path. *)
Definition create_root (name : jsstring) : XmlNode * handle :=
  (Element name [], []).

(** What [ele] takes from the XML library.  A string in which the library
    recognises a serialized document (XML when it starts, after white
    space, with '<', JSON when it starts with a brace or a bracket, YAML
    when it carries a document marker) is not used as a name: a reader
    parses it, appends the nodes it describes under the parent and returns
    the handle of the last element appended there.  Any other string is
    used as the name of one new element, which the library creates, or
    refuses by throwing. *)
Record library := {
  (** whether [ele] hands the string to a reader *)
  is_document : jsstring -> bool;
  (** the reader: the document after the parse, and the handle returned *)
  parse : XmlNode -> handle -> jsstring -> res (XmlNode * handle);
  (** the element created for a name *)
  createElement : jsstring -> res XmlNode
}.

(** [parent.ele(name)] with a string: for a name, the new element becomes
    the last child of [parent] and its handle is returned. *)
Definition ele (lib : library) (doc : XmlNode) (parent : handle)
    (name : jsstring) : res (XmlNode * handle) :=
  if is_document lib name then parse lib doc parent name
  else
    res_bind (createElement lib name) (fun child =>
    Ok (update_at parent (add_child child) doc,
        parent ++ [child_count parent doc])).

(** The library uses the string as the name of a new, empty element. *)
Definition creates (lib : library) (name : jsstring) : Prop :=
  is_document lib name = false
  /\ createElement lib name = Ok (Element name []).

(** [node.txt(content)]: appends a text node to [node]. *)
Definition txt (doc : XmlNode) (node : handle) (content : jsstring)
  : XmlNode :=
  update_at node (add_child (Text content)) doc.

End XmlBuilder.

(** ** XML assembler: [_createHeader], [_createDataSection] *)

Section Assembler.

Variable lib : XmlBuilder.library.

(** The body of the loop of [_createHeader], with its try/catch.  The try
    block holds the creation of the element and the conversion of the
    value to a string; the conversion returns for every value of
    [jsval]. *)
Definition header_field_step (header : XmlBuilder.handle) (doc : XmlNode)
    (entry : jsstring * jsval) : res XmlNode :=
  let '(key, value) := entry in
  res_catch
    (let tagName := replace_ws [underscore] key in
     res_bind (XmlBuilder.ele lib doc header tagName) (fun '(doc, field) =>
     Ok (XmlBuilder.txt doc field
           (if bool_decide (value <> VNull) && bool_decide (value <> VUndefined)
            then ToString value else []))))
    (fun error =>
       Throw (Error (js "Error processing header field " ++ key ++ js ": "
                     ++ message error))).

(** [headerFields] is [None] for [null]. *)
Definition _createHeader (doc : XmlNode) (root : XmlBuilder.handle)
    (headerFields : option (jsobject jsval)) : res XmlNode :=
  match headerFields with
  | None => Ok doc
  | Some fields =>
      if length (JsObject.keys fields) =? 0 then Ok doc
      else
        res_bind (XmlBuilder.ele lib doc root XML_HEADER_ELEMENT)
          (fun '(doc, header) =>
             res_for (JsObject.entries fields) (header_field_step header) doc)
  end%nat.

Definition row_field_step (row : XmlBuilder.handle) (doc : XmlNode)
    (entry : jsstring * jsstring) : res XmlNode :=
  let '(fieldName, value) := entry in
  let sanitizedName := _sanitizeXmlTag fieldName in
  res_bind (XmlBuilder.ele lib doc row sanitizedName) (fun '(doc, field) =>
  Ok (XmlBuilder.txt doc field value)).

Definition record_step (body : XmlBuilder.handle) (doc : XmlNode)
    (record : jsobject jsstring) : res XmlNode :=
  res_bind (XmlBuilder.ele lib doc body XML_ROW_ELEMENT) (fun '(doc, row) =>
  res_for (JsObject.entries record) (row_field_step row) doc).

Definition _createDataSection (doc : XmlNode) (body : XmlBuilder.handle)
    (records : list (jsobject jsstring)) : res XmlNode :=
  res_for records (record_step body) doc.

(** The tree built by [convert] between the creation of the root and the
    serialization. *)
Definition assemble (records : list (jsobject jsstring))
    (headerFields : option (jsobject jsval)) : res XmlNode :=
  let '(doc, root) := XmlBuilder.create_root XML_ROOT_ELEMENT in
  res_bind
    (match headerFields with
     | Some fields =>
         if (0 <? length (JsObject.keys fields))%nat
         then _createHeader doc root headerFields
         else Ok doc
     | None => Ok doc
     end) (fun doc =>
  res_bind (XmlBuilder.ele lib doc root XML_BODY_ELEMENT) (fun '(doc, body) =>
  _createDataSection doc body records)).

End Assembler.

(** *** The document the assembler is expected to build *)

(** The number of caller-supplied header fields. *)
Definition header_count (headerFields : option (jsobject jsval)) : nat :=
  match headerFields with
  | Some fields => length (JsObject.keys fields)
  | None => 0
  end.

Definition header_field_text (value : jsval) : jsstring :=
  match value with
  | VNull | VUndefined => []
  | _ => ToString value
  end.

Definition header_field_element (entry : jsstring * jsval) : XmlNode :=
  Element (replace_ws [underscore] entry.1) [Text (header_field_text entry.2)].

(** No header element without header fields, else one header element with
    one child per field. *)
Definition header_section (headerFields : option (jsobject jsval))
  : list XmlNode :=
  match headerFields with
  | Some fields =>
      match JsObject.entries fields with
      | [] => []
      | entries => [Element XML_HEADER_ELEMENT (header_field_element <$> entries)]
      end
  | None => []
  end.

Definition row_field_element (entry : jsstring * jsstring) : XmlNode :=
  Element (_sanitizeXmlTag entry.1) [Text entry.2].

Definition row_element (record : jsobject jsstring) : XmlNode :=
  Element XML_ROW_ELEMENT (row_field_element <$> JsObject.entries record).

(** The library creates an element for every well-formed tag. *)
Definition creates_tags (lib : XmlBuilder.library) : Prop :=
  forall s, valid_tag s = true -> XmlBuilder.creates lib s.

(** The library creates an element for the tag name of every header
    field. *)
Definition creates_header_tags (lib : XmlBuilder.library)
    (headerFields : option (jsobject jsval)) : Prop :=
  forall fields key,
    headerFields = Some fields -> key ∈ JsObject.keys fields ->
    XmlBuilder.creates lib (replace_ws [underscore] key).

(** The names of the element children of a node, in document order. *)
Definition child_names (t : XmlNode) : list jsstring :=
  match t with
  | Element _ cs =>
      omap (fun c => match c with Element n _ => Some n | Text _ => None end) cs
  | Text _ => []
  end.

(** ** The Node.js runtime and the libraries *)

(** What the converter calls but does not implement: the XML library, the
    spreadsheet parser, the text codec, the cryptographic primitives, the
    clock, the random source and the configuration. *)
Record Runtime := {
  (** the XML library behind [ele] *)
  xml_library : XmlBuilder.library;
  (** [root.end({ prettyPrint: true })] *)
  xml_end : XmlNode -> jsstring;
  (** the parser behind [XLSX.readFile] *)
  xlsx_parse : list byte -> res Workbook;
  (** the UTF-8 codec used by [fs] for string contents *)
  utf8_encode : jsstring -> list byte;
  utf8_decode : list byte -> jsstring;
  (** [crypto.pbkdf2Sync(password, salt, iterations, keylen, digest)] *)
  pbkdf2Sync : jsstring -> jsstring -> N -> nat -> jsstring -> list byte;
  (** [createCipheriv(algorithm, key, iv)] followed by [update] and [final] *)
  cipher : jsstring -> list byte -> list byte -> list byte -> res (list byte);
  (** [createDecipheriv(algorithm, key, iv)] followed by [update] and [final] *)
  decipher : jsstring -> list byte -> list byte -> list byte -> res (list byte);
  (** the successive readings of the system clock, in milliseconds *)
  clock : nat -> Z;
  (** the successive bytes of the random source *)
  entropy : nat -> byte;
  (** whether [fs.writeFileSync] can create or overwrite the file *)
  writable : jsstring -> bool;
  (** [config.ENCRYPTION_KEY], [None] when the variable is not set *)
  ENCRYPTION_KEY : option jsstring
}.

(** ** The world: files, audit log, clock and random source *)

(** One line of the audit log, as [AuditLogger._formatMessage] builds it. *)
Record AuditRecord := {
  timestamp : Z;
  event_type : jsstring;
  user_id : jsstring;
  action : jsstring;
  status : jsstring;
  details : jsobject jsval
}.

Record World := {
  files : gmap jsstring (list byte);
  audit : list AuditRecord;
  clock_reads : nat;
  random_reads : nat
}.

Definition M (A : Type) : Type := World -> res A * World.

Definition ret {A} (a : A) : M A := fun world => (Ok a, world).

Definition throw {A} (e : exn) : M A := fun world => (Throw e, world).

Definition bind {A B} (m : M A) (k : A -> M B) : M B :=
  fun world =>
    match m world with
    | (Ok a, world') => k a world'
    | (Throw e, world') => (Throw e, world')
    end.

(** [try { m } catch (error) { h error }]: the effects of [m] up to the
    throw are kept. *)
Definition try_catch {A} (m : M A) (h : exn -> M A) : M A :=
  fun world =>
    match m world with
    | (Ok a, world') => (Ok a, world')
    | (Throw e, world') => h e world'
    end.

Definition lift {A} (r : res A) : M A := fun world => (r, world).

Notation "'let!' x ':=' m 'in' k" := (bind m (fun x => k))
  (at level 10, x pattern, m at level 100, k at level 200).
Notation "m ';;' k" := (bind m (fun _ => k))
  (at level 100, k at level 200, right associativity).

Module Fs.

(** The errors of the file system.  The message gives the code, its
    description, the system call and the path in quotes. *)
Definition system_error (code description syscall path : jsstring) : exn :=
  Error (code ++ js ": " ++ description ++ js ", " ++ syscall ++ js " '"
         ++ path ++ js "'").

Definition no_entry (syscall path : jsstring) : exn :=
  system_error (js "ENOENT") (js "no such file or directory") syscall path.

(** A file that cannot be opened for reading because it does not exist. *)
Definition ENOENT (path : jsstring) : exn := no_entry (js "open") path.

(** A file that cannot be opened for writing. *)
Definition EACCES (path : jsstring) : exn :=
  system_error (js "EACCES") (js "permission denied") (js "open") path.

Definition with_files (f : gmap jsstring (list byte) -> gmap jsstring (list byte))
    (world : World) : World :=
  {| files := f (files world); audit := audit world;
     clock_reads := clock_reads world; random_reads := random_reads world |}.

Definition existsSync (path : jsstring) : M bool :=
  fun world => (Ok (bool_decide (is_Some (files world !! path))), world).

(** [fs.readFileSync(path)]: the bytes of the file. *)
Definition readFileSync (path : jsstring) : M (list byte) :=
  fun world =>
    match files world !! path with
    | Some data => (Ok data, world)
    | None => (Throw (ENOENT path), world)
    end.

(** [fs.readFileSync(path, "utf-8")]: the content decoded to a string. *)
Definition readFileSync_utf8 (rt : Runtime) (path : jsstring) : M jsstring :=
  let! data := readFileSync path in ret (utf8_decode rt data).

(** [fs.writeFileSync(path, buffer)]. *)
Definition writeFileSync (rt : Runtime) (path : jsstring) (data : list byte)
  : M unit :=
  fun world =>
    if writable rt path
    then (Ok tt, with_files (insert path data) world)
    else (Throw (EACCES path), world).

(** [fs.writeFileSync(path, string, "utf-8")]. *)
Definition writeFileSync_utf8 (rt : Runtime) (path : jsstring)
    (content : jsstring) : M unit :=
  writeFileSync rt path (utf8_encode rt content).

Definition unlinkSync (path : jsstring) : M unit :=
  fun world =>
    match files world !! path with
    | Some _ => (Ok tt, with_files (delete path) world)
    | None => (Throw (no_entry (js "unlink") path), world)
    end.

End Fs.

(** The world after one more reading of the clock. *)
Definition tick (world : World) : World :=
  {| files := files world; audit := audit world;
     clock_reads := S (clock_reads world);
     random_reads := random_reads world |}.

(** [Date.now()] and [new Date()]: the next reading of the clock. *)
Definition Date_now (rt : Runtime) : M Z :=
  fun world => (Ok (clock rt (clock_reads world)), tick world).

(** [crypto.randomBytes(n)]: the next [n] bytes of the random source. *)
Definition randomBytes (rt : Runtime) (n : nat) : M (list byte) :=
  fun world =>
    (Ok (entropy rt <$> seq (random_reads world) n),
     {| files := files world; audit := audit world;
        clock_reads := clock_reads world;
        random_reads := random_reads world + n |}).

(** ** Audit logger *)

Module AuditLogger.

(** An object literal [{ k1: v1, ..., ...(details || {}) }]. *)
Definition object_of (props : list (jsstring * jsval)) : jsobject jsval :=
  JsObject.define_all props [].

(** [_formatMessage] followed by the call of the underlying logger. *)
Definition log (rt : Runtime) (eventType userId act : jsstring)
    (dets : jsobject jsval) (stat : jsstring) : M unit :=
  let! now := Date_now rt in
  fun world =>
    (Ok tt,
     {| files := files world;
        audit := audit world ++
                 [{| timestamp := now; event_type := eventType;
                     user_id := userId; action := act; status := stat;
                     details := dets |}];
        clock_reads := clock_reads world;
        random_reads := random_reads world |}).

Definition logConversionEvent (rt : Runtime) (userId inputFile outputFile : jsstring)
    (conversionTime : Z) (stat : jsstring) (dets : list (jsstring * jsval))
  : M unit :=
  log rt (js "conversion") userId (js "convert_excel_to_xml")
    (object_of ([(js "input_file", VString inputFile);
                 (js "output_file", VString outputFile);
                 (js "conversion_time_ms", VNumber conversionTime)] ++ dets))
    stat.

Definition logSecurityEvent (rt : Runtime) (userId act ipAddress stat : jsstring)
    (dets : list (jsstring * jsval)) : M unit :=
  log rt (js "security") userId act
    (object_of ([(js "ip_address", VString ipAddress)] ++ dets)) stat.

Definition logError (rt : Runtime) (userId act : jsstring) (error : exn)
    (dets : list (jsstring * jsval)) : M unit :=
  log rt (js "error") userId act
    (object_of ([(js "error_type", VString (js "Error"));
                 (js "error_message",
                  VString (if truthy (message error) then message error
                           else js "Error"))] ++ dets))
    (js "error").

End AuditLogger.

(** ** Base64, as [Buffer] encodes and decodes it *)

Module Base64.

Definition pad : N := 61.

(** The character of a six-bit value in the standard alphabet. *)
Definition to_char (n : N) : N :=
  if n <? 26 then 65 + n
  else if n <? 52 then 97 + (n - 26)
  else if n <? 62 then 48 + (n - 52)
  else if n =? 62 then 43
  else 47.

(** The six-bit value of a character; the decoder accepts the standard and
    the URL-safe alphabet. *)
Definition of_char (c : N) : option N :=
  if is_upper c then Some (c - 65)
  else if is_lower c then Some (c - 71)
  else if is_digit c then Some (c + 4)
  else if (c =? 43) || (c =? 45) then Some 62
  else if (c =? 47) || (c =? 95) then Some 63
  else None.

Definition byte_of_N (n : N) : byte := default x00 (Byte.of_N (n mod 256)).

(** [buffer.toString("base64")]. *)
Fixpoint encode (bs : list byte) : jsstring :=
  match bs with
  | a :: b :: c :: rest =>
      let a := Byte.to_N a in
      let b := Byte.to_N b in
      let c := Byte.to_N c in
      to_char (a / 4) :: to_char ((a mod 4) * 16 + b / 16)
        :: to_char ((b mod 16) * 4 + c / 64) :: to_char (c mod 64)
        :: encode rest
  | [a; b] =>
      let a := Byte.to_N a in
      let b := Byte.to_N b in
      [to_char (a / 4); to_char ((a mod 4) * 16 + b / 16);
       to_char ((b mod 16) * 4); pad]
  | [a] =>
      let a := Byte.to_N a in
      [to_char (a / 4); to_char ((a mod 4) * 16); pad; pad]
  | [] => []
  end.

(** The six-bit values read by the decoder: characters outside the
    alphabets are skipped, the first padding character ends the input. *)
Fixpoint sextets (s : jsstring) : list N :=
  match s with
  | [] => []
  | c :: s' =>
      if c =? pad then []
      else match of_char c with
           | Some n => n :: sextets s'
           | None => sextets s'
           end
  end.

Fixpoint decode_sextets (ns : list N) : list byte :=
  match ns with
  | p :: q :: r :: s :: rest =>
      byte_of_N (p * 4 + q / 16) :: byte_of_N ((q mod 16) * 16 + r / 4)
        :: byte_of_N ((r mod 4) * 64 + s) :: decode_sextets rest
  | [p; q; r] =>
      [byte_of_N (p * 4 + q / 16); byte_of_N ((q mod 16) * 16 + r / 4)]
  | [p; q] => [byte_of_N (p * 4 + q / 16)]
  | _ => []
  end.

(** [Buffer.from(s, "base64")]. *)
Definition decode (s : jsstring) : list byte := decode_sextets (sextets s).

End Base64.

(** ** File cipher: [AESEncryption] *)

Module AESEncryption.

Definition algorithm : jsstring := js "aes-256-cbc".
Definition ivLength : nat := 16.

Definition _deriveKey (rt : Runtime) (key salt : jsstring) : list byte :=
  pbkdf2Sync rt key salt 100000 32 (js "sha256").

(** [this.key], derived in the constructor from
    [config.ENCRYPTION_KEY || "default-key"] with the default salt. *)
Definition key (rt : Runtime) : list byte :=
  _deriveKey rt
    (match ENCRYPTION_KEY rt with
     | Some k => if truthy k then k else js "default-key"
     | None => js "default-key"
     end)
    (js "converter_x_fixed_salt").

(** The initialization vector that the next call of [encryptData] draws. *)
Definition next_iv (rt : Runtime) (world : World) : list byte :=
  entropy rt <$> seq (random_reads world) ivLength.

Definition size_of (data : list byte) : jsval := VNumber (Z.of_nat (length data)).

(** [data] is a buffer ([inl]) or a string ([inr]). *)
Definition encryptData (rt : Runtime) (data : list byte + jsstring)
  : M jsstring :=
  try_catch
    (let dataBuffer :=
       match data with
       | inl buffer => buffer
       | inr text => utf8_encode rt text
       end in
     let! iv := randomBytes rt ivLength in
     let! encrypted := lift (cipher rt algorithm (key rt) iv dataBuffer) in
     let result := Base64.encode (iv ++ encrypted) in
     AuditLogger.logSecurityEvent rt (js "system") (js "encrypt_data")
       (js "localhost") (js "success")
       [(js "operation", VString (js "encrypt"));
        (js "size", size_of dataBuffer)] ;;
     ret result)
    (fun error =>
       AuditLogger.logError rt (js "system") (js "encrypt_data") error
         [(js "operation", VString (js "encrypt"))] ;;
       throw error).

Definition decryptData (rt : Runtime) (encryptedData : jsstring)
  : M (list byte) :=
  try_catch
    (let encryptedBuffer := Base64.decode encryptedData in
     let iv := take ivLength encryptedBuffer in
     let ciphertext := drop ivLength encryptedBuffer in
     let! decrypted := lift (decipher rt algorithm (key rt) iv ciphertext) in
     AuditLogger.logSecurityEvent rt (js "system") (js "decrypt_data")
       (js "localhost") (js "success")
       [(js "operation", VString (js "decrypt"));
        (js "size", size_of decrypted)] ;;
     ret decrypted)
    (fun error =>
       AuditLogger.logError rt (js "system") (js "decrypt_data") error
         [(js "operation", VString (js "decrypt"))] ;;
       throw error).

Definition encryptFile (rt : Runtime) (inputPath outputPath : jsstring)
  : M unit :=
  try_catch
    (let! data := Fs.readFileSync inputPath in
     let! encryptedData := encryptData rt (inl data) in
     Fs.writeFileSync_utf8 rt outputPath encryptedData ;;
     AuditLogger.logSecurityEvent rt (js "system") (js "encrypt_file")
       (js "localhost") (js "success")
       [(js "input_file", VString inputPath);
        (js "output_file", VString outputPath);
        (js "size", size_of data)])
    (fun error =>
       AuditLogger.logError rt (js "system") (js "encrypt_file") error
         [(js "file", VString inputPath)] ;;
       throw error).

Definition decryptFile (rt : Runtime) (inputPath outputPath : jsstring)
  : M unit :=
  try_catch
    (let! encryptedData := Fs.readFileSync_utf8 rt inputPath in
     let! decryptedData := decryptData rt encryptedData in
     Fs.writeFileSync rt outputPath decryptedData ;;
     AuditLogger.logSecurityEvent rt (js "system") (js "decrypt_file")
       (js "localhost") (js "success")
       [(js "input_file", VString inputPath);
        (js "output_file", VString outputPath);
        (js "size", size_of decryptedData)])
    (fun error =>
       AuditLogger.logError rt (js "system") (js "decrypt_file") error
         [(js "file", VString inputPath)] ;;
       throw error).

End AESEncryption.

(** ** Conversion orchestrator: [ExcelToXMLConverter.convert] *)

Fixpoint starts_with (pattern s : jsstring) : bool :=
  match pattern, s with
  | [], _ => true
  | a :: pattern', b :: s' => (a =? b) && starts_with pattern' s'
  | _ :: _, [] => false
  end.

(** [s.replace(pattern, replacement)] with a string pattern: the first
    occurrence only. *)
Fixpoint replace_first (pattern replacement s : jsstring) : jsstring :=
  if starts_with pattern s then replacement ++ drop (length pattern) s
  else match s with
       | [] => []
       | c :: s' => c :: replace_first pattern replacement s'
       end.

(** [array.join(separator)]. *)
Fixpoint join (separator : jsstring) (l : list jsstring) : jsstring :=
  match l with
  | [] => []
  | [s] => s
  | s :: l' => s ++ separator ++ join separator l'
  end.

(** [XLSX.readFile(path, options)]. *)
Definition XLSX_readFile (rt : Runtime) (path : jsstring) : M Workbook :=
  let! data := Fs.readFileSync path in lift (xlsx_parse rt data).

Record Summary := {
  success : bool;
  rowsProcessed : nat;
  conversionTime : Z
}.

Definition EMPTY_FILE : exn := Error (js "Excel file is empty").

(** [sheetName || workbook.SheetNames[0]]; [None] is [undefined]. *)
Definition sheet_to_process (sheetName : option jsstring) (workbook : Workbook)
  : option jsstring :=
  match sheetName with
  | Some name => if truthy name then Some name else head (SheetNames workbook)
  | None => head (SheetNames workbook)
  end.

Definition name_or_undefined (name : option jsstring) : jsstring :=
  default (js "undefined") name.

Definition null_or_string (s : option jsstring) : jsval :=
  match s with
  | Some s => VString s
  | None => VNull
  end.

(** The path the encrypted output is written to. *)
Definition encrypted_path (outputFile : jsstring) : jsstring :=
  replace_first (js ".xml") (js ".xml.enc") outputFile.

(** The first part of the [try] block: the input file is checked and read,
    the sheet is selected.  Returns the name and the worksheet. *)
Definition load_sheet (rt : Runtime) (inputFile : jsstring)
    (sheetName : option jsstring) : M (jsstring * Worksheet) :=
  let! found := Fs.existsSync inputFile in
  if negb found
  then throw (Error (js "Input file not found: " ++ inputFile))
  else
  let! workbook :=
    try_catch (XLSX_readFile rt inputFile)
      (fun error =>
         throw (Error (js "Failed to read Excel file: " ++ message error))) in
  let sheetToProcess := sheet_to_process sheetName workbook in
  if negb (bool_decide (name_or_undefined sheetToProcess ∈ SheetNames workbook)
           && bool_decide (is_Some sheetToProcess))
  then throw (Error (js "Sheet " ++ [34] ++ name_or_undefined sheetToProcess
                     ++ [34] ++ js " not found in workbook"))
  else
  match Sheets workbook !! name_or_undefined sheetToProcess with
  | None =>
      throw (Error (js "Cannot read properties of undefined (reading '!ref')"))
  | Some worksheet => ret (name_or_undefined sheetToProcess, worksheet)
  end.

(** The encryption step of the [try] block; returns [finalOutput]. *)
Definition encrypt_output (rt : Runtime) (outputFile : jsstring)
    (encryptOutput : bool) : M jsstring :=
  if encryptOutput
  then
    let encryptedOutput := encrypted_path outputFile in
    AESEncryption.encryptFile rt outputFile encryptedOutput ;;
    Fs.unlinkSync outputFile ;;
    ret encryptedOutput
  else ret outputFile.

(** The [try] block of [convert]. *)
Definition convert_try (rt : Runtime) (startTime : Z)
    (inputFile outputFile : jsstring)
    (headerFields : option (jsobject jsval)) (sheetName : option jsstring)
    (encryptOutput : bool) (userId : jsstring) : M Summary :=
  let! loaded := load_sheet rt inputFile sheetName in
  let '(sheetToProcess, worksheet) := loaded in
  let range := decode_range worksheet in
  if bool_decide (e_r range = 0%nat) && bool_decide (e_c range = 0%nat)
     && negb (bool_decide (is_Some (ws_cells worksheet !! (0%nat, 0%nat))))
  then throw EMPTY_FILE
  else
  let records := _processExcelData worksheet in
  if bool_decide (length records = 0%nat)
  then throw EMPTY_FILE
  else
  let! doc := lift (assemble (xml_library rt) records headerFields) in
  let xmlContent := xml_end rt doc in
  Fs.writeFileSync_utf8 rt outputFile xmlContent ;;
  let columns :=
    match records with
    | record :: _ => JsObject.keys record
    | [] => []
    end in
  let! finalOutput := encrypt_output rt outputFile encryptOutput in
  let! endTime := Date_now rt in
  let conversionTime := (endTime - startTime)%Z in
  AuditLogger.logConversionEvent rt userId inputFile finalOutput
    conversionTime (js "success")
    [(js "rows_processed", VNumber (Z.of_nat (length records)));
     (js "columns", VOther (join [44] columns));
     (js "sheet_name", VString sheetToProcess);
     (js "encrypted", VBool encryptOutput)] ;;
  ret {| success := true; rowsProcessed := length records;
         conversionTime := conversionTime |}.

(** The [catch] block of [convert]. *)
Definition convert_catch (rt : Runtime) (inputFile outputFile : jsstring)
    (sheetName : option jsstring) (encryptOutput : bool) (userId : jsstring)
    (error : exn) : M Summary :=
  AuditLogger.logError rt userId (js "convert_excel_to_xml") error
    [(js "input_file", VString inputFile);
     (js "output_file", VString outputFile);
     (js "sheet_name", null_or_string sheetName);
     (js "encrypted", VBool encryptOutput)] ;;
  throw error.

Definition convert (rt : Runtime) (inputFile outputFile : jsstring)
    (headerFields : option (jsobject jsval)) (sheetName : option jsstring)
    (encryptOutput : bool) (userId : jsstring) : M Summary :=
  let! startTime := Date_now rt in
  try_catch
    (convert_try rt startTime inputFile outputFile headerFields sheetName
       encryptOutput userId)
    (convert_catch rt inputFile outputFile sheetName encryptOutput userId).

(** The value of [finalOutput] at the end of the [try] block. *)
Definition final_output (outputFile : jsstring) (encryptOutput : bool)
  : jsstring :=
  if encryptOutput then encrypted_path outputFile else outputFile.

(** The sheet the orchestrator selects in a workbook. *)
Definition selects (sheetName : option jsstring) (workbook : Workbook)
    (worksheet : Worksheet) : Prop :=
  exists name,
    sheet_to_process sheetName workbook = Some name
    /\ name ∈ SheetNames workbook
    /\ Sheets workbook !! name = Some worksheet.

(** ** A reference runtime and sample inputs

    A small executable instance of [Runtime], used to run the model on
    concrete inputs. *)

Module Sample.

(** The ASCII part of the XML [Name] production. *)
Definition isName (s : jsstring) : bool :=
  match s with
  | [] => false
  | c :: rest =>
      (is_tag_start c || (c =? 58))
      && forallb (fun c => is_tag_char c || (c =? 58)) rest
  end.

(** The states of a reader of empty-element tags: between two tags, in
    the name of a tag, after the slash that ends the name. *)
Inductive reader_state :=
| Outside
| InName (name : jsstring)
| Closing (name : jsstring).

(** The names of a sequence of empty-element tags such as "<a/><b/>". *)
Fixpoint read_empty_tags (state : reader_state) (s : jsstring)
  : option (list jsstring) :=
  match s with
  | [] => match state with Outside => Some [] | _ => None end
  | c :: s' =>
      match state with
      | Outside =>
          if c =? 60 then read_empty_tags (InName []) s' else None
      | InName name =>
          if c =? 47
          then if isName name then read_empty_tags (Closing name) s' else None
          else read_empty_tags (InName (name ++ [c])) s'
      | Closing name =>
          if c =? 62
          then cons name <$> read_empty_tags Outside s'
          else None
      end
  end.

(** A reader for sequences of empty-element tags: the elements become the
    last children of the parent, and the handle of the last one is
    returned.  It refuses any other document. *)
Definition read_fragment (doc : XmlNode) (parent : XmlBuilder.handle)
    (s : jsstring) : res (XmlNode * XmlBuilder.handle) :=
  match read_empty_tags Outside s with
  | Some (name :: names) =>
      Ok (foldl (fun doc name =>
                   XmlBuilder.update_at parent
                     (XmlBuilder.add_child (Element name [])) doc)
            doc (name :: names),
          parent ++ [(XmlBuilder.child_count parent doc + length names)%nat])
  | _ => Throw (Error (js "Error parsing XML string"))
  end.

(** The library of the examples: a string whose first character other
    than white space is '<', a brace or a bracket goes to the reader; a
    name of ASCII characters gives an element. *)
Definition library : XmlBuilder.library :=
  {| XmlBuilder.is_document := fun s =>
       match trimStart s with
       | c :: _ => (c =? 60) || (c =? 123) || (c =? 91)
       | [] => false
       end;
     XmlBuilder.parse := read_fragment;
     XmlBuilder.createElement := fun s =>
       if isName s then Ok (Element s [])
       else Throw (Error (js "Invalid character in name: " ++ s)) |}.

(** A serializer without indentation. *)
Fixpoint serialize (t : XmlNode) : jsstring :=
  match t with
  | Element name cs =>
      js "<" ++ name ++ js ">" ++ concat (map serialize cs)
        ++ js "</" ++ name ++ js ">"
  | Text d => d
  end.

(** A codec for ASCII text; other code units are written as "?". *)
Definition ascii_encode (s : jsstring) : list byte :=
  (fun c => Base64.byte_of_N (if c <? 128 then c else 63)) <$> s.

Definition ascii_decode (bs : list byte) : jsstring := Byte.to_N <$> bs.

(** A key-derivation stand-in: [keylen] bytes read off the password. *)
Definition derive (password salt : jsstring) (iterations : N) (keylen : nat)
    (digest : jsstring) : list byte :=
  (fun i => Base64.byte_of_N (nth i (password ++ salt) 0 + N.of_nat i))
    <$> seq 0 keylen.

(** A toy cipher with the interface of the real one: every byte is shifted
    by an offset computed from the key and the initialization vector.  It
    checks the lengths of the key and of the vector as the real one does. *)
Definition offset (key iv : list byte) : N :=
  foldr (fun b acc => (Byte.to_N b + acc) mod 256) 0 (key ++ iv).

Definition bad_lengths (key iv : list byte) : bool :=
  negb (bool_decide (length key = 32%nat) && bool_decide (length iv = 16%nat)).

Definition shift_cipher (algorithm : jsstring) (key iv data : list byte)
  : res (list byte) :=
  if bad_lengths key iv then Throw (Error (js "Invalid key length"))
  else Ok ((fun b => Base64.byte_of_N (Byte.to_N b + offset key iv)) <$> data).

Definition shift_decipher (algorithm : jsstring) (key iv data : list byte)
  : res (list byte) :=
  if bad_lengths key iv then Throw (Error (js "Invalid key length"))
  else Ok ((fun b => Base64.byte_of_N (Byte.to_N b + 256 - offset key iv))
             <$> data).

Definition text_cell (s : string) : Cell :=
  {| w := VString (js s); v := VString (js s) |}.

(** Header row "ID", "Amount" and two data rows. *)
Definition sheet1 : Worksheet :=
  {| ws_ref := Some {| s_r := 0; s_c := 0; e_r := 2; e_c := 1 |};
     ws_cells :=
       list_to_map
         [((0, 0), text_cell "ID"); ((0, 1), text_cell "Amount");
          ((1, 0), text_cell "1"); ((1, 1), text_cell "10.50");
          ((2, 0), text_cell "2"); ((2, 1), text_cell "20.00")]%nat |}.

(** A header row only. *)
Definition header_only : Worksheet :=
  {| ws_ref := Some {| s_r := 0; s_c := 0; e_r := 0; e_c := 1 |};
     ws_cells :=
       list_to_map
         [((0, 0), text_cell "ID"); ((0, 1), text_cell "Amount")]%nat |}.

(** Header row "Name", "", "Age" and one data row. *)
Definition sheet_blank_header : Worksheet :=
  {| ws_ref := Some {| s_r := 0; s_c := 0; e_r := 1; e_c := 2 |};
     ws_cells :=
       list_to_map
         [((0, 0), text_cell "Name"); ((0, 1), text_cell "");
          ((0, 2), text_cell "Age"); ((1, 0), text_cell "Ann");
          ((1, 1), text_cell "x"); ((1, 2), text_cell "30")]%nat |}.

(** Two columns headed "Name". *)
Definition sheet_duplicate_header : Worksheet :=
  {| ws_ref := Some {| s_r := 0; s_c := 0; e_r := 1; e_c := 1 |};
     ws_cells :=
       list_to_map
         [((0, 0), text_cell "Name"); ((0, 1), text_cell "Name");
          ((1, 0), text_cell "Ann"); ((1, 1), text_cell "Bob")]%nat |}.

(** Headers "__proto__", "__proto__", "B" and one data row. *)
Definition sheet_proto_headers : Worksheet :=
  {| ws_ref := Some {| s_r := 0; s_c := 0; e_r := 1; e_c := 2 |};
     ws_cells :=
       list_to_map
         [((0, 0), text_cell "__proto__"); ((0, 1), text_cell "__proto__");
          ((0, 2), text_cell "B");
          ((1, 0), text_cell "x1"); ((1, 1), text_cell "x2");
          ((1, 2), text_cell "y")]%nat |}.

(** The literal header "COL_2" in the first column and a blank header in
    the second, whose placeholder is "COL_2" as well. *)
Definition sheet_placeholder_clash : Worksheet :=
  {| ws_ref := Some {| s_r := 0; s_c := 0; e_r := 1; e_c := 1 |};
     ws_cells :=
       list_to_map
         [((0, 0), text_cell "COL_2");
          ((1, 0), text_cell "left"); ((1, 1), text_cell "right")]%nat |}.

(** A number formatted so that nothing is displayed: the display text is
    the empty string, the raw value is 7. *)
Definition hidden_number : Cell := {| w := VString []; v := VNumber 7 |}.

(** The number 7 displayed with leading zeros. *)
Definition padded_number : Cell := {| w := VString (js "007"); v := VNumber 7 |}.

Definition sheet_hidden_number : Worksheet :=
  {| ws_ref := Some {| s_r := 0; s_c := 0; e_r := 1; e_c := 0 |};
     ws_cells :=
       list_to_map [((0, 0), text_cell "A"); ((1, 0), hidden_number)]%nat |}.

Definition sheet_padded_number : Worksheet :=
  {| ws_ref := Some {| s_r := 0; s_c := 0; e_r := 1; e_c := 0 |};
     ws_cells :=
       list_to_map [((0, 0), text_cell "A"); ((1, 0), padded_number)]%nat |}.

(** Two caller-supplied header fields. *)
Definition header_fields1 : option (jsobject jsval) :=
  Some [(js "Bank Code", VNumber 12); (js "Period", VNull)].

(** The document expected for [sheet1] with [header_fields1]. *)
Definition document1 : XmlNode :=
  Element XML_ROOT_ELEMENT
    [Element XML_HEADER_ELEMENT
       [Element (js "Bank_Code") [Text (js "12")];
        Element (js "Period") [Text []]];
     Element XML_BODY_ELEMENT
       [Element XML_ROW_ELEMENT
          [Element (js "ID") [Text (js "1")];
           Element (js "Amount") [Text (js "10.50")]];
        Element XML_ROW_ELEMENT
          [Element (js "ID") [Text (js "2")];
           Element (js "Amount") [Text (js "20.00")]]]].

Definition workbook1 : Workbook :=
  {| SheetNames := [js "Sheet1"; js "Empty"];
     Sheets := list_to_map [(js "Sheet1", sheet1); (js "Empty", header_only)] |}.

(** The sample parser ignores the bytes of the file. *)
Definition runtime (can_write : jsstring -> bool) : Runtime :=
  {| xml_library := library;
     xml_end := serialize;
     xlsx_parse := fun _ => Ok workbook1;
     utf8_encode := ascii_encode;
     utf8_decode := ascii_decode;
     pbkdf2Sync := derive;
     cipher := shift_cipher;
     decipher := shift_decipher;
     clock := fun k => (1000 + 5 * Z.of_nat k)%Z;
     entropy := fun k => Base64.byte_of_N (N.of_nat (7 * k + 1));
     writable := can_write;
     ENCRYPTION_KEY := None |}.

Definition input_path : jsstring := js "/tmp/in.xlsx".

(** A world holding the uploaded input file only. *)
Definition world0 : World :=
  {| files := {[ input_path := [x50; x4b] ]};
     audit := [];
     clock_reads := 0;
     random_reads := 0 |}.

(** A runtime in which every path can be written, and one in which the
    encrypted output cannot. *)
Definition rt_ok : Runtime := runtime (fun _ => true).

Definition rt_enc_denied : Runtime :=
  runtime (fun path => negb (bool_decide (path = js "/out/a.xml.enc"))).

(** The plaintext XML written for [sheet1] without header fields. *)
Definition plaintext1 : list byte :=
  ascii_encode
    (serialize
       (Element XML_ROOT_ELEMENT
          [Element XML_BODY_ELEMENT
             (row_element <$> _processExcelData sheet1)])).

End Sample.

(** *** Notions used to state the effects of a computation *)

(** [m] changes no file other than those at [paths], whatever its result. *)
Definition touches_only {A} (paths : list jsstring) (m : M A) : Prop :=
  forall world p,
    p ∉ paths -> files (m world).2 !! p = files world !! p.

(** [m] only appends records to the audit log, whatever its result. *)
Definition appends_audit {A} (m : M A) : Prop :=
  forall world, audit world `prefix_of` audit (m world).2.

(** [pattern] occurs in [s]. *)
Definition occurs (pattern s : jsstring) : Prop :=
  exists before after, s = before ++ pattern ++ after.

(** ** Security middleware: [checkXSS]

    The six patterns of [XSS_PATTERNS] use a small fragment of the regular
    expression language: pattern characters, the classes [[^>]] and
    [[\s\S]], and a greedy or lazy repetition of one class.  All six carry
    the flags [g] and [i]. *)

Module RegExp.

Inductive matcher :=
| Char (c : N)
| NotChar (c : N)
| AnyChar.

Inductive item :=
| One (m : matcher)
| Star (m : matcher)
| LazyStar (m : matcher).

Definition pattern := list item.

(** The canonical form that the [i] flag compares.  The patterns hold
    ASCII characters only, and no code unit outside ASCII has an ASCII
    canonical form, so mapping [a-z] to [A-Z] decides every comparison
    with a pattern character. *)
Definition to_upper (c : N) : N := if is_lower c then c - 32 else c.

Definition accepts (m : matcher) (x : N) : bool :=
  match m with
  | Char c => to_upper x =? to_upper c
  | NotChar c => negb (to_upper x =? to_upper c)
  | AnyChar => true
  end.

(** The match of a pattern at the start of [s], found by backtracking: a
    greedy repetition tries the longest run first, a lazy one the shortest.
    Returns the length of the match. *)
Fixpoint match_here (p : pattern) : jsstring -> option nat :=
  match p with
  | [] => fun _ => Some 0%nat
  | One m :: p' =>
      fun s =>
        match s with
        | x :: s' => if accepts m x then S <$> match_here p' s' else None
        | [] => None
        end
  | Star m :: p' =>
      fix star (s : jsstring) : option nat :=
        match s with
        | x :: s' =>
            if accepts m x
            then match star s' with
                 | Some n => Some (S n)
                 | None => match_here p' s
                 end
            else match_here p' s
        | [] => match_here p' []
        end
  | LazyStar m :: p' =>
      fix lazy (s : jsstring) : option nat :=
        match match_here p' s with
        | Some n => Some n
        | None =>
            match s with
            | x :: s' => if accepts m x then S <$> lazy s' else None
            | [] => None
            end
        end
  end.

(** The first match in [s]: its start and its length. *)
Fixpoint find (p : pattern) (s : jsstring) : option (nat * nat) :=
  match match_here p s with
  | Some n => Some (0%nat, n)
  | None =>
      match s with
      | [] => None
      | _ :: s' => (fun '(a, n) => (S a, n)) <$> find p s'
      end
  end.

(** A regular expression object with the [g] flag: the search of [test]
    starts at [lastIndex], which is left at the end of the match, or at 0
    when there is none. *)
Record t := { source : pattern; lastIndex : nat }.

Definition test (re : t) (s : jsstring) : bool * t :=
  if (length s <? lastIndex re)%nat
  then (false, {| source := source re; lastIndex := 0 |})
  else
    match find (source re) (drop (lastIndex re) s) with
    | Some (a, n) =>
        (true, {| source := source re; lastIndex := lastIndex re + a + n |})
    | None => (false, {| source := source re; lastIndex := 0 |})
    end.

(** A pattern that is a string of pattern characters. *)
Definition lits (l : jsstring) : pattern := (fun c => One (Char c)) <$> l.

Definition literal (s : string) : pattern := lits (js s).

Definition create (p : pattern) : t := {| source := p; lastIndex := 0 |}.

End RegExp.

(** The patterns as the module creates them. *)
Definition XSS_PATTERNS : list RegExp.t :=
  RegExp.create
  <$> [RegExp.literal "<script" ++ [RegExp.Star (RegExp.NotChar 62)]
         ++ RegExp.literal ">" ++ [RegExp.LazyStar RegExp.AnyChar]
         ++ RegExp.literal "</script>";
       RegExp.literal "javascript:";
       RegExp.literal "onerror=";
       RegExp.literal "onload=";
       RegExp.literal "eval(";
       RegExp.literal "document.cookie"].

(** [patterns.some(pattern => pattern.test(value))]: the patterns are
    tested in order up to the first that matches; every test updates its
    pattern. *)
Fixpoint some_test (patterns : list RegExp.t) (value : jsstring)
  : bool * list RegExp.t :=
  match patterns with
  | [] => (false, [])
  | re :: patterns' =>
      let '(found, re') := RegExp.test re value in
      if found then (true, re' :: patterns')
      else let '(found', patterns'') := some_test patterns' value in
           (found', re' :: patterns'')
  end.

(** [checkXSS(value)], with the module's patterns as state. *)
Definition checkXSS (value : jsval) (patterns : list RegExp.t)
  : bool * list RegExp.t :=
  match value with
  | VString s => some_test patterns s
  | _ => (false, patterns)
  end.

(** *** What the patterns describe *)

(** Equality up to the case of ASCII letters. *)
Definition ci_equal (w l : jsstring) : Prop :=
  RegExp.to_upper <$> w = RegExp.to_upper <$> l.

Definition ci_occurs (l s : jsstring) : Prop :=
  exists before w after, s = before ++ w ++ after /\ ci_equal w l.

(** An opening script tag, closed by the first [>] after its name,
    followed somewhere by a closing script tag. *)
Definition script_block (s : jsstring) : Prop :=
  exists before opening attrs body closing after,
    s = before ++ opening ++ attrs ++ [62] ++ body ++ closing ++ after
    /\ ci_equal opening (js "<script")
    /\ (62 ∉ attrs)
    /\ ci_equal closing (js "</script>").

(** The strings of the five patterns without operators. *)
Definition XSS_LITERALS : list jsstring :=
  [js "javascript:"; js "onerror="; js "onload="; js "eval(";
   js "document.cookie"].

(** ** Routes: the download handler

    The handler of [GET /download/:fileId].  The plain-text lines that the
    handler writes through [logger.info] and [logger.error] are not audit
    records and are left out; [audit] holds the records of [auditLogger]. *)

(** [auditLogger.logFileOperation]. *)
Definition logFileOperation (rt : Runtime) (userId act fileName : jsstring)
    (fileSize : Z) (stat : jsstring) (dets : list (jsstring * jsval))
  : M unit :=
  AuditLogger.log rt (js "file_operation") userId act
    (AuditLogger.object_of ([(js "file_name", VString fileName);
                             (js "file_size", VNumber fileSize)] ++ dets))
    stat.

(** [fs.statSync(path).size]. *)
Definition statSync_size (path : jsstring) : M Z :=
  fun world =>
    match files world !! path with
    | Some data => (Ok (Z.of_nat (length data)), world)
    | None => (Throw (Fs.no_entry (js "stat") path), world)
    end.

(** What the handler sends: [res.status(code).json(body)], or the file
    sent by [res.download(path, filename, callback)]. *)
Inductive Response :=
| Json (code : nat) (body : list (jsstring * jsval))
| Download (content : list byte) (filename : jsstring).

Section DownloadRoute.

Variable rt : Runtime.

(** [config.getOutputPath]: the file name joined to the output directory. *)
Variable getOutputPath : jsstring -> jsstring.

(** [if (path && fs.existsSync(path)) fs.unlinkSync(path)]. *)
Definition unlink_if_exists (path : jsstring) : M unit :=
  let! found := Fs.existsSync path in
  if found then Fs.unlinkSync path else ret tt.

(** The callback that [res.download] calls once the file is sent. *)
Definition download_cleanup (tempPath : option jsstring)
    (unencryptedPath encryptedPath : jsstring) : M unit :=
  match tempPath with
  | Some path => unlink_if_exists path
  | None => ret tt
  end ;;
  unlink_if_exists unencryptedPath ;;
  unlink_if_exists encryptedPath.

Definition download (fileId : jsstring) : M Response :=
  try_catch
    (let encryptedPath := getOutputPath (fileId ++ js "_output.xml.enc") in
     let unencryptedPath := getOutputPath (fileId ++ js "_output.xml") in
     let! plain_found := Fs.existsSync unencryptedPath in
     let! located :=
       if plain_found then ret (Some (unencryptedPath, None))
       else
         let! encrypted_found := Fs.existsSync encryptedPath in
         if encrypted_found
         then
           let tempPath := getOutputPath (js "temp_" ++ fileId ++ js ".xml") in
           AESEncryption.decryptFile rt encryptedPath tempPath ;;
           ret (Some (tempPath, Some tempPath))
         else ret None in
     match located with
     | None =>
         logFileOperation rt (js "system") (js "download")
           (fileId ++ js ".xml") 0 (js "error")
           [(js "error", VString (js "File not found"))] ;;
         ret (Json 404 [(js "detail", VString (js "File not found"))])
     | Some (filePath, tempPath) =>
         let! fileSize := statSync_size filePath in
         logFileOperation rt (js "system") (js "file_download")
           (fileId ++ js ".xml") fileSize (js "success") [] ;;
         let! content := Fs.readFileSync filePath in
         download_cleanup tempPath unencryptedPath encryptedPath ;;
         ret (Download content (js "converted_" ++ fileId ++ js ".xml"))
     end)
    (fun error =>
       AuditLogger.logError rt (js "system") (js "download_file") error
         [(js "file_id", VString fileId)] ;;
       ret (Json 400 [(js "detail", VString (message error))])).

End DownloadRoute.

(** ** Validation of an uploaded spreadsheet

    [validateExcelFile] and the handler of [POST /validate] that calls it.
    The library functions they use are parameters: [path.extname],
    [String.prototype.toLowerCase], [XLSX.readFile] with its default
    options and [XLSX.utils.sheet_to_json], of whose result only the
    number of rows is used. *)

Definition ALLOWED_EXTENSIONS : list jsstring := [js ".xls"; js ".xlsx"].

(** [req.file], as the upload middleware fills it. *)
Module Upload.

Record t := {
  path : jsstring;
  size : Z;
  originalname : jsstring;
  mimetype : jsstring
}.

End Upload.

Section Validation.

Variable rt : Runtime.
Variable extname : jsstring -> jsstring.
Variable toLowerCase : jsstring -> jsstring.
Variable readFile_default : list byte -> res Workbook.
Variable sheet_to_json : option Worksheet -> res (list (jsobject jsval)).

(** [config.MAX_UPLOAD_SIZE_MB]. *)
Variable MAX_UPLOAD_SIZE_MB : Z.

(** [config.validateFileExtension]. *)
Definition validateFileExtension (filename : jsstring) : bool :=
  bool_decide (toLowerCase (extname filename) ∈ ALLOWED_EXTENSIONS).

Definition validateExcelFile (filePath : jsstring) : M bool :=
  try_catch
    (if negb (validateFileExtension filePath) then ret false
     else
       let! data := Fs.readFileSync filePath in
       let! workbook := lift (readFile_default data) in
       match SheetNames workbook with
       | [] => ret false
       | first :: _ =>
           let firstSheet := Sheets workbook !! first in
           let! jsonData := lift (sheet_to_json firstSheet) in
           if (length jsonData =? 0)%nat then ret false else ret true
       end)
    (fun error =>
       AuditLogger.logError rt (js "system") (js "validate_excel_file") error
         [(js "file", VString filePath)] ;;
       ret false).

(** The handler of [POST /validate]: the [try] and [catch] blocks, then
    the [finally] block, which runs on every path. *)
Definition validate (file : option Upload.t) : M Response :=
  let uploadedFilePath := Upload.path <$> file in
  let! response :=
    try_catch
      (match file with
       | None =>
           ret (Json 400 [(js "is_valid", VBool false);
                          (js "message", VString (js "No file uploaded"))])
       | Some upload =>
           let fileSize := Upload.size upload in
           let fileType := extname (Upload.originalname upload) in
           if (MAX_UPLOAD_SIZE_MB * 1024 * 1024 <? fileSize)%Z
           then
             ret (Json 200
                    [(js "is_valid", VBool false);
                     (js "message",
                      VString (js "File size exceeds "
                               ++ decimal_of_Z MAX_UPLOAD_SIZE_MB
                               ++ js "MB limit"));
                     (js "file_size", VNumber fileSize);
                     (js "file_type", VString fileType)])
           else if negb (validateFileExtension (Upload.originalname upload))
           then
             ret (Json 200
                    [(js "is_valid", VBool false);
                     (js "message",
                      VString (js ("Invalid file type. "
                                   ++ "Only .xls and .xlsx files are allowed")));
                     (js "file_size", VNumber fileSize);
                     (js "file_type", VString fileType)])
           else
             let! isValid := validateExcelFile (Upload.path upload) in
             ret (Json 200
                    [(js "is_valid", VBool isValid);
                     (js "message",
                      VString (if isValid then js "File is valid"
                               else js "Invalid Excel file format"));
                     (js "file_size", VNumber fileSize);
                     (js "file_type", VString fileType)])
       end)
      (fun error =>
         AuditLogger.logError rt (js "system") (js "validate_file") error
           [(js "filename",
             match file with
             | Some upload => VString (Upload.originalname upload)
             | None => VUndefined
             end)] ;;
         ret (Json 400 [(js "detail", VString (message error))])) in
  match uploadedFilePath with
  | Some uploadedPath =>
      if truthy uploadedPath then unlink_if_exists uploadedPath else ret tt
  | None => ret tt
  end ;;
  ret response.

End Validation.

(** ** Security middleware: [getClientIP] *)

(** [s.split(",")[0]]: the part of [s] before its first comma. *)
Fixpoint first_field (s : jsstring) : jsstring :=
  match s with
  | [] => []
  | c :: s' => if c =? 44 then [] else c :: first_field s'
  end.

(** [a || b] for a string or [undefined] on the left. *)
Definition or_else (a : option jsstring) (b : jsstring) : jsstring :=
  match a with
  | Some s => if truthy s then s else b
  | None => b
  end.

(** [forwarded] is [req.headers["x-forwarded-for"]], [remoteAddress] is
    [req.socket?.remoteAddress] and [ip] is [req.ip]; [None] stands for
    [undefined]. *)
Definition getClientIP (forwarded remoteAddress ip : option jsstring)
  : jsstring :=
  match forwarded with
  | Some header =>
      if truthy header then trim (first_field header)
      else or_else remoteAddress (or_else ip (js "unknown"))
  | None => or_else remoteAddress (or_else ip (js "unknown"))
  end.

(* ================================================================== *)
(** * Properties *)
(* ================================================================== *)

(** ** Tag sanitizer *)

Section Sanitizer.

Example sanitize_A_B : _sanitizeXmlTag (js "A B") = js "A_B".
Proof. reflexivity. Qed.

Example sanitize_1col : _sanitizeXmlTag (js "1col") = js "_1col".
Proof. reflexivity. Qed.

Example sanitize_empty : _sanitizeXmlTag [] = js "EMPTY_TAG".
Proof. reflexivity. Qed.

(** "héllo!" : the accented letter and the punctuation are stripped. *)
Example sanitize_hello :
  _sanitizeXmlTag (js "h" ++ [233] ++ js "llo!") = js "hllo".
Proof. reflexivity. Qed.

(** A no-break space (U+00A0) counts as white space. *)
Example sanitize_nbsp :
  _sanitizeXmlTag (js "a" ++ [160; 32] ++ js "b") = js "a_b".
Proof. reflexivity. Qed.

Lemma tag_char_not_space c : is_tag_char c = true -> is_space c = false.
Proof.
  intros H. apply not_true_is_false. intros Hs. revert H Hs.
  unfold is_tag_char, is_space, is_letter, is_upper, is_lower, is_digit,
    underscore, period, hyphen.
  rewrite !orb_true_iff, !andb_true_iff, !N.leb_le, !N.eqb_eq. lia.
Qed.

Lemma tag_start_tag_char c : is_tag_start c = true -> is_tag_char c = true.
Proof.
  unfold is_tag_start, is_tag_char. rewrite !orb_true_iff. tauto.
Qed.

Lemma trimStart_no_space c s :
  is_space c = false -> trimStart (c :: s) = c :: s.
Proof. intros H. simpl. by rewrite H. Qed.

Lemma trimStart_tag_chars s :
  forallb is_tag_char s = true -> trimStart s = s.
Proof.
  destruct s as [|c s]; [done|]. simpl. intros [Hc _]%andb_true_iff.
  by rewrite (tag_char_not_space c Hc).
Qed.

Lemma forallb_rev {A} (f : A -> bool) l : forallb f (rev l) = forallb f l.
Proof.
  induction l as [|a l IH]; [done|]. simpl.
  rewrite forallb_app, IH. simpl. rewrite andb_true_r. apply andb_comm.
Qed.

Lemma trim_tag_chars s : forallb is_tag_char s = true -> trim s = s.
Proof.
  intros H. unfold trim, trimEnd. rewrite (trimStart_tag_chars s H).
  rewrite trimStart_tag_chars by (by rewrite forallb_rev).
  apply rev_involutive.
Qed.

Lemma replace_ws_tag_chars r s :
  forallb is_tag_char s = true -> replace_ws r s = s.
Proof.
  unfold replace_ws. induction s as [|c s IH]; [done|]. simpl.
  intros [Hc Hs]%andb_true_iff.
  rewrite (tag_char_not_space c Hc). f_equal. by apply IH.
Qed.

Lemma filter_tag_chars s :
  forallb is_tag_char s = true ->
  filter (fun c => is_tag_char c = true) s = s.
Proof.
  induction s as [|c s IH]; [done|]. simpl.
  intros [Hc Hs]%andb_true_iff.
  rewrite filter_cons_True by done. f_equal. by apply IH.
Qed.

Lemma forallb_filter_tag_chars s :
  forallb is_tag_char (filter (fun c => is_tag_char c = true) s) = true.
Proof.
  induction s as [|c s IH]; [done|].
  destruct (is_tag_char c) eqn:Hc.
  - rewrite filter_cons_True by done. simpl. by rewrite Hc.
  - rewrite filter_cons_False; [done|]. by rewrite Hc.
Qed.

Lemma valid_tag_truthy s : valid_tag s = true -> truthy s = true.
Proof. by destruct s. Qed.

(** A well-formed tag is a fixed point of the sanitizer. *)
Lemma sanitize_valid_tag s : valid_tag s = true -> _sanitizeXmlTag s = s.
Proof.
  intros H. pose proof (valid_tag_truthy s H) as Ht.
  apply andb_true_iff in H as [Hall Hst].
  unfold _sanitizeXmlTag. rewrite Ht. simpl.
  rewrite (trim_tag_chars s Hall), (replace_ws_tag_chars _ s Hall),
    (filter_tag_chars s Hall), Hst. simpl. by rewrite Ht.
Qed.

(** The sanitizer only returns well-formed tags. *)
Lemma sanitize_is_valid x : valid_tag (_sanitizeXmlTag x) = true.
Proof.
  unfold _sanitizeXmlTag. destruct (truthy x); [|done]. simpl.
  fold (sanitize_step3 x). pose proof (forallb_filter_tag_chars
    (replace_ws [underscore] (trim x))) as Hall. fold (sanitize_step3 x) in Hall.
  destruct (starts_with_tag_start (sanitize_step3 x)) eqn:Hst; simpl.
  - rewrite (valid_tag_truthy (sanitize_step3 x)); simpl.
    + unfold valid_tag. by rewrite Hall, Hst.
    + unfold valid_tag. by rewrite Hall, Hst.
  - unfold valid_tag. simpl. by rewrite Hall.
Qed.

(** When the third step strips a non-empty label down to nothing, the
    underscore prepended by the fourth step makes the tag non-empty, so the
    fallback of the fifth step is never taken. *)
Lemma sanitize_stripped x :
  x <> [] -> sanitize_step3 x = [] -> _sanitizeXmlTag x = [underscore].
Proof.
  intros Hx H3. unfold _sanitizeXmlTag. destruct x as [|c x]; [done|].
  cbn [truthy negb]. fold (sanitize_step3 (c :: x)). by rewrite H3.
Qed.

End Sanitizer.

(** C8: the tag sanitizer is idempotent: sanitizing an already sanitized
    tag returns it unchanged, for every string. *)
Theorem sanitize_idempotent (x : jsstring) :
  _sanitizeXmlTag (_sanitizeXmlTag x) = _sanitizeXmlTag x.
Proof. apply sanitize_valid_tag, sanitize_is_valid. Qed.

(** C3: on the label "!!!" the third step leaves the empty string, yet the
    sanitizer returns "_" and not the placeholder "EMPTY_TAG". *)
Theorem sanitize_stripped_not_placeholder :
  sanitize_step3 (js "!!!") = []
  /\ _sanitizeXmlTag (js "!!!") = js "_"
  /\ _sanitizeXmlTag (js "!!!") <> EMPTY_TAG.
Proof. by vm_compute. Qed.

(** ** JavaScript objects *)

Section ObjectFacts.
Context {V : Type}.
Implicit Types (o : jsobject V) (k : jsstring) (v : V).

Lemma get_define_eq k v o : JsObject.get k (JsObject.define k v o) = Some v.
Proof.
  induction o as [|[k' v'] o IH]; simpl.
  - by rewrite decide_True.
  - destruct (decide (k' = k)) as [->|Hne]; simpl.
    + by rewrite decide_True.
    + by rewrite decide_False.
Qed.

Lemma get_define_ne k k' v o :
  k <> k' -> JsObject.get k' (JsObject.define k v o) = JsObject.get k' o.
Proof.
  intros Hne. induction o as [|[k0 v0] o IH]; simpl.
  - by rewrite decide_False.
  - destruct (decide (k0 = k)) as [->|Hne0]; simpl.
    + by rewrite !decide_False.
    + by rewrite IH.
Qed.

Lemma fst_define k v o :
  (JsObject.define k v o).*1 = if decide (k ∈ o.*1) then o.*1 else o.*1 ++ [k].
Proof.
  induction o as [|[k' v'] o IH]; [done|].
  cbn [JsObject.define]. rewrite fmap_cons. cbn [fst].
  destruct (decide (k ∈ k' :: o.*1)) as [Hin|Hnin];
    destruct (decide (k' = k)) as [->|Hne]; rewrite fmap_cons; cbn [fst];
    try done.
  - apply elem_of_cons in Hin as [?|Hin]; [congruence|].
    rewrite IH. by rewrite decide_True.
  - destruct Hnin. apply list_elem_of_here.
  - apply not_elem_of_cons in Hnin as [_ Hnin].
    rewrite IH. by rewrite decide_False.
Qed.

Lemma length_define_in k v o :
  k ∈ o.*1 -> length (JsObject.define k v o) = length o.
Proof.
  intros Hin. rewrite <- !(length_fmap fst), fst_define. by rewrite decide_True.
Qed.

Lemma length_define_le k v o : (length (JsObject.define k v o) <= S (length o))%nat.
Proof.
  rewrite <- !(length_fmap fst), fst_define. case_decide; [lia|].
  rewrite length_app. simpl. lia.
Qed.

Lemma elem_of_fst_define k k' v o :
  k' ∈ (JsObject.define k v o).*1 <-> k' = k \/ k' ∈ o.*1.
Proof.
  rewrite fst_define. case_decide.
  - split; [tauto|]. by intros [->|?].
  - rewrite elem_of_app, list_elem_of_singleton. tauto.
Qed.

Lemma NoDup_fst_define k v o : NoDup o.*1 -> NoDup (JsObject.define k v o).*1.
Proof.
  intros Hnd. rewrite fst_define. case_decide; [done|].
  apply NoDup_app. split_and!; [done| |apply NoDup_singleton].
  intros x Hx ->%list_elem_of_singleton. done.
Qed.

Lemma define_all_snoc kvs k v o :
  JsObject.define_all (kvs ++ [(k, v)]) o = JsObject.define k v (JsObject.define_all kvs o).
Proof. unfold JsObject.define_all. by rewrite foldl_snoc. Qed.

Lemma NoDup_define_all kvs o : NoDup o.*1 -> NoDup (JsObject.define_all kvs o).*1.
Proof.
  revert o. induction kvs as [|[k v] kvs IH]; intros o Hnd; [done|].
  simpl. by apply IH, NoDup_fst_define.
Qed.

Lemma elem_of_fst_define_all kvs o k :
  k ∈ (JsObject.define_all kvs o).*1 <-> k ∈ kvs.*1 \/ k ∈ o.*1.
Proof.
  revert o. induction kvs as [|[k' v'] kvs IH]; intros o; simpl.
  - rewrite elem_of_nil. tauto.
  - rewrite IH, elem_of_fst_define, elem_of_cons. tauto.
Qed.

Lemma get_define_all_not_in kvs o k :
  k ∉ kvs.*1 -> JsObject.get k (JsObject.define_all kvs o) = JsObject.get k o.
Proof.
  revert o. induction kvs as [|[k' v'] kvs IH]; intros o Hnin; [done|].
  simpl in *. apply not_elem_of_cons in Hnin as [Hne Hnin].
  rewrite IH by done. by apply get_define_ne.
Qed.

(** A key holds the value of its last assignment. *)
Lemma get_define_all_last kvs1 kvs2 k v o :
  k ∉ kvs2.*1 ->
  JsObject.get k (JsObject.define_all (kvs1 ++ (k, v) :: kvs2) o) = Some v.
Proof.
  intros Hnin. unfold JsObject.define_all. rewrite foldl_app. simpl.
  fold (JsObject.define_all kvs1 o).
  fold (JsObject.define_all kvs2 (JsObject.define k v (JsObject.define_all kvs1 o))).
  rewrite get_define_all_not_in by done. apply get_define_eq.
Qed.

Lemma length_define_all_le kvs o :
  (length (JsObject.define_all kvs o) <= length o + length kvs)%nat.
Proof.
  revert o. induction kvs as [|[k v] kvs IH]; intros o; simpl; [lia|].
  pose proof (IH (JsObject.define k v o)). pose proof (length_define_le k v o). lia.
Qed.

(** Two assignments to one key leave fewer properties than assignments. *)
Lemma length_define_all_lt kvs1 kvs2 kvs3 k v1 v2 o :
  (length (JsObject.define_all (kvs1 ++ (k, v1) :: kvs2 ++ (k, v2) :: kvs3) o)
   < length o + length (kvs1 ++ (k, v1) :: kvs2 ++ (k, v2) :: kvs3))%nat.
Proof.
  unfold JsObject.define_all.
  rewrite (assoc_L (++) kvs1 [(k, v1)] (kvs2 ++ (k, v2) :: kvs3)) at 1.
  rewrite (assoc_L (++) (kvs1 ++ [(k, v1)]) kvs2 ((k, v2) :: kvs3)) at 1.
  rewrite foldl_app. simpl.
  fold (JsObject.define_all ((kvs1 ++ [(k, v1)]) ++ kvs2) o).
  set (o1 := JsObject.define_all ((kvs1 ++ [(k, v1)]) ++ kvs2) o).
  fold (JsObject.define_all kvs3 (JsObject.define k v2 o1)).
  assert (k ∈ o1.*1) as Hin.
  { apply elem_of_fst_define_all. left. rewrite !fmap_app. simpl.
    rewrite !elem_of_app, list_elem_of_singleton. tauto. }
  pose proof (length_define_all_le kvs3 (JsObject.define k v2 o1)) as H3.
  rewrite (length_define_in _ _ _ Hin) in H3.
  pose proof (length_define_all_le ((kvs1 ++ [(k, v1)]) ++ kvs2) o) as H1.
  fold o1 in H1. rewrite !length_app in *. simpl in *.
  rewrite !length_app in *. simpl in *. lia.
Qed.

Lemma insert_index_perm n (kv : jsstring * V) l :
  JsObject.insert_index n kv l ≡ₚ (n, kv) :: l.
Proof.
  induction l as [|[m kv'] l IH]; simpl; [done|].
  case_match; [done|]. rewrite IH. apply Permutation_swap.
Qed.

(** [Object.entries] enumerates every property once. *)
Lemma entries_perm o : JsObject.entries o ≡ₚ o.
Proof.
  unfold JsObject.entries, JsObject.string_entries.
  induction o as [|kv o IH]; [done|]. simpl.
  destruct (JsObject.array_index kv.1) as [n|] eqn:Hidx.
  - rewrite filter_cons_False by (rewrite Hidx; done).
    rewrite insert_index_perm. simpl. by rewrite IH.
  - rewrite filter_cons_True by done.
    rewrite <- Permutation_middle. by rewrite IH.
Qed.

Lemma keys_perm o : JsObject.keys o ≡ₚ o.*1.
Proof. unfold JsObject.keys. by rewrite entries_perm. Qed.

Lemma length_keys o : length (JsObject.keys o) = length o.
Proof. by rewrite keys_perm, length_fmap. Qed.

(** Without array-index keys the enumeration order is the insertion order. *)
Lemma entries_no_index o :
  Forall (fun kv => JsObject.array_index kv.1 = None) o ->
  JsObject.entries o = o.
Proof.
  intros Ho. unfold JsObject.entries, JsObject.string_entries.
  assert (JsObject.index_entries o = []) as ->.
  { induction Ho as [|kv o Hkv Ho IH]; [done|]. simpl. by rewrite Hkv. }
  simpl. induction Ho as [|kv o Hkv Ho IH]; [done|].
  rewrite filter_cons_True by done. by rewrite IH.
Qed.

(** A sequence of assignments defines the properties assigned under a
    key other than ["__proto__"]. *)
Lemma assign_all_define_all kvs o :
  JsObject.assign_all kvs o
  = JsObject.define_all
      (filter (fun kv : jsstring * V => kv.1 <> JsObject.PROTO) kvs) o.
Proof.
  revert o. induction kvs as [|[k v] kvs IH]; intros o; [done|].
  unfold JsObject.assign_all. cbn [foldl fst snd].
  fold (JsObject.assign_all kvs (JsObject.set k v o)). rewrite IH.
  unfold JsObject.set. destruct (decide (k = JsObject.PROTO)) as [->|Hne].
  - by rewrite filter_cons_False by (by intros ?).
  - by rewrite filter_cons_True by done.
Qed.

Lemma assign_all_no_proto kvs o :
  JsObject.PROTO ∉ kvs.*1 ->
  JsObject.assign_all kvs o = JsObject.define_all kvs o.
Proof.
  intros Hno. rewrite assign_all_define_all. f_equal.
  induction kvs as [|[k v] kvs IH]; [done|].
  rewrite fmap_cons in Hno. apply not_elem_of_cons in Hno as [Hk Hno].
  rewrite filter_cons_True by (by intros ?). by rewrite IH.
Qed.

(** An object built by assignments has no property ["__proto__"]. *)
Lemma proto_not_assigned (kvs : jsobject V) :
  JsObject.PROTO ∉ (JsObject.assign_all kvs []).*1.
Proof.
  rewrite assign_all_define_all. intros Hin.
  apply elem_of_fst_define_all in Hin as [Hin|Hin]; [|by apply elem_of_nil in Hin].
  apply list_elem_of_fmap in Hin as ([k v] & -> & Hin).
  apply list_elem_of_filter in Hin as [Hne _]. by apply Hne.
Qed.

End ObjectFacts.

(** ** Cell extractor *)

Section Extractor.

Variable worksheet : Worksheet.

Lemma elem_of_from_to lo hi i : i ∈ from_to lo hi <-> (lo <= i <= hi)%nat.
Proof. unfold from_to. rewrite elem_of_seq. lia. Qed.

Lemma from_to_split lo hi c :
  (lo <= c <= hi)%nat ->
  from_to lo hi = seq lo (c - lo) ++ c :: from_to (S c) hi.
Proof.
  intros Hc. unfold from_to.
  replace (S hi - lo)%nat with ((c - lo) + S (hi - c))%nat by lia.
  rewrite seq_app. f_equal. replace (lo + (c - lo))%nat with c by lia.
  done.
Qed.

Lemma header_step_insert range headerMap c :
  range = decode_range worksheet ->
  header_step worksheet range headerMap c
  = <[c := header_name worksheet c]> headerMap.
Proof.
  intros ->. unfold header_step, header_name.
  by destruct (ws_cells worksheet !! (s_r (decode_range worksheet), c)).
Qed.

Lemma header_loop_lookup (cols : list nat) (headerMap : gmap nat jsstring) c :
  foldl (header_step worksheet (decode_range worksheet)) headerMap cols !! c
  = if decide (c ∈ cols) then Some (header_name worksheet c)
    else headerMap !! c.
Proof.
  revert headerMap. induction cols as [|c0 cols IH]; intros headerMap.
  - by rewrite decide_False by apply not_elem_of_nil.
  - cbn [foldl]. rewrite IH. rewrite header_step_insert by done.
    destruct (decide (c ∈ cols)) as [Hin|Hnin].
    + rewrite decide_True; [done|]. by apply list_elem_of_further.
    + destruct (decide (c0 = c)) as [->|Hne].
      * rewrite lookup_insert_eq. rewrite decide_True; [done|].
        apply list_elem_of_here.
      * rewrite lookup_insert_ne by done. rewrite decide_False; [done|].
        intros [?|?]%elem_of_cons; congruence.
Qed.

(** In bounds, the header map holds the header name of the column. *)
Lemma colName_of_header_name c :
  c ∈ sheet_columns worksheet ->
  colName_of (build_headerMap worksheet (decode_range worksheet)) c
  = header_name worksheet c.
Proof.
  intros Hc. unfold colName_of, build_headerMap.
  rewrite header_loop_lookup. by rewrite decide_True.
Qed.

Lemma row_step_assign headerMap r rowRecord hasData c :
  row_step worksheet headerMap r (rowRecord, hasData) c
  = (JsObject.set (colName_of headerMap c) (cell_text worksheet r c) rowRecord,
     hasData || bool_decide (cell_text worksheet r c <> [])).
Proof.
  unfold row_step, cell_text.
  destruct (ws_cells worksheet !! (r, c)) as [cell|]; simpl.
  - f_equal. case_bool_decide; by destruct hasData.
  - f_equal. by destruct hasData.
Qed.

Lemma row_loop headerMap r cols rowRecord hasData :
  foldl (row_step worksheet headerMap r) (rowRecord, hasData) cols
  = (JsObject.assign_all (row_assignments worksheet headerMap r cols) rowRecord,
     hasData
     || existsb (fun c => bool_decide (cell_text worksheet r c <> [])) cols).
Proof.
  revert rowRecord hasData.
  induction cols as [|c cols IH]; intros rowRecord hasData.
  - simpl. by rewrite orb_false_r.
  - cbn [foldl]. rewrite row_step_assign, IH. simpl.
    by rewrite orb_assoc.
Qed.

Lemma records_loop range headerMap rows records :
  foldl (records_step worksheet range headerMap) records rows
  = records
    ++ ((fun r => (build_row worksheet range headerMap r).1)
          <$> filter (fun r => (build_row worksheet range headerMap r).2 = true)
                rows).
Proof.
  revert records. induction rows as [|r rows IH]; intros records.
  - simpl. by rewrite app_nil_r.
  - cbn [foldl]. rewrite IH. unfold records_step.
    destruct (build_row worksheet range headerMap r) as [rowRecord hasData] eqn:Hr.
    destruct hasData.
    + rewrite filter_cons_True by (by rewrite Hr). simpl.
      rewrite Hr. simpl. by rewrite <- app_assoc.
    + rewrite filter_cons_False; [done|]. by rewrite Hr.
Qed.

Lemma build_row_record r :
  build_row worksheet (decode_range worksheet)
    (build_headerMap worksheet (decode_range worksheet)) r
  = (row_record worksheet r, row_has_data worksheet r).
Proof. unfold build_row. by rewrite row_loop. Qed.

(** The extractor keeps, in row order, the records of the data rows that
    have a non-empty cell. *)
Lemma processExcelData_rows :
  _processExcelData worksheet
  = row_record worksheet
    <$> filter (fun r => row_has_data worksheet r = true)
                     (sheet_data_rows worksheet).
Proof.
  unfold _processExcelData. cbv zeta. rewrite records_loop, app_nil_l.
  fold (sheet_data_rows worksheet).
  rewrite (list_filter_iff _ (fun r => row_has_data worksheet r = true))
    by (intros r; by rewrite build_row_record).
  apply list_fmap_ext. intros _ r _. by rewrite build_row_record.
Qed.

Lemma elem_of_processExcelData record :
  record ∈ _processExcelData worksheet <->
  exists r, r ∈ sheet_data_rows worksheet /\ row_has_data worksheet r = true
            /\ record = row_record worksheet r.
Proof.
  rewrite processExcelData_rows, list_elem_of_fmap. split.
  - intros (r & -> & [Hd Hin]%list_elem_of_filter). by exists r.
  - intros (r & Hin & Hd & ->). exists r. split; [done|].
    by apply list_elem_of_filter.
Qed.

Lemma row_assignments_header_name r :
  row_assignments worksheet
    (build_headerMap worksheet (decode_range worksheet)) r
    (sheet_columns worksheet)
  = (fun c => (header_name worksheet c, cell_text worksheet r c))
      <$> sheet_columns worksheet.
Proof.
  apply list_fmap_ext. intros i c Hc.
  rewrite colName_of_header_name; [done|]. by eapply list_elem_of_lookup_2.
Qed.

End Extractor.

Section ExtractorRecords.

Variable worksheet : Worksheet.

Lemma row_record_header_name r :
  row_record worksheet r
  = JsObject.assign_all
      ((fun c => (header_name worksheet c, cell_text worksheet r c))
         <$> sheet_columns worksheet) [].
Proof. unfold row_record. by rewrite row_assignments_header_name. Qed.

Lemma NoDup_keys_row_record r : NoDup (JsObject.keys (row_record worksheet r)).
Proof.
  rewrite keys_perm. unfold row_record. rewrite assign_all_define_all.
  apply NoDup_define_all, NoDup_nil_2.
Qed.

Lemma header_name_in_row_record r c :
  c ∈ sheet_columns worksheet ->
  header_name worksheet c <> JsObject.PROTO ->
  header_name worksheet c ∈ JsObject.keys (row_record worksheet r).
Proof.
  intros Hc Hne. rewrite keys_perm, row_record_header_name.
  rewrite assign_all_define_all.
  apply elem_of_fst_define_all. left.
  apply list_elem_of_fmap. eexists (_, _). split; [done|].
  apply list_elem_of_filter. split; [exact Hne|].
  apply list_elem_of_fmap. by exists c.
Qed.

(** No column gives a field named ["__proto__"]. *)
Lemma proto_not_in_row_record r :
  JsObject.PROTO ∉ JsObject.keys (row_record worksheet r).
Proof. rewrite keys_perm. apply proto_not_assigned. Qed.

(** A column that no later column shares its name with keeps its text. *)
Lemma get_row_record_rightmost r c :
  c ∈ sheet_columns worksheet ->
  header_name worksheet c <> JsObject.PROTO ->
  (forall c', c' ∈ sheet_columns worksheet -> (c < c')%nat ->
              header_name worksheet c' <> header_name worksheet c) ->
  JsObject.get (header_name worksheet c) (row_record worksheet r)
  = Some (cell_text worksheet r c).
Proof.
  intros Hc Hne Hright. rewrite row_record_header_name.
  rewrite assign_all_define_all.
  pose proof Hc as Hb. apply elem_of_from_to in Hb.
  revert Hright. unfold sheet_columns in *.
  rewrite (from_to_split _ _ c Hb). intros Hright.
  rewrite fmap_app, fmap_cons, filter_app, filter_cons_True by exact Hne.
  apply get_define_all_last.
  intros ([k v] & Hk & Hin)%list_elem_of_fmap. cbn [fst] in Hk.
  apply list_elem_of_filter in Hin as [_ Hin].
  apply list_elem_of_fmap in Hin as (c' & [= -> ->] & Hc').
  pose proof Hc' as Hb'. apply elem_of_from_to in Hb'.
  apply (Hright c'); [|lia|done].
  apply elem_of_app. right. by apply list_elem_of_further.
Qed.

(** Two columns sharing a name leave fewer fields than columns. *)
Lemma length_row_record_lt r c1 c2 :
  c1 ∈ sheet_columns worksheet -> c2 ∈ sheet_columns worksheet ->
  (c1 < c2)%nat -> header_name worksheet c1 = header_name worksheet c2 ->
  (length (row_record worksheet r) < length (sheet_columns worksheet))%nat.
Proof.
  intros H1 H2 Hlt Hname. rewrite row_record_header_name.
  rewrite assign_all_define_all.
  apply elem_of_from_to in H1, H2. unfold sheet_columns.
  rewrite (from_to_split _ _ c1) by lia.
  rewrite (from_to_split (S c1) _ c2) by lia.
  rewrite fmap_app, fmap_cons, fmap_app, fmap_cons, Hname.
  set (f := fun c => (header_name worksheet c, cell_text worksheet r c)).
  set (pre := f <$> seq (s_c (decode_range worksheet))
                      (c1 - s_c (decode_range worksheet))).
  set (mid := f <$> seq (S c1) (c2 - S c1)).
  set (post := f <$> from_to (S c2) (e_c (decode_range worksheet))).
  set (keep := fun kv : jsstring * jsstring => kv.1 <> JsObject.PROTO).
  pose proof (length_filter keep pre) as Hpre.
  pose proof (length_filter keep mid) as Hmid.
  pose proof (length_filter keep post) as Hpost.
  rewrite (length_app (seq _ _)), length_cons, (length_app (seq _ _)),
    length_cons.
  rewrite <- !(length_fmap f). fold pre mid post.
  rewrite filter_app.
  destruct (decide (header_name worksheet c2 <> JsObject.PROTO)) as [Hne|Heq].
  - rewrite (filter_cons_True keep) by exact Hne. rewrite filter_app.
    rewrite (filter_cons_True keep) by exact Hne.
    match goal with
    | |- (length (JsObject.define_all ?kvs _) < _)%nat =>
        pose proof (length_define_all_lt (filter keep pre) (filter keep mid)
                      (filter keep post) (header_name worksheet c2)
                      (cell_text worksheet r c1) (cell_text worksheet r c2)
                      []) as Hlen
    end.
    rewrite !length_app, !length_cons, !length_app, !length_cons in Hlen.
    simpl in Hlen. lia.
  - rewrite (filter_cons_False keep) by exact Heq. rewrite filter_app.
    rewrite (filter_cons_False keep) by exact Heq.
    pose proof (length_define_all_le
                  (filter keep pre ++ filter keep mid ++ filter keep post)
                  ([] : jsobject jsstring)) as Hlen.
    rewrite !length_app in Hlen. simpl in Hlen. lia.
Qed.

End ExtractorRecords.

(** C10: in a sheet whose first two columns are both headed "__proto__",
    the two assignments to the record store nothing: the record of the
    data row has no field under the shared name, where one field holding
    the text of the rightmost column is expected. *)
Theorem proto_headers_leave_no_field :
  (0 ∈ sheet_columns Sample.sheet_proto_headers)%nat
  /\ (1 ∈ sheet_columns Sample.sheet_proto_headers)%nat
  /\ header_name Sample.sheet_proto_headers 0
     = header_name Sample.sheet_proto_headers 1
  /\ _processExcelData Sample.sheet_proto_headers = [[(js "B", js "y")]]
  /\ (header_name Sample.sheet_proto_headers 1
      ∉ JsObject.keys [(js "B", js "y")])
  /\ JsObject.get (header_name Sample.sheet_proto_headers 1) [(js "B", js "y")]
     = None.
Proof.
  split_and!; [apply (bool_decide_unpack _); by vm_compute..
              |reflexivity|reflexivity
              |apply (bool_decide_unpack _); by vm_compute|reflexivity].
Qed.

(** The placeholder of a blank header collides with a literal header. *)
Example placeholder_clash :
  _processExcelData Sample.sheet_placeholder_clash
  = [[(js "COL_2", js "right")]].
Proof. reflexivity. Qed.

Example header_synthesis :
  _processExcelData Sample.sheet_blank_header
  = [[(js "Name", js "Ann"); (js "COL_2", js "x"); (js "Age", js "30")]].
Proof. reflexivity. Qed.

(** C6, as stated: a cell whose display text is the empty string and whose
    raw value is 7 is stored as "7", where the stated rule gives the
    display value, the empty string. *)
Lemma blank_display_text_uses_raw_value :
  _processExcelData Sample.sheet_hidden_number = [[(js "A", js "7")]]
  /\ spec_cell_text (ws_cells Sample.sheet_hidden_number !! (1, 0)%nat) = []
  /\ getDisplay (Some Sample.hidden_number)
     <> spec_cell_text (Some Sample.hidden_number).
Proof. by vm_compute. Qed.

(** C6, amended: every extracted record comes from a data row, and for
    every column in bounds whose name is not "__proto__" and is shared by
    no later column, the text stored under that name is: the string form
    of the display value when it is defined and not the empty string; else
    the string form of the raw value when it is defined; else the empty
    string (also for a missing cell).  So raw 7 displayed as "007" is
    stored as "007". *)
Theorem record_holds_display_text (worksheet : Worksheet)
    (record : jsobject jsstring) :
  record ∈ _processExcelData worksheet ->
  exists r, r ∈ sheet_data_rows worksheet /\
    forall c, c ∈ sheet_columns worksheet ->
      header_name worksheet c <> JsObject.PROTO ->
      (forall c', c' ∈ sheet_columns worksheet -> (c < c')%nat ->
                  header_name worksheet c' <> header_name worksheet c) ->
      exists text,
        JsObject.get (header_name worksheet c) record = Some text /\
        match ws_cells worksheet !! (r, c) with
        | None => text = []
        | Some cell =>
            (w cell <> VUndefined -> w cell <> VString [] ->
             text = ToString (w cell))
            /\ (w cell = VUndefined \/ w cell = VString [] ->
                v cell <> VUndefined -> text = ToString (v cell))
            /\ (w cell = VUndefined \/ w cell = VString [] ->
                v cell = VUndefined -> text = [])
        end.
Proof.
  intros (r & Hr & _ & ->)%elem_of_processExcelData.
  exists r. split; [done|]. intros c Hc Hne Hright.
  exists (cell_text worksheet r c). split.
  - by apply get_row_record_rightmost.
  - unfold cell_text.
    destruct (ws_cells worksheet !! (r, c)) as [cell|]; [|done].
    unfold getDisplay. repeat case_bool_decide; simpl; intuition congruence.
Qed.

Lemma record_holds_display_text_witness :
  exists r, r ∈ sheet_data_rows Sample.sheet_padded_number /\
    forall c, c ∈ sheet_columns Sample.sheet_padded_number ->
      header_name Sample.sheet_padded_number c <> JsObject.PROTO ->
      (forall c', c' ∈ sheet_columns Sample.sheet_padded_number ->
                  (c < c')%nat ->
                  header_name Sample.sheet_padded_number c'
                  <> header_name Sample.sheet_padded_number c) ->
      exists text,
        JsObject.get (header_name Sample.sheet_padded_number c)
          [(js "A", js "007")] = Some text /\
        match ws_cells Sample.sheet_padded_number !! (r, c) with
        | None => text = []
        | Some cell =>
            (w cell <> VUndefined -> w cell <> VString [] ->
             text = ToString (w cell))
            /\ (w cell = VUndefined \/ w cell = VString [] ->
                v cell <> VUndefined -> text = ToString (v cell))
            /\ (w cell = VUndefined \/ w cell = VString [] ->
                v cell = VUndefined -> text = [])
        end.
Proof.
  apply (record_holds_display_text Sample.sheet_padded_number).
  apply (bool_decide_unpack _). by vm_compute.
Defined.

Example padded_number_keeps_zeros :
  _processExcelData Sample.sheet_padded_number = [[(js "A", js "007")]]
  /\ ToString (v Sample.padded_number) = js "7".
Proof. by vm_compute. Qed.

(** ** The document builder *)

Section BuilderFacts.

Import XmlBuilder.

Lemma update_at_app p q f doc :
  update_at (p ++ q) f doc = update_at p (update_at q f) doc.
Proof.
  revert doc. induction p as [|i p IH]; intros doc; [done|].
  simpl. destruct doc as [name cs|d]; [|done]. f_equal.
  apply list_alter_ext; [|done]. intros c _. apply IH.
Qed.

Lemma update_at_compose p f g doc :
  update_at p g (update_at p f doc) = update_at p (g ∘ f) doc.
Proof.
  revert doc. induction p as [|i p IH]; intros doc; [done|].
  simpl. destruct doc as [name cs|d]; [|done]. f_equal.
  rewrite list_alter_alter_eq.
  apply list_alter_ext; [|done]. intros c _. apply IH.
Qed.

Lemma update_at_node p f doc n :
  node_at p doc = Some n -> update_at p f doc = update_at p (fun _ => f n) doc.
Proof.
  revert doc. induction p as [|i p IH]; intros doc Hn.
  - simpl in *. congruence.
  - simpl in *. destruct doc as [name cs|d]; [|done]. f_equal.
    destruct (cs !! i) as [c|] eqn:Hc; [|done].
    apply list_alter_ext; [|done]. intros c' Hc'.
    assert (c' = c) as -> by congruence. by apply IH.
Qed.

Lemma node_at_update p f doc n :
  node_at p doc = Some n -> node_at p (update_at p f doc) = Some (f n).
Proof.
  revert doc. induction p as [|i p IH]; intros doc Hn.
  - simpl in *. congruence.
  - simpl in *. destruct doc as [name cs|d]; [|done].
    destruct (cs !! i) as [c|] eqn:Hc; [|done].
    rewrite list_lookup_alter_eq, Hc. simpl. by apply IH.
Qed.

Lemma update_at_id p doc n :
  node_at p doc = Some n -> update_at p (fun _ => n) doc = doc.
Proof.
  revert doc. induction p as [|i p IH]; intros doc Hn.
  - simpl in *. congruence.
  - simpl in *. destruct doc as [name cs|d]; [|done]. f_equal.
    destruct (cs !! i) as [c|] eqn:Hc; [|done].
    rewrite <- (list_alter_id id cs i) at 2 by done.
    apply list_alter_ext; [|done]. intros c' Hc'.
    assert (c' = c) as -> by congruence. by apply IH.
Qed.

Lemma node_at_app p q doc :
  node_at (p ++ q) doc = node_at p doc ≫= node_at q.
Proof.
  revert doc. induction p as [|i p IH]; intros doc; [done|].
  simpl. destruct doc as [name cs|d]; [|done].
  destruct (cs !! i) as [c|]; [|done]. apply IH.
Qed.

(** Replacing a node twice keeps the last replacement. *)
Lemma update_at_twice p x y doc :
  update_at p (fun _ => y) (update_at p (fun _ => x) doc)
  = update_at p (fun _ => y) doc.
Proof. by rewrite update_at_compose. Qed.

(** Replacing the last child of the element at [p]. *)
Lemma update_at_last_child p name cs c x doc :
  node_at p doc = Some (Element name (cs ++ [c])) ->
  update_at (p ++ [length cs]) (fun _ => x) doc
  = update_at p (fun _ => Element name (cs ++ [x])) doc.
Proof.
  intros Hn. rewrite update_at_app.
  rewrite (update_at_node p _ doc _ Hn). simpl.
  rewrite alter_app_r_alt by done. by rewrite Nat.sub_diag.
Qed.

Lemma node_at_last_child p name cs c doc :
  node_at p doc = Some (Element name (cs ++ [c])) ->
  node_at (p ++ [length cs]) doc = Some c.
Proof.
  intros Hn. rewrite node_at_app, Hn. simpl.
  rewrite lookup_app_r by done. by rewrite Nat.sub_diag.
Qed.

(** For a string that the library uses as a name, [ele] appends one empty
    element of that name. *)
Lemma ele_creates lib doc p tag :
  creates lib tag ->
  ele lib doc p tag
  = Ok (update_at p (add_child (Element tag [])) doc, p ++ [child_count p doc]).
Proof. intros [Hd Hc]. unfold ele. by rewrite Hd, Hc. Qed.

(** The effect of [ele] on an element whose content is known. *)
Lemma ele_Ok lib doc p tag name cs doc' child :
  creates lib tag ->
  node_at p doc = Some (Element name cs) ->
  ele lib doc p tag = Ok (doc', child) ->
  doc' = update_at p (fun _ => Element name (cs ++ [Element tag []])) doc
  /\ child = p ++ [length cs]
  /\ node_at p doc' = Some (Element name (cs ++ [Element tag []])).
Proof.
  intros Hc Hn. rewrite (ele_creates _ _ _ _ Hc). unfold child_count.
  rewrite Hn. intros [= <- <-].
  rewrite (update_at_node p _ doc _ Hn). simpl. split_and!; [done..|].
  by apply (node_at_update p (fun _ => Element name (cs ++ [Element tag []])))
    in Hn.
Qed.

(** [ele] followed by [txt] on the new element appends one element
    holding one text node. *)
Lemma ele_txt_Ok lib doc p tag content name cs doc' child :
  creates lib tag ->
  node_at p doc = Some (Element name cs) ->
  ele lib doc p tag = Ok (doc', child) ->
  txt doc' child content
  = update_at p (fun _ => Element name (cs ++ [Element tag [Text content]])) doc.
Proof.
  intros Hc Hn (-> & -> & Hn')%(ele_Ok _ _ _ _ _ _ _ _ Hc Hn).
  unfold txt.
  rewrite (update_at_node _ _ _ _ (node_at_last_child _ _ _ _ _ Hn')).
  rewrite (update_at_last_child _ _ _ _ _ _ Hn'). simpl.
  apply update_at_twice.
Qed.

(** A loop in which every iteration appends one child to the element at
    [p] appends the children in order. *)
Lemma res_for_children {A} (step : XmlNode -> A -> res XmlNode)
    (mk : A -> XmlNode) p name l :
  (forall doc cs a doc',
      a ∈ l ->
      node_at p doc = Some (Element name cs) ->
      step doc a = Ok doc' ->
      doc' = update_at p (fun _ => Element name (cs ++ [mk a])) doc) ->
  forall doc cs doc',
    node_at p doc = Some (Element name cs) ->
    res_for l step doc = Ok doc' ->
    doc' = update_at p (fun _ => Element name (cs ++ (mk <$> l))) doc.
Proof.
  induction l as [|a l IH]; intros Hstep doc cs doc' Hn; simpl.
  - intros [= <-]. rewrite app_nil_r. symmetry. by apply update_at_id.
  - destruct (step doc a) as [doc1|e] eqn:Ha; [|done]. simpl. intros Hl.
    pose proof (Hstep _ _ _ _ (list_elem_of_here _ _) Hn Ha) as ->.
    apply (node_at_update p (fun _ => Element name (cs ++ [mk a]))) in Hn.
    rewrite (IH (fun doc cs a' doc' Ha' =>
                   Hstep doc cs a' doc' (list_elem_of_further _ _ _ Ha'))
               _ _ _ Hn Hl), update_at_twice.
    by rewrite <- app_assoc.
Qed.

Lemma res_for_succeeds {A S} (l : list A) (body : S -> A -> res S) :
  (forall a s, a ∈ l -> exists s', body s a = Ok s') ->
  forall s, exists s', res_for l body s = Ok s'.
Proof.
  induction l as [|a l IH]; intros Hbody s; simpl; [by eexists|].
  destruct (Hbody a s) as [s1 ->]; [apply list_elem_of_here|]. simpl.
  apply IH. intros a' s' Ha'. apply Hbody. by apply list_elem_of_further.
Qed.

(** A loop throws the error of one of its iterations. *)
Lemma res_for_Throw {A S} (l : list A) (body : S -> A -> res S) s e :
  res_for l body s = Throw e -> exists a s', a ∈ l /\ body s' a = Throw e.
Proof.
  revert s. induction l as [|a l IH]; intros s; simpl; [done|].
  destruct (body s a) as [s1|e1] eqn:Ha; simpl.
  - intros (a' & s' & Hin & H)%IH. exists a', s'. split; [|done].
    by apply list_elem_of_further.
  - intros [= ->]. exists a, s. split; [apply list_elem_of_here|done].
Qed.

End BuilderFacts.

(** ** XML assembler *)

Section AssemblerFacts.

Import XmlBuilder.

Variable lib : library.
Hypothesis Htags : creates_tags lib.

Lemma header_field_text_eq value :
  (if bool_decide (value <> VNull) && bool_decide (value <> VUndefined)
   then ToString value else [])
  = header_field_text value.
Proof. by destruct value. Qed.

Lemma header_field_step_Ok header doc entry doc' name cs :
  creates lib (replace_ws [underscore] entry.1) ->
  node_at header doc = Some (Element name cs) ->
  header_field_step lib header doc entry = Ok doc' ->
  doc' = update_at header
           (fun _ => Element name (cs ++ [header_field_element entry])) doc.
Proof.
  intros Hc Hn. destruct entry as [key value]. unfold header_field_step.
  destruct (ele lib doc header (replace_ws [underscore] key))
    as [[doc1 field]|e] eqn:He; simpl; [|done].
  intros [= <-]. rewrite header_field_text_eq.
  by apply (ele_txt_Ok lib doc header _ _ name cs doc1 field).
Qed.

Lemma row_field_step_Ok row doc entry doc' name cs :
  node_at row doc = Some (Element name cs) ->
  row_field_step lib row doc entry = Ok doc' ->
  doc' = update_at row
           (fun _ => Element name (cs ++ [row_field_element entry])) doc.
Proof.
  intros Hn. destruct entry as [fieldName value]. unfold row_field_step.
  destruct (ele lib doc row (_sanitizeXmlTag fieldName))
    as [[doc1 field]|e] eqn:He; simpl; [|done].
  intros [= <-].
  apply (ele_txt_Ok lib doc row _ _ name cs doc1 field); [|done..].
  apply Htags, sanitize_is_valid.
Qed.

Lemma record_step_Ok body doc record doc' name cs :
  node_at body doc = Some (Element name cs) ->
  record_step lib body doc record = Ok doc' ->
  doc' = update_at body
           (fun _ => Element name (cs ++ [row_element record])) doc.
Proof.
  intros Hn. unfold record_step.
  destruct (ele lib doc body XML_ROW_ELEMENT) as [[doc1 row]|e] eqn:He;
    simpl; [|done].
  apply (ele_Ok _ _ _ _ _ _ _ _ (Htags XML_ROW_ELEMENT eq_refl) Hn) in He
    as (-> & -> & Hn1).
  intros Hloop.
  pose proof (node_at_last_child _ _ _ _ _ Hn1) as Hrow.
  apply (res_for_children _ row_field_element _ XML_ROW_ELEMENT _
           (fun doc cs a doc' _ => row_field_step_Ok _ doc a doc' _ cs)
           _ [] _ Hrow) in Hloop as ->.
  rewrite (update_at_last_child _ _ _ _ _ _ Hn1). apply update_at_twice.
Qed.

Lemma createDataSection_Ok body doc records doc' name cs :
  node_at body doc = Some (Element name cs) ->
  _createDataSection lib doc body records = Ok doc' ->
  doc' = update_at body
           (fun _ => Element name (cs ++ (row_element <$> records))) doc.
Proof.
  intros Hn. unfold _createDataSection.
  apply (res_for_children _ row_element _ name _
           (fun doc cs a doc' _ => record_step_Ok _ doc a doc' _ cs)); done.
Qed.

(** The loop over the records returns, whatever the records. *)
Lemma createDataSection_returns body doc records :
  exists doc', _createDataSection lib doc body records = Ok doc'.
Proof.
  unfold _createDataSection. apply res_for_succeeds. intros record doc2 _.
  unfold record_step.
  rewrite (ele_creates _ _ _ _ (Htags XML_ROW_ELEMENT eq_refl)). simpl.
  apply res_for_succeeds. intros [fieldName value] doc3 _.
  unfold row_field_step.
  rewrite (ele_creates _ _ _ _ (Htags _ (sanitize_is_valid fieldName))).
  by eexists.
Qed.

Lemma createHeader_Ok root doc headerFields doc' name cs :
  creates_header_tags lib headerFields ->
  node_at root doc = Some (Element name cs) ->
  _createHeader lib doc root headerFields = Ok doc' ->
  doc' = update_at root
           (fun _ => Element name (cs ++ header_section headerFields)) doc.
Proof.
  intros Hkeys Hn. unfold _createHeader, header_section, JsObject.keys.
  destruct headerFields as [fields|].
  2:{ intros [= <-]. rewrite app_nil_r. symmetry. by apply update_at_id. }
  specialize (Hkeys fields). unfold JsObject.keys in Hkeys.
  destruct (JsObject.entries fields) as [|entry entries] eqn:Hentries.
  { simpl. intros [= <-]. rewrite app_nil_r. symmetry. by apply update_at_id. }
  rewrite fmap_cons. simpl length. cbn [Nat.eqb].
  destruct (ele lib doc root XML_HEADER_ELEMENT) as [[doc1 header]|e] eqn:He;
    [|done]. unfold res_bind. cbv beta match.
  apply (ele_Ok _ _ _ _ _ _ _ _ (Htags XML_HEADER_ELEMENT eq_refl) Hn) in He
    as (-> & -> & Hn1).
  intros Hloop.
  pose proof (node_at_last_child _ _ _ _ _ Hn1) as Hheader.
  apply (res_for_children _ header_field_element _ XML_HEADER_ELEMENT _
           (fun doc cs a doc' Ha =>
              header_field_step_Ok _ doc a doc' _ cs
                (Hkeys a.1 eq_refl (list_elem_of_fmap_2 fst _ a Ha)))
           _ [] _ Hheader) in Hloop as ->.
  rewrite (update_at_last_child _ _ _ _ _ _ Hn1). apply update_at_twice.
Qed.

(** The assembled tree: the root holds the header section, then the body
    with one row element per record. *)
Lemma assemble_Ok records headerFields doc :
  creates_header_tags lib headerFields ->
  assemble lib records headerFields = Ok doc ->
  doc = Element XML_ROOT_ELEMENT
          (header_section headerFields
             ++ [Element XML_BODY_ELEMENT (row_element <$> records)]).
Proof.
  intros Hkeys. unfold assemble, create_root.
  set (doc0 := Element XML_ROOT_ELEMENT []).
  assert (node_at [] doc0 = Some (Element XML_ROOT_ELEMENT [])) as Hn0 by done.
  assert (forall doc1,
    match headerFields with
    | Some fields =>
        if (0 <? length (JsObject.keys fields))%nat
        then _createHeader lib doc0 [] headerFields
        else Ok doc0
    | None => Ok doc0
    end = Ok doc1 ->
    doc1 = Element XML_ROOT_ELEMENT (header_section headerFields)) as Hheader.
  { intros doc1. destruct headerFields as [fields|]; [|by intros [= <-]].
    unfold JsObject.keys.
    destruct (JsObject.entries fields) as [|entry entries] eqn:Hentries.
    - simpl. intros [= <-]. unfold header_section. by rewrite Hentries.
    - rewrite fmap_cons. simpl length. cbn [Nat.ltb Nat.leb].
      intros H. by apply (createHeader_Ok _ _ _ _ _ _ Hkeys Hn0) in H as ->. }
  destruct (match headerFields with Some _ => _ | None => _ end)
    as [doc1|e]; simpl; [|done].
  rewrite (Hheader doc1 eq_refl). clear Hheader.
  set (doc2 := Element XML_ROOT_ELEMENT (header_section headerFields)).
  assert (node_at [] doc2
          = Some (Element XML_ROOT_ELEMENT (header_section headerFields)))
    as Hn2 by done.
  destruct (ele lib doc2 [] XML_BODY_ELEMENT) as [[doc3 body]|e] eqn:He;
    simpl; [|done].
  apply (ele_Ok _ _ _ _ _ _ _ _ (Htags XML_BODY_ELEMENT eq_refl) Hn2) in He
    as (-> & -> & Hn3).
  intros Hloop.
  pose proof (node_at_last_child _ _ _ _ _ Hn3) as Hbody.
  apply (createDataSection_Ok _ _ _ _ _ _ Hbody) in Hloop as ->.
  rewrite (update_at_last_child _ _ _ _ _ _ Hn3). by rewrite app_nil_l.
Qed.

(** Without header fields the assembler returns the root with its body. *)
Lemma assemble_no_header records headerFields :
  header_count headerFields = 0%nat ->
  assemble lib records headerFields
  = Ok (Element XML_ROOT_ELEMENT
          [Element XML_BODY_ELEMENT (row_element <$> records)]).
Proof.
  intros Hcount.
  assert (header_section headerFields = []) as Hsection.
  { unfold header_section. destruct headerFields as [fields|]; [|done].
    simpl in Hcount. unfold JsObject.keys in Hcount.
    by destruct (JsObject.entries fields). }
  assert (creates_header_tags lib headerFields) as Hkeys.
  { intros fields key -> Hin. simpl in Hcount.
    destruct (JsObject.keys fields); [by apply elem_of_nil in Hin|done]. }
  assert (exists doc, assemble lib records headerFields = Ok doc) as [doc Hdoc].
  { unfold assemble, create_root.
    replace (match headerFields with
             | Some fields =>
                 if (0 <? length (JsObject.keys fields))%nat
                 then _createHeader lib (Element XML_ROOT_ELEMENT []) []
                        headerFields
                 else Ok (Element XML_ROOT_ELEMENT [])
             | None => Ok (Element XML_ROOT_ELEMENT [])
             end) with (Ok (A := XmlNode) (Element XML_ROOT_ELEMENT [])).
    2:{ destruct headerFields as [fields|]; [|done]. simpl in Hcount.
        by rewrite Hcount. }
    cbn [res_bind].
    rewrite (ele_creates _ _ _ _ (Htags XML_BODY_ELEMENT eq_refl)).
    cbn [res_bind]. apply createDataSection_returns. }
  rewrite Hdoc. f_equal.
  apply (assemble_Ok _ _ _ Hkeys) in Hdoc. by rewrite Hsection in Hdoc.
Qed.

(** An error of the assembler is the error of one header field, wrapped
    with the name of the field. *)
Lemma assemble_Throw records headerFields error :
  assemble lib records headerFields = Throw error ->
  exists fields key msg,
    headerFields = Some fields
    /\ key ∈ JsObject.keys fields
    /\ error = Error (js "Error processing header field " ++ key ++ js ": "
                      ++ msg).
Proof.
  unfold assemble, create_root.
  destruct (match headerFields with Some _ => _ | None => _ end)
    as [doc1|e] eqn:Hheader; cbn [res_bind].
  - rewrite (ele_creates _ _ _ _ (Htags XML_BODY_ELEMENT eq_refl)).
    cbn [res_bind].
    destruct (createDataSection_returns
                ([] ++ [child_count [] doc1])
                (update_at [] (add_child (Element XML_BODY_ELEMENT [])) doc1)
                records) as [doc' ->].
    done.
  - intros [= ->]. destruct headerFields as [fields|]; [|done].
    destruct (0 <? length (JsObject.keys fields))%nat; [|done].
    unfold _createHeader in Hheader.
    destruct (length (JsObject.keys fields) =? 0)%nat; [done|].
    rewrite (ele_creates _ _ _ _ (Htags XML_HEADER_ELEMENT eq_refl)) in Hheader.
    cbn [res_bind] in Hheader.
    apply res_for_Throw in Hheader as ([key value] & doc' & Hin & Hstep).
    unfold header_field_step in Hstep.
    destruct (res_bind _ _) as [doc2|e] in Hstep; [done|].
    simpl in Hstep. injection Hstep as <-.
    exists fields, key, (message e). split_and!; [done| |done].
    unfold JsObject.keys. apply list_elem_of_fmap. by exists (key, value).
Qed.

Lemma child_names_header_fields (entries : list (jsstring * jsval)) :
  child_names (Element XML_HEADER_ELEMENT (header_field_element <$> entries))
  = replace_ws [underscore] <$> entries.*1.
Proof. simpl. induction entries as [|[k v] entries IH]; [done|]. simpl. by f_equal. Qed.

Lemma child_names_row_element record :
  child_names (row_element record) = _sanitizeXmlTag <$> JsObject.keys record.
Proof.
  unfold row_element, JsObject.keys. simpl.
  induction (JsObject.entries record) as [|[k v] entries IH]; [done|].
  simpl. by f_equal.
Qed.

End AssemblerFacts.

(** The library of the examples creates an element for every well-formed
    tag. *)
Lemma sample_library_creates_tags : creates_tags Sample.library.
Proof.
  intros [|c s]; [done|]. unfold valid_tag.
  cbn [forallb starts_with_tag_start].
  intros [[Hc Hs]%andb_prop Hstart]%andb_prop.
  assert (Sample.isName (c :: s) = true) as Hname.
  { unfold Sample.isName. rewrite Hstart. cbn [orb andb].
    apply forallb_forall. intros d Hd.
    by rewrite (proj1 (forallb_forall _ _) Hs d Hd). }
  split.
  - cbn [XmlBuilder.is_document Sample.library].
    rewrite trimStart_tag_chars by (simpl; by rewrite Hc, Hs).
    revert Hstart. unfold is_tag_start.
    destruct (c =? 60) eqn:H60; [apply N.eqb_eq in H60 as ->; done|].
    destruct (c =? 123) eqn:H123; [apply N.eqb_eq in H123 as ->; done|].
    destruct (c =? 91) eqn:H91; [apply N.eqb_eq in H91 as ->; done|].
    done.
  - cbn [XmlBuilder.createElement Sample.library]. by rewrite Hname.
Qed.

(** C4: the name of a header field reaches the XML library without being
    sanitized, and a name that the library reads as a document adds the
    elements of that document to the header.  With the one field
    "<a/><b/>", whose value is "v", the header element has two children,
    [a] and [b], where one child per field is expected. *)
Theorem fragment_key_adds_two_children :
  header_count (Some [(js "<a/><b/>", VString (js "v"))]) = 1%nat
  /\ assemble Sample.library (_processExcelData Sample.sheet1)
       (Some [(js "<a/><b/>", VString (js "v"))])
     = Ok (Element XML_ROOT_ELEMENT
             [Element XML_HEADER_ELEMENT
                [Element (js "a") []; Element (js "b") [Text (js "v")]];
              Element XML_BODY_ELEMENT
                (row_element <$> _processExcelData Sample.sheet1)])
  /\ length [Element (js "a") []; Element (js "b") [Text (js "v")]]
     <> header_count (Some [(js "<a/><b/>", VString (js "v"))]).
Proof. split_and!; [reflexivity|reflexivity|by vm_compute]. Qed.

(** The shape of the assembled document.  When the XML library creates an
    element for every well-formed tag and for the tag name of every header
    field (the field name with its runs of white space replaced by
    underscores), the assembled document is the root with the header
    section and then one body element.  The header section is one header element when there is
    at least one header field and is absent otherwise; the header element
    has one child per header field, in the order in which the fields of the
    caller's object are enumerated, which is the order in which the caller
    supplied them when no field name is an array index.  The body has one
    row element per record, in order, and every row has one child per field
    of its record, named by the sanitized field name, in the record's field
    order. *)
Theorem assembled_document_shape (lib : XmlBuilder.library)
    (records : list (jsobject jsstring))
    (headerFields : option (jsobject jsval)) (doc : XmlNode) :
  creates_tags lib ->
  creates_header_tags lib headerFields ->
  assemble lib records headerFields = Ok doc ->
  doc = Element XML_ROOT_ELEMENT
          (header_section headerFields
             ++ [Element XML_BODY_ELEMENT (row_element <$> records)])
  /\ length (header_section headerFields)
     = (if decide (0 < header_count headerFields)%nat then 1 else 0)%nat
  /\ (forall header, header ∈ header_section headerFields ->
        exists fields children,
          headerFields = Some fields
          /\ header = Element XML_HEADER_ELEMENT children
          /\ length children = header_count headerFields
          /\ child_names header
             = replace_ws [underscore] <$> JsObject.keys fields
          /\ (Forall (fun kv => JsObject.array_index kv.1 = None) fields ->
              JsObject.keys fields = fields.*1))
  /\ length (row_element <$> records) = length records
  /\ (forall i record, records !! i = Some record ->
        exists children,
          (row_element <$> records) !! i
          = Some (Element XML_ROW_ELEMENT children)
          /\ length children = length (JsObject.keys record)
          /\ child_names (Element XML_ROW_ELEMENT children)
             = _sanitizeXmlTag <$> JsObject.keys record).
Proof.
  intros Htags Hkeys ->%(assemble_Ok lib Htags _ _ _ Hkeys). split_and!.
  - done.
  - unfold header_section, header_count, JsObject.keys.
    destruct headerFields as [fields|]; [|done].
    by destruct (JsObject.entries fields).
  - intros header. unfold header_section, header_count.
    destruct headerFields as [fields|]; [|by intros ?%elem_of_nil].
    unfold JsObject.keys.
    destruct (JsObject.entries fields) as [|entry entries] eqn:Hentries;
      [by intros ?%elem_of_nil|].
    intros ->%list_elem_of_singleton.
    exists fields, (header_field_element <$> entry :: entries).
    split_and!; [done..| | |].
    + by rewrite !length_fmap.
    + rewrite Hentries. apply child_names_header_fields.
    + intros Hno. unfold JsObject.keys. by rewrite entries_no_index.
  - apply length_fmap.
  - intros i record Hi. eexists. rewrite list_lookup_fmap, Hi. simpl.
    split_and!; [done| |].
    + unfold JsObject.keys. by rewrite !length_fmap.
    + apply child_names_row_element.
Qed.

Lemma assembled_document_shape_witness :
  assemble Sample.library (_processExcelData Sample.sheet1)
    Sample.header_fields1 = Ok Sample.document1
  /\ (Sample.document1
      = Element XML_ROOT_ELEMENT
          (header_section Sample.header_fields1
             ++ [Element XML_BODY_ELEMENT
                   (row_element <$> _processExcelData Sample.sheet1)])
      /\ length (header_section Sample.header_fields1)
         = (if decide (0 < header_count Sample.header_fields1)%nat
            then 1 else 0)%nat
      /\ (forall header, header ∈ header_section Sample.header_fields1 ->
            exists fields children,
              Sample.header_fields1 = Some fields
              /\ header = Element XML_HEADER_ELEMENT children
              /\ length children = header_count Sample.header_fields1
              /\ child_names header
                 = replace_ws [underscore] <$> JsObject.keys fields
              /\ (Forall (fun kv => JsObject.array_index kv.1 = None) fields ->
                  JsObject.keys fields = fields.*1))
      /\ length (row_element <$> _processExcelData Sample.sheet1)
         = length (_processExcelData Sample.sheet1)
      /\ (forall i record,
            _processExcelData Sample.sheet1 !! i = Some record ->
            exists children,
              (row_element <$> _processExcelData Sample.sheet1) !! i
              = Some (Element XML_ROW_ELEMENT children)
              /\ length children = length (JsObject.keys record)
              /\ child_names (Element XML_ROW_ELEMENT children)
                 = _sanitizeXmlTag <$> JsObject.keys record)).
Proof.
  split; [reflexivity|].
  apply (assembled_document_shape Sample.library
           (_processExcelData Sample.sheet1) Sample.header_fields1).
  - apply sample_library_creates_tags.
  - intros fields key [= <-] Hin.
    apply sample_library_creates_tags.
    change (key ∈ [js "Bank Code"; js "Period"]) in Hin.
    rewrite !elem_of_cons in Hin.
    destruct Hin as [->|[->|Hin]]; [reflexivity..|by apply elem_of_nil in Hin].
  - reflexivity.
Defined.

(** ** The world monad *)

Section MonadFacts.

Context {A B : Type}.

Lemma bind_Ok (m : M A) (k : A -> M B) world a world1 :
  m world = (Ok a, world1) -> bind m k world = k a world1.
Proof. unfold bind. by intros ->. Qed.

Lemma bind_Throw (m : M A) (k : A -> M B) world e world1 :
  m world = (Throw e, world1) -> bind m k world = (Throw e, world1).
Proof. unfold bind. by intros ->. Qed.

Lemma bind_Ok_inv (m : M A) (k : A -> M B) world b world' :
  bind m k world = (Ok b, world') ->
  exists a world1, m world = (Ok a, world1) /\ k a world1 = (Ok b, world').
Proof.
  unfold bind. destruct (m world) as [[a|e] world1]; [|done]. by exists a, world1.
Qed.

Lemma try_catch_Ok (m : M A) (h : exn -> M A) world a world1 :
  m world = (Ok a, world1) -> try_catch m h world = (Ok a, world1).
Proof. unfold try_catch. by intros ->. Qed.

Lemma try_catch_Throw (m : M A) (h : exn -> M A) world e world1 :
  m world = (Throw e, world1) -> try_catch m h world = h e world1.
Proof. unfold try_catch. by intros ->. Qed.

(** A handler that rethrows lets through the successful runs only. *)
Lemma try_catch_Ok_inv (m : M A) (h : exn -> M A) world a world' :
  (forall e world1, exists e' world2, h e world1 = (Throw e', world2)) ->
  try_catch m h world = (Ok a, world') -> m world = (Ok a, world').
Proof.
  intros Hh. unfold try_catch. destruct (m world) as [[a1|e] world1]; [done|].
  destruct (Hh e world1) as (e' & world2 & ->). done.
Qed.

End MonadFacts.

(** ** Clock, log and file system *)

Section EffectFacts.

Variable rt : Runtime.

Lemma log_Ok eventType userId act dets stat world :
  exists world',
    AuditLogger.log rt eventType userId act dets stat world = (Ok tt, world')
    /\ files world' = files world
    /\ random_reads world' = random_reads world
    /\ clock_reads world' = S (clock_reads world).
Proof. unfold AuditLogger.log, bind, Date_now. by eexists. Qed.

Lemma logError_Ok userId act error dets world :
  exists world',
    AuditLogger.logError rt userId act error dets world = (Ok tt, world')
    /\ files world' = files world
    /\ random_reads world' = random_reads world
    /\ clock_reads world' = S (clock_reads world).
Proof. apply log_Ok. Qed.

Lemma logSecurityEvent_Ok userId act ip stat dets world :
  exists world',
    AuditLogger.logSecurityEvent rt userId act ip stat dets world
    = (Ok tt, world')
    /\ files world' = files world
    /\ random_reads world' = random_reads world
    /\ clock_reads world' = S (clock_reads world).
Proof. apply log_Ok. Qed.

Lemma logConversionEvent_Ok userId inputFile outputFile time stat dets world :
  exists world',
    AuditLogger.logConversionEvent rt userId inputFile outputFile time stat
      dets world = (Ok tt, world')
    /\ files world' = files world
    /\ random_reads world' = random_reads world
    /\ clock_reads world' = S (clock_reads world).
Proof. apply log_Ok. Qed.

(** A handler that logs the error and rethrows it. *)
Lemma log_and_rethrow {A} userId act dets error world :
  exists world',
    (AuditLogger.logError rt userId act error dets ;; throw error) world
    = (@Throw A error, world')
    /\ files world' = files world
    /\ random_reads world' = random_reads world.
Proof.
  destruct (logError_Ok userId act error dets world)
    as (world' & Hlog & Hfiles & Hrand & _).
  exists world'. by rewrite (bind_Ok _ _ _ _ _ Hlog).
Qed.

Lemma convert_catch_throws inputFile outputFile sheetName encryptOutput userId
    error world :
  exists world',
    convert_catch rt inputFile outputFile sheetName encryptOutput userId error
      world = (Throw error, world')
    /\ files world' = files world.
Proof.
  destruct (log_and_rethrow (A := Summary) userId (js "convert_excel_to_xml")
              [(js "input_file", VString inputFile);
               (js "output_file", VString outputFile);
               (js "sheet_name", null_or_string sheetName);
               (js "encrypted", VBool encryptOutput)] error world)
    as (world' & H & Hfiles & _).
  by exists world'.
Qed.

(** Under the conditions of a successful load, [load_sheet] returns the
    selected sheet and leaves the world as it is. *)
Lemma load_sheet_Ok inputFile sheetName world data workbook worksheet :
  files world !! inputFile = Some data ->
  xlsx_parse rt data = Ok workbook ->
  selects sheetName workbook worksheet ->
  exists name,
    load_sheet rt inputFile sheetName world = (Ok (name, worksheet), world).
Proof.
  intros Hfile Hparse (name & Hname & Hin & Hsheet). exists name.
  unfold load_sheet, bind, try_catch, Fs.existsSync, XLSX_readFile, bind,
    Fs.readFileSync, lift, ret.
  rewrite Hfile. rewrite bool_decide_eq_true_2 by eauto.
  cbn [negb]. cbv beta match. rewrite Hfile. cbv beta match.
  rewrite Hparse. cbv beta match. rewrite Hname.
  change (name_or_undefined (Some name)) with name.
  rewrite !bool_decide_eq_true_2 by eauto. cbn [negb andb].
  by rewrite Hsheet.
Qed.

Lemma load_sheet_Ok_inv inputFile sheetName world name worksheet world' :
  load_sheet rt inputFile sheetName world = (Ok (name, worksheet), world') ->
  world' = world
  /\ exists data workbook,
       files world !! inputFile = Some data
       /\ xlsx_parse rt data = Ok workbook
       /\ selects sheetName workbook worksheet.
Proof.
  unfold load_sheet, bind, try_catch, Fs.existsSync, XLSX_readFile, bind,
    Fs.readFileSync, lift, throw, ret.
  destruct (files world !! inputFile) as [data|] eqn:Hfile.
  2:{ rewrite bool_decide_eq_false_2 by (by intros [? ?]). done. }
  rewrite bool_decide_eq_true_2 by eauto.
  cbn [negb]. cbv beta match. rewrite Hfile. cbv beta match.
  destruct (xlsx_parse rt data) as [workbook|e] eqn:Hparse; [|done].
  cbv beta match.
  destruct (sheet_to_process sheetName workbook) as [name'|] eqn:Hname.
  2:{ rewrite (bool_decide_eq_false_2 (is_Some None)) by (by intros [? ?]).
      rewrite andb_false_r. done. }
  change (name_or_undefined (Some name')) with name'.
  case_bool_decide as Hin; [|done].
  rewrite bool_decide_eq_true_2 by eauto. cbn [negb andb].
  destruct (Sheets workbook !! name') as [worksheet'|] eqn:Hsheet; [|done].
  intros [= -> -> ->]. split; [done|]. exists data, workbook.
  split_and!; [done..|]. by exists name.
Qed.

End EffectFacts.

(** ** File cipher: effects on the world *)

Section CipherEffects.

Variable rt : Runtime.

Import AESEncryption.

(** Runs the security-event log call at the head of the goal. *)
Ltac run_security_log w Hfiles :=
  match goal with
  | |- context [bind (AuditLogger.logSecurityEvent rt ?u ?a ?i ?s ?d) ?k ?w0] =>
      let H := fresh "Hlog" in
      destruct (logSecurityEvent_Ok rt u a i s d w0) as (w & H & Hfiles & _);
      rewrite (bind_Ok _ k _ _ _ H)
  | |- context [AuditLogger.logSecurityEvent rt ?u ?a ?i ?s ?d ?w0] =>
      let H := fresh "Hlog" in
      destruct (logSecurityEvent_Ok rt u a i s d w0) as (w & H & Hfiles & _);
      rewrite H
  end.

Lemma encryptData_Ok data world ct :
  cipher rt algorithm (key rt) (next_iv rt world) data = Ok ct ->
  exists world',
    encryptData rt (inl data) world
    = (Ok (Base64.encode (next_iv rt world ++ ct)), world')
    /\ files world' = files world.
Proof.
  intros Hct. unfold encryptData, try_catch, bind at 1, randomBytes.
  unfold bind at 1, lift. fold (next_iv rt world). rewrite Hct.
  run_security_log world' Hfiles. by exists world'.
Qed.

Lemma encryptData_Ok_inv data world s world' :
  encryptData rt (inl data) world = (Ok s, world') ->
  exists ct,
    cipher rt algorithm (key rt) (next_iv rt world) data = Ok ct
    /\ s = Base64.encode (next_iv rt world ++ ct)
    /\ files world' = files world.
Proof.
  intros H. apply try_catch_Ok_inv in H.
  2:{ intros e w. destruct (log_and_rethrow rt (A := jsstring) (js "system")
        (js "encrypt_data") [(js "operation", VString (js "encrypt"))] e w)
        as (w' & Hw' & _). by exists e, w'. }
  apply bind_Ok_inv in H as (iv & w1 & Hiv & H).
  unfold randomBytes in Hiv. injection Hiv as <- <-.
  apply bind_Ok_inv in H as (ct & w2 & Hct & H).
  unfold lift in Hct. injection Hct as Hct <-.
  apply bind_Ok_inv in H as ([] & w3 & Hlog & H).
  unfold ret in H. injection H as <- <-.
  exists ct. split_and!; [done..|].
  match type of Hlog with
  | AuditLogger.logSecurityEvent rt ?u ?a ?i ?s ?d ?w = _ =>
      destruct (logSecurityEvent_Ok rt u a i s d w)
        as (w3' & Hlog' & Hfiles & _)
  end.
  rewrite Hlog in Hlog'. by injection Hlog' as ->.
Qed.

Lemma encryptFile_Ok inputPath outputPath world data ct :
  files world !! inputPath = Some data ->
  cipher rt algorithm (key rt) (next_iv rt world) data = Ok ct ->
  writable rt outputPath = true ->
  exists world',
    encryptFile rt inputPath outputPath world = (Ok tt, world')
    /\ files world'
       = <[outputPath := utf8_encode rt (Base64.encode (next_iv rt world ++ ct))]>
           (files world).
Proof.
  intros Hfile Hct Hw.
  destruct (encryptData_Ok data world ct Hct) as (w1 & Henc & Hf1).
  unfold encryptFile, try_catch, bind at 1, Fs.readFileSync. rewrite Hfile.
  rewrite (bind_Ok _ _ _ _ _ Henc).
  unfold bind at 1, Fs.writeFileSync_utf8, Fs.writeFileSync. rewrite Hw.
  run_security_log world' Hfiles.
  exists world'. split; [done|]. rewrite Hfiles. simpl. by rewrite Hf1.
Qed.

Lemma encryptFile_Ok_inv inputPath outputPath world world' :
  encryptFile rt inputPath outputPath world = (Ok tt, world') ->
  exists data ct,
    files world !! inputPath = Some data
    /\ cipher rt algorithm (key rt) (next_iv rt world) data = Ok ct
    /\ writable rt outputPath = true
    /\ files world'
       = <[outputPath := utf8_encode rt (Base64.encode (next_iv rt world ++ ct))]>
           (files world).
Proof.
  intros H. apply try_catch_Ok_inv in H.
  2:{ intros e w. destruct (log_and_rethrow rt (A := unit) (js "system")
        (js "encrypt_file") [(js "file", VString inputPath)] e w)
        as (w' & Hw' & _). by exists e, w'. }
  apply bind_Ok_inv in H as (data & w1 & Hread & H).
  unfold Fs.readFileSync in Hread.
  destruct (files world !! inputPath) as [data'|] eqn:Hfile; [|done].
  injection Hread as -> <-.
  apply bind_Ok_inv in H as (s & w2 & Henc & H).
  apply encryptData_Ok_inv in Henc as (ct & Hct & -> & Hf2).
  apply bind_Ok_inv in H as ([] & w3 & Hwrite & Hlog).
  unfold Fs.writeFileSync_utf8, Fs.writeFileSync in Hwrite.
  destruct (writable rt outputPath) eqn:Hw; [|done].
  injection Hwrite as <-.
  exists data, ct. split_and!; [done..|].
  match type of Hlog with
  | AuditLogger.logSecurityEvent rt ?u ?a ?i ?s ?d ?w = _ =>
      destruct (logSecurityEvent_Ok rt u a i s d w)
        as (w3' & Hlog' & Hfiles & _)
  end.
  rewrite Hlog in Hlog'. injection Hlog' as ->.
  rewrite Hfiles. simpl. by rewrite Hf2.
Qed.

Lemma decryptFile_Ok inputPath outputPath world bytes plain :
  files world !! inputPath = Some bytes ->
  decipher rt algorithm (key rt)
    (take ivLength (Base64.decode (utf8_decode rt bytes)))
    (drop ivLength (Base64.decode (utf8_decode rt bytes))) = Ok plain ->
  writable rt outputPath = true ->
  exists world',
    decryptFile rt inputPath outputPath world = (Ok tt, world')
    /\ files world' = <[outputPath := plain]> (files world).
Proof.
  intros Hfile Hplain Hw.
  unfold decryptFile, try_catch, bind at 1, Fs.readFileSync_utf8, bind at 1,
    Fs.readFileSync, ret.
  rewrite Hfile.
  unfold bind at 1, decryptData, try_catch, bind at 1, lift. rewrite Hplain.
  run_security_log w1 Hf1. unfold ret.
  unfold bind at 1, Fs.writeFileSync. rewrite Hw.
  run_security_log w2 Hf2.
  exists w2. split; [done|]. rewrite Hf2. simpl. by rewrite Hf1.
Qed.

End CipherEffects.

(** ** The orchestrator *)

Section ConvertFacts.

Variable rt : Runtime.

Lemma convert_unfold inputFile outputFile headerFields sheetName encryptOutput
    userId world :
  convert rt inputFile outputFile headerFields sheetName encryptOutput userId
    world
  = try_catch
      (convert_try rt (clock rt (clock_reads world)) inputFile outputFile
         headerFields sheetName encryptOutput userId)
      (convert_catch rt inputFile outputFile sheetName encryptOutput userId)
      (tick world).
Proof. reflexivity. Qed.

(** A sheet without records makes the [try] block throw before any file
    is written. *)
Lemma convert_try_empty startTime inputFile outputFile headerFields sheetName
    encryptOutput userId world data workbook worksheet :
  files world !! inputFile = Some data ->
  xlsx_parse rt data = Ok workbook ->
  selects sheetName workbook worksheet ->
  _processExcelData worksheet = [] ->
  convert_try rt startTime inputFile outputFile headerFields sheetName
    encryptOutput userId world = (Throw EMPTY_FILE, world).
Proof.
  intros Hfile Hparse Hsel Hrecords.
  destruct (load_sheet_Ok rt _ _ _ _ _ _ Hfile Hparse Hsel) as [name Hload].
  unfold convert_try. rewrite (bind_Ok _ _ _ _ _ Hload).
  rewrite Hrecords. cbv beta match.
  by destruct (bool_decide _ && bool_decide _ && negb _).
Qed.

(** The effect of the encryption step on the files. *)
Lemma encrypt_output_Ok_inv outputFile encryptOutput world finalOutput world' :
  encrypt_output rt outputFile encryptOutput world = (Ok finalOutput, world') ->
  finalOutput = final_output outputFile encryptOutput
  /\ (clock_reads world <= clock_reads world')%nat
  /\ if encryptOutput
     then exists data ct,
            files world !! outputFile = Some data
            /\ cipher rt AESEncryption.algorithm (AESEncryption.key rt)
                 (AESEncryption.next_iv rt world) data = Ok ct
            /\ files world'
               = delete outputFile
                   (<[encrypted_path outputFile :=
                        utf8_encode rt
                          (Base64.encode
                             (AESEncryption.next_iv rt world ++ ct))]>
                      (files world))
     else world' = world.
Proof.
  unfold encrypt_output, final_output. destruct encryptOutput.
  2:{ unfold ret. by intros [= <- <-]. }
  intros H. apply bind_Ok_inv in H as ([] & w1 & Henc & H).
  apply bind_Ok_inv in H as ([] & w2 & Hunlink & H).
  unfold ret in H. injection H as <- <-. split; [done|].
  assert (clock_reads world <= clock_reads w1)%nat as Hclock.
  { revert Henc. unfold AESEncryption.encryptFile. intros Henc.
    apply try_catch_Ok_inv in Henc.
    2:{ intros e w. destruct (log_and_rethrow rt (A := unit) (js "system")
          (js "encrypt_file") [(js "file", VString outputFile)] e w)
          as (w' & Hw' & _). by exists e, w'. }
    apply bind_Ok_inv in Henc as (data & wa & Hread & Henc).
    unfold Fs.readFileSync in Hread.
    destruct (files world !! outputFile); [|done]. injection Hread as -> <-.
    apply bind_Ok_inv in Henc as (s & wb & Hdata & Henc).
    apply try_catch_Ok_inv in Hdata.
    2:{ intros e w. destruct (log_and_rethrow rt (A := jsstring) (js "system")
          (js "encrypt_data") [(js "operation", VString (js "encrypt"))] e w)
          as (w' & Hw' & _). by exists e, w'. }
    apply bind_Ok_inv in Hdata as (iv & wc & Hiv & Hdata).
    unfold randomBytes in Hiv. injection Hiv as <- <-.
    apply bind_Ok_inv in Hdata as (ct & wd & Hct & Hdata).
    unfold lift in Hct. injection Hct as Hct <-.
    apply bind_Ok_inv in Hdata as ([] & we & Hlog1 & Hdata).
    unfold ret in Hdata. injection Hdata as <- <-.
    apply bind_Ok_inv in Henc as ([] & wf & Hwrite & Hlog2).
    unfold Fs.writeFileSync_utf8, Fs.writeFileSync in Hwrite.
    destruct (writable rt (encrypted_path outputFile)); [|done].
    injection Hwrite as <-.
    match type of Hlog1 with
    | AuditLogger.logSecurityEvent rt ?u ?a ?i ?s ?d ?w = _ =>
        destruct (logSecurityEvent_Ok rt u a i s d w)
          as (w3' & Hlog' & _ & _ & Hc1)
    end.
    rewrite Hlog1 in Hlog'. injection Hlog' as <-.
    match type of Hlog2 with
    | AuditLogger.logSecurityEvent rt ?u ?a ?i ?s ?d ?w = _ =>
        destruct (logSecurityEvent_Ok rt u a i s d w)
          as (w4' & Hlog' & _ & _ & Hc2)
    end.
    rewrite Hlog2 in Hlog'. injection Hlog' as <-.
    rewrite Hc2. simpl. rewrite Hc1. simpl. lia. }
  apply encryptFile_Ok_inv in Henc as (data & ct & Hfile & Hct & Hw & Hfiles).
  unfold Fs.unlinkSync in Hunlink.
  destruct (files w1 !! outputFile); [|done]. injection Hunlink as <-.
  split; [done|]. exists data, ct. split_and!; [done..|].
  simpl. by rewrite Hfiles.
Qed.

(** What a successful call has done. *)
Lemma convert_Ok_inv inputFile outputFile headerFields sheetName encryptOutput
    userId world summary world' :
  convert rt inputFile outputFile headerFields sheetName encryptOutput userId
    world = (Ok summary, world') ->
  exists data workbook worksheet doc w2 w3 record,
    files world !! inputFile = Some data
    /\ xlsx_parse rt data = Ok workbook
    /\ selects sheetName workbook worksheet
    /\ _processExcelData worksheet <> []
    /\ assemble (xml_library rt) (_processExcelData worksheet) headerFields
       = Ok doc
    /\ writable rt outputFile = true
    /\ files w2 = <[outputFile := utf8_encode rt (xml_end rt doc)]> (files world)
    /\ clock_reads w2 = S (clock_reads world)
    /\ encrypt_output rt outputFile encryptOutput w2
       = (Ok (final_output outputFile encryptOutput), w3)
    /\ files world' = files w3
    /\ summary
       = {| success := true;
            rowsProcessed := length (_processExcelData worksheet);
            conversionTime :=
              (clock rt (clock_reads w3) - clock rt (clock_reads world))%Z |}
    /\ last (audit world') = Some record
    /\ JsObject.get (js "output_file") (details record)
       = Some (VString (final_output outputFile encryptOutput)).
Proof.
  rewrite convert_unfold. intros H.
  apply try_catch_Ok_inv in H.
  2:{ intros e w. destruct (convert_catch_throws rt inputFile outputFile
        sheetName encryptOutput userId e w) as (w' & Hw' & _).
      by exists e, w'. }
  unfold convert_try in H.
  apply bind_Ok_inv in H as ([name worksheet] & w1 & Hload & H).
  apply load_sheet_Ok_inv in Hload as (-> & data & workbook & Hfile & Hparse & Hsel).
  cbv beta match in H.
  destruct (bool_decide _ && bool_decide _ && negb _); [done|].
  case_bool_decide as Hlen; [done|].
  apply bind_Ok_inv in H as (doc & w1' & Hdoc & H).
  unfold lift in Hdoc. injection Hdoc as Hdoc <-.
  apply bind_Ok_inv in H as ([] & w2 & Hwrite & H).
  unfold Fs.writeFileSync_utf8, Fs.writeFileSync in Hwrite.
  destruct (writable rt outputFile) eqn:Hw; [|done].
  injection Hwrite as <-.
  apply bind_Ok_inv in H as (finalOutput & w3 & Henc & H).
  pose proof (encrypt_output_Ok_inv _ _ _ _ _ Henc) as (-> & _ & _).
  apply bind_Ok_inv in H as (endTime & w4 & Hnow & H).
  unfold Date_now in Hnow. injection Hnow as <- <-.
  apply bind_Ok_inv in H as ([] & w5 & Hlog & H).
  unfold ret in H. injection H as <- <-.
  unfold AuditLogger.logConversionEvent, AuditLogger.log, bind, Date_now in Hlog.
  injection Hlog as <-.
  eexists data, workbook, worksheet, doc,
    (Fs.with_files (insert outputFile (utf8_encode rt (xml_end rt doc)))
       (tick world)), w3, _.
  split_and!; try done.
  - intros Heq. by rewrite Heq in Hlen.
  - simpl. apply last_snoc.
  - reflexivity.
Qed.

End ConvertFacts.

(** C5: when the selected sheet yields no record, the call fails with the
    error "Excel file is empty" and the files are what they were before the
    call: nothing is created at the output path. *)
Theorem empty_sheet_fails (rt : Runtime) (inputFile outputFile : jsstring)
    (headerFields : option (jsobject jsval)) (sheetName : option jsstring)
    (encryptOutput : bool) (userId : jsstring) (world : World)
    (data : list byte) (workbook : Workbook) (worksheet : Worksheet) :
  files world !! inputFile = Some data ->
  xlsx_parse rt data = Ok workbook ->
  selects sheetName workbook worksheet ->
  _processExcelData worksheet = [] ->
  exists world',
    convert rt inputFile outputFile headerFields sheetName encryptOutput
      userId world = (Throw EMPTY_FILE, world')
    /\ files world' = files world
    /\ files world' !! outputFile = files world !! outputFile.
Proof.
  intros Hfile Hparse Hsel Hrecords. rewrite convert_unfold.
  rewrite (try_catch_Throw _ _ _ _ _
             (convert_try_empty rt _ _ _ _ _ _ _ (tick world) _ _ _
                Hfile Hparse Hsel Hrecords)).
  destruct (convert_catch_throws rt inputFile outputFile sheetName
              encryptOutput userId EMPTY_FILE (tick world))
    as (world' & -> & Hfiles).
  exists world'. split_and!; [done|done|]. by rewrite Hfiles.
Qed.
Lemma empty_sheet_fails_witness :
  exists world',
    convert Sample.rt_ok Sample.input_path (js "/out/a.xml") None
      (Some (js "Empty")) false (js "system") Sample.world0
    = (Throw EMPTY_FILE, world')
    /\ files world' = files Sample.world0
    /\ files world' !! js "/out/a.xml" = files Sample.world0 !! js "/out/a.xml".
Proof.
  apply (empty_sheet_fails Sample.rt_ok Sample.input_path (js "/out/a.xml")
           None (Some (js "Empty")) false (js "system") Sample.world0
           [x50; x4b] Sample.workbook1 Sample.header_only).
  - reflexivity.
  - reflexivity.
  - exists (js "Empty"). split_and!.
    + reflexivity.
    + apply (bool_decide_unpack _). by vm_compute.
    + reflexivity.
  - reflexivity.
Defined.

(** C9, as stated: two successful calls that differ only in the output
    path return the same summary, so the summary does not hold the final
    output path. *)
Lemma summary_lacks_output_path :
  ~ exists path_of : Summary -> jsstring,
      forall outputFile summary world',
        convert Sample.rt_ok Sample.input_path outputFile None None false
          (js "system") Sample.world0 = (Ok summary, world') ->
        path_of summary = final_output outputFile false.
Proof.
  intros [path_of Hpath].
  assert (exists w, convert Sample.rt_ok Sample.input_path (js "/out/a.xml")
                      None None false (js "system") Sample.world0
                    = (Ok {| success := true; rowsProcessed := 2;
                             conversionTime := 5 |}, w)) as [wa Ha].
  { eexists. vm_compute. reflexivity. }
  assert (exists w, convert Sample.rt_ok Sample.input_path (js "/out/b.xml")
                      None None false (js "system") Sample.world0
                    = (Ok {| success := true; rowsProcessed := 2;
                             conversionTime := 5 |}, w)) as [wb Hb].
  { eexists. vm_compute. reflexivity. }
  apply Hpath in Ha, Hb. rewrite Ha in Hb. by vm_compute in Hb.
Qed.

(** C9, amended: a successful call returns a summary made of the success
    flag, the number of records extracted from the selected sheet and the
    time elapsed between the clock reading at the start of the call and a
    later reading.  The final output path (the encrypted path when
    encryption was requested, else the plaintext output path) is not part
    of the summary; it is the "output_file" of the last audit record. *)
Theorem successful_summary (rt : Runtime) (inputFile outputFile : jsstring)
    (headerFields : option (jsobject jsval)) (sheetName : option jsstring)
    (encryptOutput : bool) (userId : jsstring) (world world' : World)
    (summary : Summary) :
  convert rt inputFile outputFile headerFields sheetName encryptOutput userId
    world = (Ok summary, world') ->
  exists data workbook worksheet k record,
    files world !! inputFile = Some data
    /\ xlsx_parse rt data = Ok workbook
    /\ selects sheetName workbook worksheet
    /\ summary
       = {| success := true;
            rowsProcessed := length (_processExcelData worksheet);
            conversionTime :=
              (clock rt k - clock rt (clock_reads world))%Z |}
    /\ (clock_reads world < k)%nat
    /\ last (audit world') = Some record
    /\ JsObject.get (js "output_file") (details record)
       = Some (VString (if encryptOutput then encrypted_path outputFile
                        else outputFile)).
Proof.
  intros (data & workbook & worksheet & doc & w2 & w3 & record & Hfile & Hparse
          & Hsel & _ & _ & _ & _ & Hclock & Henc & _ & -> & Hlast & Hout)
    %convert_Ok_inv.
  apply encrypt_output_Ok_inv in Henc as (_ & Hle & _).
  exists data, workbook, worksheet, (clock_reads w3), record.
  split_and!; [done..|lia|done|done].
Qed.

Lemma successful_summary_witness :
  exists data workbook worksheet k record,
    files Sample.world0 !! Sample.input_path = Some data
    /\ xlsx_parse Sample.rt_ok data = Ok workbook
    /\ selects None workbook worksheet
    /\ {| success := true; rowsProcessed := 2; conversionTime := 15 |}
       = {| success := true;
            rowsProcessed := length (_processExcelData worksheet);
            conversionTime :=
              (clock Sample.rt_ok k
               - clock Sample.rt_ok (clock_reads Sample.world0))%Z |}
    /\ (clock_reads Sample.world0 < k)%nat
    /\ last (audit (convert Sample.rt_ok Sample.input_path (js "/out/a.xml")
                      None None true (js "system") Sample.world0).2)
       = Some record
    /\ JsObject.get (js "output_file") (details record)
       = Some (VString (if true then encrypted_path (js "/out/a.xml")
                        else js "/out/a.xml")).
Proof.
  apply (successful_summary Sample.rt_ok Sample.input_path (js "/out/a.xml")
           None None true (js "system") Sample.world0).
  vm_compute. reflexivity.
Defined.

Section EncryptedOutput.

Variable rt : Runtime.

(** After a successful call with encryption, nothing is left at the output
    path; the encrypted file exists when its path differs from the output
    path, and has been deleted with the plaintext when the two coincide. *)
Lemma encrypted_conversion_files inputFile outputFile headerFields sheetName
    userId world summary world' :
  convert rt inputFile outputFile headerFields sheetName true userId world
  = (Ok summary, world') ->
  files world' !! outputFile = None
  /\ (encrypted_path outputFile <> outputFile ->
      is_Some (files world' !! encrypted_path outputFile))
  /\ (encrypted_path outputFile = outputFile ->
      files world' !! encrypted_path outputFile = None).
Proof.
  intros (data & workbook & worksheet & doc & w2 & w3 & record & _ & _ & _ & _
          & _ & _ & _ & _ & Henc & -> & _)%convert_Ok_inv.
  apply encrypt_output_Ok_inv in Henc as (_ & _ & (d & ct & _ & _ & ->)).
  split_and!.
  - apply lookup_delete_eq.
  - intros Hne. rewrite lookup_delete_ne by done.
    rewrite lookup_insert_eq. by eexists.
  - intros ->. apply lookup_delete_eq.
Qed.

End EncryptedOutput.

(** C7: for the output path "/out/a.txt", which does not contain ".xml",
    the encrypted path is the output path itself; the call succeeds and
    leaves no file at the encrypted path. *)
Theorem encrypted_output_deleted :
  exists world',
    convert Sample.rt_ok Sample.input_path (js "/out/a.txt") None None true
      (js "system") Sample.world0
    = (Ok {| success := true; rowsProcessed := 2; conversionTime := 15 |},
       world')
    /\ encrypted_path (js "/out/a.txt") = js "/out/a.txt"
    /\ files world' !! encrypted_path (js "/out/a.txt") = None.
Proof.
  eexists. split; [vm_compute; reflexivity|]. split; by vm_compute.
Qed.

(** C1: when the encrypted path cannot be written, the encryption step
    throws after the plaintext was written; the call fails and the
    plaintext file is still at the output path after the call. *)
Theorem failed_encryption_leaves_plaintext :
  exists error world',
    convert Sample.rt_enc_denied Sample.input_path (js "/out/a.xml") None None
      true (js "system") Sample.world0
    = (Throw error, world')
    /\ files Sample.world0 !! js "/out/a.xml" = None
    /\ files world' !! js "/out/a.xml" = Some Sample.plaintext1
    /\ files world' !! encrypted_path (js "/out/a.xml") = None.
Proof.
  eexists _, _. split; [vm_compute; reflexivity|]. split_and!; by vm_compute.
Qed.

(** ** Base64 *)

Section Base64Facts.

Import Base64.

Lemma to_N_lt_256 (b : byte) : Byte.to_N b < 256.
Proof. pose proof (Byte.to_N_bounded b). lia. Qed.

Lemma byte_of_to_N (b : byte) : byte_of_N (Byte.to_N b) = b.
Proof.
  unfold byte_of_N. rewrite N.mod_small by apply to_N_lt_256.
  by rewrite Byte.of_to_N.
Qed.

Lemma to_N_byte_of_N (n : N) : Byte.to_N (byte_of_N n) = n mod 256.
Proof.
  unfold byte_of_N. assert (n mod 256 < 256) as Hlt by (apply N.mod_lt; lia).
  destruct (Byte.of_N (n mod 256)) as [b|] eqn:Hb.
  - simpl. by apply Byte.to_of_N.
  - apply Byte.of_N_None_iff in Hb. lia.
Qed.

Lemma of_char_to_char n : n < 64 -> of_char (to_char n) = Some n.
Proof.
  intros Hn. unfold to_char.
  repeat (case_match; [unfold of_char, is_upper, is_lower, is_digit;
    repeat match goal with
           | H : (_ <? _) = true |- _ => apply N.ltb_lt in H
           | H : (_ <? _) = false |- _ => apply N.ltb_ge in H
           | H : (_ =? _) = true |- _ => apply N.eqb_eq in H
           | H : (_ =? _) = false |- _ => apply N.eqb_neq in H
           end;
    repeat match goal with
           | |- context [?a <=? ?b] =>
               destruct (N.leb_spec a b); simpl; try lia
           | |- context [?a =? ?b] =>
               destruct (N.eqb_spec a b); simpl; try lia
           end; f_equal; lia|]).
  unfold of_char, is_upper, is_lower, is_digit. simpl.
  repeat match goal with
         | H : (_ <? _) = false |- _ => apply N.ltb_ge in H
         | H : (_ =? _) = false |- _ => apply N.eqb_neq in H
         end.
  f_equal. lia.
Qed.

Lemma to_char_bounds n : n < 64 -> 43 <= to_char n <= 122 /\ to_char n <> pad.
Proof.
  intros Hn. unfold to_char, pad.
  repeat case_match;
    repeat match goal with
           | H : (_ <? _) = true |- _ => apply N.ltb_lt in H
           | H : (_ <? _) = false |- _ => apply N.ltb_ge in H
           | H : (_ =? _) = true |- _ => apply N.eqb_eq in H
           | H : (_ =? _) = false |- _ => apply N.eqb_neq in H
           end; lia.
Qed.

Lemma sextets_to_char n s : n < 64 -> sextets (to_char n :: s) = n :: sextets s.
Proof.
  intros Hn. simpl. destruct (to_char_bounds n Hn) as [_ Hpad].
  apply N.eqb_neq in Hpad. rewrite Hpad. by rewrite of_char_to_char.
Qed.

Lemma sextets_pad s : sextets (pad :: s) = [].
Proof. done. Qed.

End Base64Facts.

Section Base64RoundTrip.

Import Base64.

Lemma sextet_bounds a b c :
  a < 256 -> b < 256 -> c < 256 ->
  a / 4 < 64 /\ (a mod 4) * 16 + b / 16 < 64
  /\ (b mod 16) * 4 + c / 64 < 64 /\ c mod 64 < 64
  /\ (a mod 4) * 16 < 64 /\ (b mod 16) * 4 < 64.
Proof.
  intros. split_and!; zify; Z.to_euclidean_division_equations; lia.
Qed.

Lemma sextets_join a b c :
  a < 256 -> b < 256 -> c < 256 ->
  (a / 4) * 4 + ((a mod 4) * 16 + b / 16) / 16 = a
  /\ (((a mod 4) * 16 + b / 16) mod 16) * 16
     + ((b mod 16) * 4 + c / 64) / 4 = b
  /\ (((b mod 16) * 4 + c / 64) mod 4) * 64 + c mod 64 = c.
Proof.
  intros. split_and!; zify; Z.to_euclidean_division_equations; lia.
Qed.

Lemma byte_of_N_small b n : n = Byte.to_N b -> byte_of_N n = b.
Proof. intros ->. apply byte_of_to_N. Qed.

Lemma decode_encode_upto (n : nat) (bs : list byte) :
  (length bs <= n)%nat -> decode (encode bs) = bs.
Proof.
  revert bs. induction n as [|n IH]; intros bs Hlen.
  { destruct bs; [done|]. simpl in Hlen. lia. }
  destruct bs as [|a [|b [|c rest]]]; [done| | |].
  - pose proof (to_N_lt_256 a) as Ha.
    destruct (sextet_bounds _ 0 0 Ha eq_refl eq_refl) as (H1 & _ & _ & _ & H2 & _).
    unfold decode. cbn [encode].
    rewrite !sextets_to_char, sextets_pad by done. cbn [decode_sextets].
    f_equal. apply byte_of_N_small.
    pose proof (sextets_join _ 0 0 Ha eq_refl eq_refl) as (H & _).
    rewrite N.add_0_r in H. done.
  - pose proof (to_N_lt_256 a) as Ha. pose proof (to_N_lt_256 b) as Hb.
    destruct (sextet_bounds _ _ 0 Ha Hb eq_refl) as (H1 & H2 & _ & _ & _ & H3).
    unfold decode. cbn [encode].
    rewrite !sextets_to_char, sextets_pad by done. cbn [decode_sextets].
    pose proof (sextets_join _ _ 0 Ha Hb eq_refl) as (Hj1 & Hj2 & _).
    rewrite N.add_0_r in Hj2.
    f_equal; [|f_equal]; by apply byte_of_N_small.
  - pose proof (to_N_lt_256 a) as Ha. pose proof (to_N_lt_256 b) as Hb.
    pose proof (to_N_lt_256 c) as Hc.
    destruct (sextet_bounds _ _ _ Ha Hb Hc) as (H1 & H2 & H3 & H4 & _ & _).
    unfold decode. cbn [encode].
    rewrite !sextets_to_char by done. cbn [decode_sextets].
    pose proof (sextets_join _ _ _ Ha Hb Hc) as (Hj1 & Hj2 & Hj3).
    f_equal; [|f_equal; [|f_equal]]; try by apply byte_of_N_small.
    apply IH. simpl in Hlen. lia.
Qed.

(** Decoding the Base64 text of a buffer gives the buffer back. *)
Lemma decode_encode (bs : list byte) : decode (encode bs) = bs.
Proof. by apply (decode_encode_upto (length bs)). Qed.

Lemma encode_ascii_upto (n : nat) (bs : list byte) :
  (length bs <= n)%nat -> Forall (fun c => c < 128) (encode bs).
Proof.
  revert bs. induction n as [|n IH]; intros bs Hlen.
  { destruct bs; [by constructor|]. simpl in Hlen. lia. }
  destruct bs as [|a [|b [|c rest]]]; [by constructor| | |].
  - pose proof (to_N_lt_256 a) as Ha.
    destruct (sextet_bounds _ 0 0 Ha eq_refl eq_refl) as (H1 & _ & _ & _ & H2 & _).
    cbn [encode]. repeat constructor; try done;
      match goal with |- to_char ?n < _ =>
        pose proof (to_char_bounds n); lia end.
  - pose proof (to_N_lt_256 a) as Ha. pose proof (to_N_lt_256 b) as Hb.
    destruct (sextet_bounds _ _ 0 Ha Hb eq_refl) as (H1 & H2 & _ & _ & _ & H3).
    cbn [encode]. repeat constructor; try done;
      match goal with |- to_char ?n < _ =>
        pose proof (to_char_bounds n); lia end.
  - pose proof (to_N_lt_256 a) as Ha. pose proof (to_N_lt_256 b) as Hb.
    pose proof (to_N_lt_256 c) as Hc.
    destruct (sextet_bounds _ _ _ Ha Hb Hc) as (H1 & H2 & H3 & H4 & _ & _).
    cbn [encode].
    repeat (constructor; [match goal with |- to_char ?n < _ =>
        pose proof (to_char_bounds n); lia end|]).
    apply IH. simpl in Hlen. lia.
Qed.

(** Base64 text is ASCII. *)
Lemma encode_ascii (bs : list byte) : Forall (fun c => c < 128) (encode bs).
Proof. by apply (encode_ascii_upto (length bs)). Qed.

End Base64RoundTrip.

(** ** The sample runtime meets the assumptions made on the libraries *)

Section SampleFacts.

Import Sample.

Lemma offset_lt_256 key iv : offset key iv < 256.
Proof.
  unfold offset. induction (key ++ iv) as [|b l IH]; simpl; [lia|].
  apply N.mod_lt. lia.
Qed.

Lemma shift_back (off : N) (b : byte) :
  off < 256 ->
  Base64.byte_of_N (Byte.to_N (Base64.byte_of_N (Byte.to_N b + off)) + 256 - off)
  = b.
Proof.
  intros Hoff. rewrite to_N_byte_of_N.
  assert (forall n, Base64.byte_of_N (n mod 256) = Base64.byte_of_N n) as Hmod.
  { intros n. unfold Base64.byte_of_N. by rewrite N.Div0.mod_mod. }
  rewrite <- Hmod. apply byte_of_N_small.
  pose proof (to_N_lt_256 b).
  zify; Z.to_euclidean_division_equations; lia.
Qed.

Lemma shift_cipher_inverse alg key iv data :
  length key = 32%nat -> length iv = 16%nat ->
  exists ct,
    shift_cipher alg key iv data = Ok ct
    /\ shift_decipher alg key iv ct = Ok data.
Proof.
  intros Hkey Hiv. unfold shift_cipher, shift_decipher, bad_lengths.
  rewrite !bool_decide_eq_true_2 by done. simpl. eexists. split; [done|].
  f_equal. rewrite <- list_fmap_compose. rewrite <- (list_fmap_id data) at 2.
  apply list_fmap_ext. intros _ b _. simpl.
  apply shift_back, offset_lt_256.
Qed.

Lemma ascii_codec s :
  Forall (fun c => c < 128) s -> ascii_decode (ascii_encode s) = s.
Proof.
  unfold ascii_decode, ascii_encode. induction 1 as [|c s Hc Hs IH]; [done|].
  rewrite !fmap_cons, IH. f_equal.
  apply N.ltb_lt in Hc as Hc'. rewrite Hc', to_N_byte_of_N.
  apply N.mod_small. lia.
Qed.

End SampleFacts.

(** C2: when the cipher of the runtime decrypts what it encrypts (under the
    derived key, for every 16-byte initialization vector) and the text
    codec leaves ASCII text unchanged, then for every content [C]: after
    [C] is written to a file, [encryptFile] succeeds and writes the Base64
    text of the initialization vector (16 bytes) followed by the
    ciphertext; [decryptFile] on that file succeeds, having decoded the
    text, split off the first 16 bytes as the vector and decrypted the
    rest, and writes exactly [C]. *)
Theorem encrypt_decrypt_round_trip (rt : Runtime) (C : list byte)
    (plainPath encPath outPath : jsstring) (world0 : World) :
  (forall iv data, length iv = 16%nat ->
     exists ct,
       cipher rt AESEncryption.algorithm (AESEncryption.key rt) iv data = Ok ct
       /\ decipher rt AESEncryption.algorithm (AESEncryption.key rt) iv ct
          = Ok data) ->
  (forall s, Forall (fun c => c < 128) s ->
             utf8_decode rt (utf8_encode rt s) = s) ->
  writable rt plainPath = true ->
  writable rt encPath = true ->
  writable rt outPath = true ->
  exists world1 world2 world3 iv ct,
    Fs.writeFileSync rt plainPath C world0 = (Ok tt, world1)
    /\ AESEncryption.encryptFile rt plainPath encPath world1 = (Ok tt, world2)
    /\ length iv = 16%nat
    /\ cipher rt AESEncryption.algorithm (AESEncryption.key rt) iv C = Ok ct
    /\ files world2 !! encPath
       = Some (utf8_encode rt (Base64.encode (iv ++ ct)))
    /\ take 16 (Base64.decode (utf8_decode rt
                  (utf8_encode rt (Base64.encode (iv ++ ct))))) = iv
    /\ drop 16 (Base64.decode (utf8_decode rt
                  (utf8_encode rt (Base64.encode (iv ++ ct))))) = ct
    /\ AESEncryption.decryptFile rt encPath outPath world2 = (Ok tt, world3)
    /\ files world3 !! outPath = Some C.
Proof.
  intros Hcipher Hcodec Hw1 Hw2 Hw3.
  set (world1 := Fs.with_files (insert plainPath C) world0).
  set (iv := AESEncryption.next_iv rt world1).
  assert (length iv = 16%nat) as Hiv.
  { unfold iv, AESEncryption.next_iv. by rewrite length_fmap, length_seq. }
  destruct (Hcipher iv C Hiv) as (ct & Hct & Hback).
  assert (files world1 !! plainPath = Some C) as Hplain
    by apply lookup_insert_eq.
  destruct (encryptFile_Ok rt plainPath encPath world1 C ct Hplain Hct Hw2)
    as (world2 & Henc & Hfiles2).
  fold iv in Hfiles2.
  assert (files world2 !! encPath
          = Some (utf8_encode rt (Base64.encode (iv ++ ct)))) as Hstored.
  { rewrite Hfiles2. apply lookup_insert_eq. }
  assert (Base64.decode (utf8_decode rt
            (utf8_encode rt (Base64.encode (iv ++ ct)))) = iv ++ ct) as Hdec.
  { rewrite Hcodec by apply encode_ascii. apply decode_encode. }
  assert (take 16 (iv ++ ct) = iv) as Htake.
  { rewrite take_app_length'; done. }
  assert (drop 16 (iv ++ ct) = ct) as Hdrop.
  { rewrite drop_app_length'; done. }
  destruct (decryptFile_Ok rt encPath outPath world2 _ C Hstored)
    as (world3 & Hdecrypt & Hfiles3); [|done|].
  { rewrite Hdec. unfold AESEncryption.ivLength. by rewrite Htake, Hdrop. }
  exists world1, world2, world3, iv, ct. rewrite Hdec.
  split_and!; try done.
  - unfold Fs.writeFileSync. by rewrite Hw1.
  - rewrite Hfiles3. apply lookup_insert_eq.
Qed.

Lemma encrypt_decrypt_round_trip_witness :
  exists world1 world2 world3 iv ct,
    Fs.writeFileSync Sample.rt_ok (js "/out/a.xml") Sample.plaintext1
      Sample.world0 = (Ok tt, world1)
    /\ AESEncryption.encryptFile Sample.rt_ok (js "/out/a.xml")
         (js "/out/a.xml.enc") world1 = (Ok tt, world2)
    /\ length iv = 16%nat
    /\ cipher Sample.rt_ok AESEncryption.algorithm
         (AESEncryption.key Sample.rt_ok) iv Sample.plaintext1 = Ok ct
    /\ files world2 !! js "/out/a.xml.enc"
       = Some (utf8_encode Sample.rt_ok (Base64.encode (iv ++ ct)))
    /\ take 16 (Base64.decode (utf8_decode Sample.rt_ok
                  (utf8_encode Sample.rt_ok (Base64.encode (iv ++ ct))))) = iv
    /\ drop 16 (Base64.decode (utf8_decode Sample.rt_ok
                  (utf8_encode Sample.rt_ok (Base64.encode (iv ++ ct))))) = ct
    /\ AESEncryption.decryptFile Sample.rt_ok (js "/out/a.xml.enc")
         (js "/out/b.xml") world2 = (Ok tt, world3)
    /\ files world3 !! js "/out/b.xml" = Some Sample.plaintext1.
Proof.
  apply (encrypt_decrypt_round_trip Sample.rt_ok Sample.plaintext1
           (js "/out/a.xml") (js "/out/a.xml.enc") (js "/out/b.xml")
           Sample.world0).
  - intros iv data Hiv. apply shift_cipher_inverse; [reflexivity|exact Hiv].
  - apply ascii_codec.
  - reflexivity.
  - reflexivity.
  - reflexivity.
Defined.

(** Two encryptions of one content draw different vectors and give
    different files; both decrypt to the content. *)
Example two_encryptions_differ :
  let run :=
    (Fs.writeFileSync Sample.rt_ok (js "/p") [x68; x69] ;;
     AESEncryption.encryptFile Sample.rt_ok (js "/p") (js "/e1") ;;
     AESEncryption.encryptFile Sample.rt_ok (js "/p") (js "/e2") ;;
     AESEncryption.decryptFile Sample.rt_ok (js "/e1") (js "/d1") ;;
     AESEncryption.decryptFile Sample.rt_ok (js "/e2") (js "/d2"))
      Sample.world0 in
  run.1 = Ok tt
  /\ files run.2 !! js "/e1" <> files run.2 !! js "/e2"
  /\ files run.2 !! js "/d1" = Some [x68; x69]
  /\ files run.2 !! js "/d2" = Some [x68; x69].
Proof. by vm_compute. Qed.

(** ** Failed conversions *)

Section FailedConversions.

Variable rt : Runtime.

Lemma bind_Throw_inv {A B} (m : M A) (k : A -> M B) world e world' :
  bind m k world = (Throw e, world') ->
  m world = (Throw e, world')
  \/ exists a world1, m world = (Ok a, world1) /\ k a world1 = (Throw e, world').
Proof.
  unfold bind. destruct (m world) as [[a|e0] world1].
  - intros H. right. by exists a, world1.
  - intros [= -> ->]. by left.
Qed.

Lemma try_catch_Throw_inv {A} (m : M A) (h : exn -> M A) world e world' :
  try_catch m h world = (Throw e, world') ->
  exists e0 world1, m world = (Throw e0, world1) /\ h e0 world1 = (Throw e, world').
Proof.
  unfold try_catch. destruct (m world) as [[a|e0] world1]; [done|].
  intros H. by exists e0, world1.
Qed.

Lemma logged_rethrow_files {A} userId act dets e0 world e world' :
  (AuditLogger.logError rt userId act e0 dets ;; throw e0) world
  = (@Throw A e, world') ->
  files world' = files world.
Proof.
  destruct (log_and_rethrow rt (A := A) userId act dets e0 world)
    as (w & -> & Hfiles & _).
  by intros [= _ <-].
Qed.

Lemma load_sheet_world inputFile sheetName world r world' :
  load_sheet rt inputFile sheetName world = (r, world') -> world' = world.
Proof.
  unfold load_sheet, bind, try_catch, Fs.existsSync, XLSX_readFile, bind,
    Fs.readFileSync, lift, throw, ret.
  destruct (files world !! inputFile) as [data|] eqn:Hfile.
  2:{ rewrite bool_decide_eq_false_2 by (by intros [? ?]).
      cbn [negb]. by intros [= _ <-]. }
  rewrite bool_decide_eq_true_2 by eauto.
  cbn [negb]. cbv beta match. rewrite Hfile. cbv beta match.
  destruct (xlsx_parse rt data) as [workbook|e]; cbv beta match;
    [|by intros [= _ <-]].
  destruct (negb _); [by intros [= _ <-]|].
  destruct (Sheets workbook !! _); by intros [= _ <-].
Qed.

Lemma encryptData_Throw_files data world e world' :
  AESEncryption.encryptData rt data world = (Throw e, world') ->
  files world' = files world.
Proof.
  intros (e0 & w1 & Hin & Hh)%try_catch_Throw_inv.
  apply logged_rethrow_files in Hh. rewrite Hh. clear Hh.
  apply bind_Throw_inv in Hin as [Hin|(iv & w2 & Hiv & Hin)]; [done|].
  unfold randomBytes in Hiv. injection Hiv as <- <-.
  apply bind_Throw_inv in Hin as [Hin|(ct & w3 & Hct & Hin)].
  { unfold lift in Hin. by injection Hin as _ <-. }
  unfold lift in Hct. injection Hct as _ <-.
  apply bind_Throw_inv in Hin as [Hin|([] & w4 & _ & Hin)]; [|done].
  match type of Hin with
  | AuditLogger.logSecurityEvent rt ?u ?a ?i ?s ?d ?w = _ =>
      destruct (logSecurityEvent_Ok rt u a i s d w) as (w' & Hlog & _)
  end.
  congruence.
Qed.

(** A failed [encryptFile] leaves the files as they were. *)
Lemma encryptFile_Throw_files inputPath outputPath world e world' :
  AESEncryption.encryptFile rt inputPath outputPath world = (Throw e, world') ->
  files world' = files world.
Proof.
  intros (e0 & w1 & Hin & Hh)%try_catch_Throw_inv.
  apply logged_rethrow_files in Hh. rewrite Hh. clear Hh.
  apply bind_Throw_inv in Hin as [Hin|(data & w2 & Hread & Hin)].
  { unfold Fs.readFileSync in Hin.
    destruct (files world !! inputPath); [done|]. by injection Hin as _ <-. }
  unfold Fs.readFileSync in Hread.
  destruct (files world !! inputPath); [|done]. injection Hread as _ <-.
  apply bind_Throw_inv in Hin as [Hin|(s & w3 & Henc & Hin)].
  { by apply encryptData_Throw_files in Hin. }
  apply encryptData_Ok_inv in Henc as (ct & _ & _ & Hf3). rewrite <- Hf3.
  apply bind_Throw_inv in Hin as [Hin|([] & w4 & _ & Hin)].
  { unfold Fs.writeFileSync_utf8, Fs.writeFileSync in Hin.
    destruct (writable rt outputPath); [done|]. by injection Hin as _ <-. }
  match type of Hin with
  | AuditLogger.logSecurityEvent rt ?u ?a ?i ?s ?d ?w = _ =>
      destruct (logSecurityEvent_Ok rt u a i s d w) as (w' & Hlog & _)
  end.
  congruence.
Qed.

(** A failed encryption step leaves the plaintext where it was written. *)
Lemma encrypt_output_Throw_files outputFile encryptOutput world e world' data :
  files world !! outputFile = Some data ->
  encrypt_output rt outputFile encryptOutput world = (Throw e, world') ->
  encryptOutput = true /\ files world' = files world.
Proof.
  intros Hfile. unfold encrypt_output. destruct encryptOutput; [|done].
  intros H. split; [done|].
  apply bind_Throw_inv in H as [H|([] & w1 & Henc & H)].
  { by apply encryptFile_Throw_files in H. }
  apply encryptFile_Ok_inv in Henc as (d & ct & _ & _ & _ & Hf1).
  apply bind_Throw_inv in H as [H|([] & w2 & _ & H)]; [|done].
  unfold Fs.unlinkSync in H.
  destruct (files w1 !! outputFile) eqn:Hout; [done|].
  rewrite Hf1 in Hout.
  destruct (decide (encrypted_path outputFile = outputFile)) as [Heq|Hne].
  - rewrite Heq, lookup_insert_eq in Hout. done.
  - rewrite lookup_insert_ne in Hout by done. congruence.
Qed.

(** Every failed call either fails before the plaintext is written and
    leaves the files untouched, or fails after it and leaves the plaintext
    at the output path: no exit path of [convert] removes it. *)
Lemma convert_Throw_files inputFile outputFile headerFields sheetName
    encryptOutput userId world e world' :
  convert rt inputFile outputFile headerFields sheetName encryptOutput userId
    world = (Throw e, world') ->
  files world' = files world
  \/ exists doc,
       encryptOutput = true
       /\ files world'
          = <[outputFile := utf8_encode rt (xml_end rt doc)]> (files world).
Proof.
  rewrite convert_unfold.
  intros (e0 & w1 & Htry & Hcatch)%try_catch_Throw_inv.
  destruct (convert_catch_throws rt inputFile outputFile sheetName
              encryptOutput userId e0 w1) as (w' & Hw' & Hfiles).
  rewrite Hcatch in Hw'. injection Hw' as _ <-. rewrite Hfiles. clear Hfiles.
  unfold convert_try in Htry.
  apply bind_Throw_inv in Htry as [H|([name worksheet] & w2 & Hload & H)].
  { apply load_sheet_world in H as ->. by left. }
  apply load_sheet_world in Hload as ->. cbv beta match in H.
  destruct (bool_decide _ && bool_decide _ && negb _);
    [left; by injection H as _ <-|].
  case_bool_decide; [left; by injection H as _ <-|].
  apply bind_Throw_inv in H as [H|(doc & w3 & Hdoc & H)].
  { left. unfold lift in H. by injection H as _ <-. }
  unfold lift in Hdoc. injection Hdoc as Hdoc <-.
  apply bind_Throw_inv in H as [H|([] & w4 & Hwrite & H)].
  { left. unfold Fs.writeFileSync_utf8, Fs.writeFileSync in H.
    destruct (writable rt outputFile); [done|]. by injection H as _ <-. }
  unfold Fs.writeFileSync_utf8, Fs.writeFileSync in Hwrite.
  destruct (writable rt outputFile); [|done]. injection Hwrite as <-.
  apply bind_Throw_inv in H as [H|(finalOutput & w5 & _ & H)].
  { right. exists doc.
    eapply encrypt_output_Throw_files in H as [-> ->];
      [done|apply lookup_insert_eq]. }
  apply bind_Throw_inv in H as [H|(endTime & w6 & _ & H)]; [done|].
  apply bind_Throw_inv in H as [H|([] & w7 & _ & H)]; [|done].
  match type of H with
  | AuditLogger.logConversionEvent rt ?u ?i ?o ?t ?s ?d ?w = _ =>
      destruct (logConversionEvent_Ok rt u i o t s d w) as (w8 & Hlog & _)
  end.
  congruence.
Qed.

End FailedConversions.

(** ** Sheets without records *)

Section EmptySheets.

Variable worksheet : Worksheet.

(** A sheet whose range ends at its header row has no record. *)
Lemma header_row_only_no_records :
  (e_r (decode_range worksheet) <= s_r (decode_range worksheet))%nat ->
  _processExcelData worksheet = [].
Proof.
  intros Hle. rewrite processExcelData_rows. unfold sheet_data_rows, from_to.
  replace (S (e_r (decode_range worksheet))
           - (s_r (decode_range worksheet) + 1))%nat with 0%nat by lia.
  done.
Qed.

(** A sheet whose data rows are blank has no record. *)
Lemma blank_rows_no_records :
  (forall r c, r ∈ sheet_data_rows worksheet -> c ∈ sheet_columns worksheet ->
               cell_text worksheet r c = []) ->
  _processExcelData worksheet = [].
Proof.
  intros Hblank. rewrite processExcelData_rows.
  induction (sheet_data_rows worksheet) as [|r rows IH]; [done|].
  rewrite filter_cons_False.
  - apply IH. intros r' c Hr' Hc. apply Hblank; [|done].
    by apply list_elem_of_further.
  - unfold row_has_data. intros Hex. apply existsb_exists in Hex as (c & Hc & Hne).
    apply bool_decide_eq_true in Hne. apply Hne, Hblank.
    + apply list_elem_of_here.
    + by apply list_elem_of_In.
Qed.

(** A sheet without cells has no record. *)
Lemma no_cells_no_records :
  ws_cells worksheet = ∅ -> _processExcelData worksheet = [].
Proof.
  intros Hcells. apply blank_rows_no_records. intros r c _ _.
  unfold cell_text. by rewrite Hcells, lookup_empty.
Qed.

End EmptySheets.

(** ** Array-index keys *)

Section ArrayIndexKeys.

Lemma array_index_digit k n :
  JsObject.array_index k = Some n ->
  exists c rest, k = c :: rest /\ is_digit c = true.
Proof.
  destruct k as [|c rest]; [done|]. intros H. exists c, rest. split; [done|].
  unfold JsObject.array_index in H.
  destruct (N.eqb_spec c 48) as [->|_]; [done|].
  simpl in H. by destruct (is_digit c).
Qed.

(** The header tag of an array-index key starts with a digit, which no XML
    name does: a library that creates elements for XML names only refuses
    it, and the header fields of a successful assembly keep the order the
    caller gave them. *)
Lemma array_index_tag_digit k n :
  JsObject.array_index k = Some n ->
  exists c rest, replace_ws [underscore] k = c :: rest /\ is_digit c = true.
Proof.
  intros (c & rest & -> & Hc)%array_index_digit.
  exists c, (replace_ws_from false [underscore] rest). split; [|done].
  unfold replace_ws. simpl.
  assert (is_space c = false) as ->; [|done].
  apply tag_char_not_space. unfold is_tag_char. by rewrite Hc, orb_true_r.
Qed.

Example array_index_keys_first :
  JsObject.keys [(js "b", 1%nat); (js "10", 2%nat); (js "2", 3%nat);
                 (js "01", 4%nat)]
  = [js "2"; js "10"; js "b"; js "01"].
Proof. reflexivity. Qed.

End ArrayIndexKeys.

(** The end-to-end scenario: header row "ID", "Amount", two data rows, no
    header fields, no encryption. *)
Example end_to_end :
  let run :=
    convert Sample.rt_ok Sample.input_path (js "/out/a.xml") None None false
      (js "system") Sample.world0 in
  run.1 = Ok {| success := true; rowsProcessed := 2; conversionTime := 5 |}
  /\ files run.2 !! js "/out/a.xml"
     = Some (Sample.ascii_encode
               (js ("<CALLREPORT><BODY>"
                    ++ "<CALLREPORT_DATA><ID>1</ID><Amount>10.50</Amount></CALLREPORT_DATA>"
                    ++ "<CALLREPORT_DATA><ID>2</ID><Amount>20.00</Amount></CALLREPORT_DATA>"
                    ++ "</BODY></CALLREPORT>"))).
Proof. by vm_compute. Qed.

(** * Further properties *)

(** ** Tag sanitizer *)

(** X1: whatever the label, the sanitizer returns a non-empty tag whose
    first character is a letter or an underscore and whose characters are
    all letters, digits, underscores, hyphens or periods. *)
Theorem sanitized_tag_well_formed (x : jsstring) :
  exists c rest,
    _sanitizeXmlTag x = c :: rest
    /\ is_tag_start c = true
    /\ Forall (fun c => is_tag_char c = true) (c :: rest).
Proof.
  pose proof (sanitize_is_valid x) as H. unfold valid_tag in H.
  apply andb_true_iff in H as [Hall Hstart].
  destruct (_sanitizeXmlTag x) as [|c rest]; [done|].
  exists c, rest. split_and!; [done..|]. apply Forall_forall.
  intros d Hd%list_elem_of_In. by apply (proj1 (forallb_forall _ _) Hall).
Qed.

(** X2: the labels the sanitizer leaves unchanged are exactly the
    well-formed tags. *)
Theorem sanitizer_fixed_points (s : jsstring) :
  _sanitizeXmlTag s = s <-> valid_tag s = true.
Proof.
  split.
  - intros <-. apply sanitize_is_valid.
  - apply sanitize_valid_tag.
Qed.

(** X3: the placeholder "EMPTY_TAG" is returned for the empty label and
    for a label whose sanitized text spells "EMPTY_TAG", and for no other
    label. *)
Theorem placeholder_iff (x : jsstring) :
  _sanitizeXmlTag x = EMPTY_TAG <-> x = [] \/ sanitize_step3 x = EMPTY_TAG.
Proof.
  destruct x as [|c x]; [by split; [left|]|].
  unfold _sanitizeXmlTag. cbn [truthy negb]. fold (sanitize_step3 (c :: x)).
  destruct (starts_with_tag_start (sanitize_step3 (c :: x))) eqn:Hstart;
    cbn [negb].
  - destruct (sanitize_step3 (c :: x)) as [|d t] eqn:H3; [done|].
    cbn [truthy negb]. split; [by right|]. by intros [|].
  - cbn [truthy negb]. split; [done|]. intros [|H3]; [done|].
    by rewrite H3 in Hstart.
Qed.

(** ** Cell extractor *)

Section ExtractorMore.

Lemma define_not_in {V} k (v : V) (o : jsobject V) :
  k ∉ o.*1 -> JsObject.define k v o = o ++ [(k, v)].
Proof.
  induction o as [|[k' v'] o IH]; [done|].
  rewrite fmap_cons. intros [Hne Hnin]%not_elem_of_cons. simpl in *.
  rewrite decide_False by done. by rewrite IH.
Qed.

(** Definitions of distinct new keys append the properties in order. *)
Lemma define_all_distinct {V} (kvs o : jsobject V) :
  NoDup (o.*1 ++ kvs.*1) -> JsObject.define_all kvs o = o ++ kvs.
Proof.
  revert o. induction kvs as [|[k v] kvs IH]; intros o Hnd.
  - by rewrite app_nil_r.
  - unfold JsObject.define_all. cbn [foldl fst snd].
    fold (JsObject.define_all kvs (JsObject.define k v o)).
    rewrite fmap_cons in Hnd. cbn [fst] in Hnd.
    assert (k ∉ o.*1) as Hk.
    { apply NoDup_app in Hnd as (_ & Hdis & _). intros Hin.
      apply (Hdis k Hin). apply list_elem_of_here. }
    rewrite (define_not_in k v o Hk). rewrite IH.
    + by rewrite <- app_assoc.
    + rewrite fmap_app. simpl. by rewrite <- app_assoc.
Qed.

(** So do assignments, when none of the keys is ["__proto__"]. *)
Lemma assign_all_distinct {V} (kvs o : jsobject V) :
  JsObject.PROTO ∉ kvs.*1 ->
  NoDup (o.*1 ++ kvs.*1) -> JsObject.assign_all kvs o = o ++ kvs.
Proof.
  intros Hno Hnd. rewrite assign_all_no_proto by done.
  by apply define_all_distinct.
Qed.

(** The keys after a sequence of assignments depend on the keys only. *)
Lemma fst_assign_all_keys {V W} (kvs1 o1 : jsobject V) (kvs2 o2 : jsobject W) :
  kvs1.*1 = kvs2.*1 -> o1.*1 = o2.*1 ->
  (JsObject.assign_all kvs1 o1).*1 = (JsObject.assign_all kvs2 o2).*1.
Proof.
  revert kvs2 o1 o2.
  induction kvs1 as [|[k v] kvs1 IH]; intros [|[k2 v2] kvs2] o1 o2 Hk Ho;
    try done.
  rewrite !fmap_cons in Hk. injection Hk as -> Hk.
  unfold JsObject.assign_all. cbn [foldl fst snd].
  apply IH; [done|]. unfold JsObject.set. case_decide; [done|].
  rewrite !fst_define. by rewrite Ho.
Qed.

Lemma index_entries_keys {V W} (o1 : jsobject V) (o2 : jsobject W) :
  o1.*1 = o2.*1 ->
  (fun e => (e.1, e.2.1)) <$> JsObject.index_entries o1
  = (fun e => (e.1, e.2.1)) <$> JsObject.index_entries o2.
Proof.
  revert o2. induction o1 as [|[k v] o1 IH]; intros [|[k2 v2] o2] Ho; try done.
  rewrite !fmap_cons in Ho. injection Ho as -> Ho. simpl.
  specialize (IH o2 Ho).
  destruct (JsObject.array_index k2) as [n|]; [|done].
  revert IH. generalize (JsObject.index_entries o1) (JsObject.index_entries o2).
  intros l1. induction l1 as [|[m1 [ka va]] l1 IHl]; intros [|[m2 [kb vb]] l2] Hl;
    try done.
  simpl in Hl. injection Hl as -> -> Hl. simpl.
  destruct (n <? m2); simpl; [by rewrite Hl|]. f_equal. by apply IHl.
Qed.

(** [Object.keys] depends on the keys and their insertion order only. *)
Lemma keys_of_keys {V W} (o1 : jsobject V) (o2 : jsobject W) :
  o1.*1 = o2.*1 -> JsObject.keys o1 = JsObject.keys o2.
Proof.
  intros Ho. unfold JsObject.keys, JsObject.entries. rewrite !fmap_app. f_equal.
  - pose proof (index_entries_keys o1 o2 Ho) as H.
    apply (f_equal (fmap snd)) in H. rewrite <- !list_fmap_compose in H.
    rewrite <- !list_fmap_compose. exact H.
  - unfold JsObject.string_entries. revert o2 Ho.
    induction o1 as [|[k v] o1 IH]; intros [|[k2 v2] o2] Ho; try done.
    rewrite !fmap_cons in Ho. injection Ho as -> Ho.
    destruct (JsObject.array_index k2) eqn:Hidx.
    + rewrite !filter_cons_False by (simpl; by rewrite Hidx). by apply IH.
    + rewrite !filter_cons_True by done. rewrite !fmap_cons. f_equal.
      by apply IH.
Qed.

End ExtractorMore.

(** X4: the extractor returns, in row order, one record for every data row
    in bounds that has a cell with non-empty text, and none for the other
    rows. *)
Theorem extraction_keeps_rows_with_data (worksheet : Worksheet) :
  _processExcelData worksheet
  = row_record worksheet
      <$> filter (fun r => row_has_data worksheet r = true)
            (sheet_data_rows worksheet)
  /\ (length (_processExcelData worksheet)
      <= length (sheet_data_rows worksheet))%nat.
Proof.
  rewrite processExcelData_rows. split; [done|].
  rewrite length_fmap. apply length_filter.
Qed.



(** X6: all the records of one sheet have the same field names, in the same
    insertion order and in the same enumeration order. *)
Theorem records_share_field_names (worksheet : Worksheet)
    (record1 record2 : jsobject jsstring) :
  record1 ∈ _processExcelData worksheet ->
  record2 ∈ _processExcelData worksheet ->
  record1.*1 = record2.*1
  /\ JsObject.keys record1 = JsObject.keys record2.
Proof.
  intros (r1 & _ & _ & ->)%elem_of_processExcelData
         (r2 & _ & _ & ->)%elem_of_processExcelData.
  assert ((row_record worksheet r1).*1 = (row_record worksheet r2).*1) as H.
  { unfold row_record. apply fst_assign_all_keys; [|done].
    unfold row_assignments. by rewrite <- !list_fmap_compose. }
  split; [done|]. by apply keys_of_keys.
Qed.

Lemma records_share_field_names_witness :
  [(js "ID", js "1"); (js "Amount", js "10.50")].*1
  = [(js "ID", js "2"); (js "Amount", js "20.00")].*1
  /\ JsObject.keys [(js "ID", js "1"); (js "Amount", js "10.50")]
     = JsObject.keys [(js "ID", js "2"); (js "Amount", js "20.00")].
Proof.
  apply (records_share_field_names Sample.sheet1);
    apply (bool_decide_unpack _); by vm_compute.
Defined.

(** X7: a sheet yields no record exactly when every cell of its data rows
    in bounds has empty text; in particular when the range ends at the
    header row or the sheet has no cells. *)
Theorem no_records_iff_blank (worksheet : Worksheet) :
  _processExcelData worksheet = [] <->
  forall r c, r ∈ sheet_data_rows worksheet -> c ∈ sheet_columns worksheet ->
              cell_text worksheet r c = [].
Proof.
  split; [|apply blank_rows_no_records].
  rewrite processExcelData_rows. intros Hnil r c Hr Hc.
  apply fmap_nil_inv in Hnil.
  destruct (decide (cell_text worksheet r c = [])) as [|Hne]; [done|].
  assert (r ∈ filter (fun r => row_has_data worksheet r = true)
                (sheet_data_rows worksheet)) as Hin.
  { apply list_elem_of_filter. split; [|done].
    unfold row_has_data. apply existsb_exists. exists c.
    split; [by apply list_elem_of_In|]. by apply bool_decide_eq_true. }
  rewrite Hnil in Hin. by apply elem_of_nil in Hin.
Qed.

(** X30: when two columns in bounds have the same header name (the
    trimmed display text of the header cell, or its COL_n placeholder)
    other than "__proto__", every extracted record has one field of that
    name, and so fewer fields than the sheet has columns in bounds; the
    record comes from a data row, and under each name other than
    "__proto__" it holds the text of the rightmost column of that name. *)
Theorem duplicate_header_overwrites (worksheet : Worksheet) (c1 c2 : nat)
    (record : jsobject jsstring) :
  c1 ∈ sheet_columns worksheet -> c2 ∈ sheet_columns worksheet ->
  (c1 < c2)%nat ->
  header_name worksheet c1 = header_name worksheet c2 ->
  header_name worksheet c1 <> JsObject.PROTO ->
  record ∈ _processExcelData worksheet ->
  NoDup (JsObject.keys record)
  /\ header_name worksheet c1 ∈ JsObject.keys record
  /\ (length (JsObject.keys record) < length (sheet_columns worksheet))%nat
  /\ exists r, r ∈ sheet_data_rows worksheet /\
       forall c, c ∈ sheet_columns worksheet ->
         header_name worksheet c <> JsObject.PROTO ->
         (forall c', c' ∈ sheet_columns worksheet -> (c < c')%nat ->
                     header_name worksheet c' <> header_name worksheet c) ->
         JsObject.get (header_name worksheet c) record
         = Some (cell_text worksheet r c).
Proof.
  intros H1 H2 Hlt Hname Hproto (r & Hr & _ & ->)%elem_of_processExcelData.
  split_and!.
  - apply NoDup_keys_row_record.
  - by apply header_name_in_row_record.
  - rewrite length_keys. by apply (length_row_record_lt worksheet r c1 c2).
  - exists r. split; [done|]. intros c Hc Hne Hright.
    by apply get_row_record_rightmost.
Qed.

Lemma duplicate_header_overwrites_witness :
  NoDup (JsObject.keys [(js "Name", js "Bob")])
  /\ header_name Sample.sheet_duplicate_header 0 ∈ JsObject.keys [(js "Name", js "Bob")]
  /\ (length (JsObject.keys [(js "Name", js "Bob")])
      < length (sheet_columns Sample.sheet_duplicate_header))%nat
  /\ exists r, r ∈ sheet_data_rows Sample.sheet_duplicate_header /\
       forall c, c ∈ sheet_columns Sample.sheet_duplicate_header ->
         header_name Sample.sheet_duplicate_header c <> JsObject.PROTO ->
         (forall c', c' ∈ sheet_columns Sample.sheet_duplicate_header ->
                     (c < c')%nat ->
                     header_name Sample.sheet_duplicate_header c'
                     <> header_name Sample.sheet_duplicate_header c) ->
         JsObject.get (header_name Sample.sheet_duplicate_header c)
           [(js "Name", js "Bob")]
         = Some (cell_text Sample.sheet_duplicate_header r c).
Proof.
  apply (duplicate_header_overwrites Sample.sheet_duplicate_header 0 1).
  - apply (bool_decide_unpack _). by vm_compute.
  - apply (bool_decide_unpack _). by vm_compute.
  - lia.
  - reflexivity.
  - by vm_compute.
  - apply (bool_decide_unpack _). by vm_compute.
Defined.

(** ** Effects of the computations *)

Section Frames.

Variable rt : Runtime.

Lemma touches_only_weaken {A} paths paths' (m : M A) :
  paths ⊆ paths' -> touches_only paths m -> touches_only paths' m.
Proof. intros Hsub Hm world p Hp. apply Hm. intros Hin. by apply Hp, Hsub. Qed.

Lemma touches_only_bind {A B} paths (m : M A) (k : A -> M B) :
  touches_only paths m -> (forall a, touches_only paths (k a)) ->
  touches_only paths (bind m k).
Proof.
  intros Hm Hk world p Hp. unfold bind.
  specialize (Hm world p Hp). destruct (m world) as [[a|e] world1]; [|done].
  simpl in Hm. rewrite <- Hm. by apply Hk.
Qed.

Lemma touches_only_try_catch {A} paths (m : M A) (h : exn -> M A) :
  touches_only paths m -> (forall e, touches_only paths (h e)) ->
  touches_only paths (try_catch m h).
Proof.
  intros Hm Hh world p Hp. unfold try_catch.
  specialize (Hm world p Hp). destruct (m world) as [[a|e] world1]; [done|].
  simpl in Hm. rewrite <- Hm. by apply Hh.
Qed.

Lemma touches_only_pure {A} paths (m : M A) :
  (forall world, files (m world).2 = files world) -> touches_only paths m.
Proof. intros Hm world p _. by rewrite Hm. Qed.

Lemma touches_only_log paths eventType userId act dets stat :
  touches_only paths (AuditLogger.log rt eventType userId act dets stat).
Proof. by apply touches_only_pure. Qed.

Lemma touches_only_readFileSync paths path :
  touches_only paths (Fs.readFileSync path).
Proof.
  apply touches_only_pure. intros world. unfold Fs.readFileSync.
  by destruct (files world !! path).
Qed.

Lemma touches_only_writeFileSync path data :
  touches_only [path] (Fs.writeFileSync rt path data).
Proof.
  intros world p Hp. unfold Fs.writeFileSync.
  destruct (writable rt path); [|done]. simpl.
  apply lookup_insert_ne. intros ->. apply Hp, list_elem_of_here.
Qed.

Lemma touches_only_unlinkSync path : touches_only [path] (Fs.unlinkSync path).
Proof.
  intros world p Hp. unfold Fs.unlinkSync.
  destruct (files world !! path); [|done]. simpl.
  apply lookup_delete_ne. intros ->. apply Hp, list_elem_of_here.
Qed.

Lemma touches_only_encryptData data :
  touches_only [] (AESEncryption.encryptData rt data).
Proof.
  unfold AESEncryption.encryptData.
  apply touches_only_try_catch.
  - apply touches_only_bind; [by apply touches_only_pure|]. intros iv.
    apply touches_only_bind; [by apply touches_only_pure|]. intros ct.
    apply touches_only_bind; [apply touches_only_log|]. intros _.
    by apply touches_only_pure.
  - intros e. apply touches_only_bind; [apply touches_only_log|]. intros _.
    by apply touches_only_pure.
Qed.

Lemma touches_only_decryptData text :
  touches_only [] (AESEncryption.decryptData rt text).
Proof.
  unfold AESEncryption.decryptData.
  apply touches_only_try_catch.
  - apply touches_only_bind; [by apply touches_only_pure|]. intros ct.
    apply touches_only_bind; [apply touches_only_log|]. intros _.
    by apply touches_only_pure.
  - intros e. apply touches_only_bind; [apply touches_only_log|]. intros _.
    by apply touches_only_pure.
Qed.

Lemma touches_only_encryptFile inputPath outputPath :
  touches_only [outputPath] (AESEncryption.encryptFile rt inputPath outputPath).
Proof.
  unfold AESEncryption.encryptFile.
  apply touches_only_try_catch.
  - apply touches_only_bind; [apply touches_only_readFileSync|]. intros data.
    apply touches_only_bind.
    { eapply touches_only_weaken; [|apply touches_only_encryptData].
      by intros x ?%elem_of_nil. }
    intros text.
    apply touches_only_bind; [apply touches_only_writeFileSync|]. intros _.
    apply touches_only_log.
  - intros e. apply touches_only_bind; [apply touches_only_log|]. intros _.
    by apply touches_only_pure.
Qed.

Lemma touches_only_decryptFile inputPath outputPath :
  touches_only [outputPath] (AESEncryption.decryptFile rt inputPath outputPath).
Proof.
  unfold AESEncryption.decryptFile.
  apply touches_only_try_catch.
  - apply touches_only_bind.
    { unfold Fs.readFileSync_utf8.
      apply touches_only_bind; [apply touches_only_readFileSync|]. intros data.
      by apply touches_only_pure. }
    intros text.
    apply touches_only_bind.
    { eapply touches_only_weaken; [|apply touches_only_decryptData].
      by intros x ?%elem_of_nil. }
    intros data.
    apply touches_only_bind; [apply touches_only_writeFileSync|]. intros _.
    apply touches_only_log.
  - intros e. apply touches_only_bind; [apply touches_only_log|]. intros _.
    by apply touches_only_pure.
Qed.

Lemma touches_only_load_sheet paths inputFile sheetName :
  touches_only paths (load_sheet rt inputFile sheetName).
Proof.
  apply touches_only_pure. intros world.
  destruct (load_sheet rt inputFile sheetName world) as [r world'] eqn:H.
  by apply load_sheet_world in H as ->.
Qed.

Lemma touches_only_encrypt_output outputFile encryptOutput :
  touches_only [outputFile; encrypted_path outputFile]
    (encrypt_output rt outputFile encryptOutput).
Proof.
  unfold encrypt_output. destruct encryptOutput; [|by apply touches_only_pure].
  apply touches_only_bind.
  { eapply touches_only_weaken; [|apply touches_only_encryptFile].
    intros x ->%list_elem_of_singleton. set_solver. }
  intros _. apply touches_only_bind.
  { eapply touches_only_weaken; [|apply touches_only_unlinkSync].
    intros x ->%list_elem_of_singleton. set_solver. }
  intros _. by apply touches_only_pure.
Qed.

Lemma touches_only_convert inputFile outputFile headerFields sheetName
    encryptOutput userId :
  touches_only [outputFile; encrypted_path outputFile]
    (convert rt inputFile outputFile headerFields sheetName encryptOutput
       userId).
Proof.
  unfold convert.
  apply touches_only_bind; [by apply touches_only_pure|]. intros startTime.
  apply touches_only_try_catch.
  - unfold convert_try.
    apply touches_only_bind; [apply touches_only_load_sheet|].
    intros [name worksheet]. cbv beta match.
    destruct (bool_decide _ && bool_decide _ && negb _);
      [by apply touches_only_pure|].
    case_bool_decide; [by apply touches_only_pure|].
    apply touches_only_bind; [by apply touches_only_pure|]. intros doc.
    apply touches_only_bind.
    { eapply touches_only_weaken; [|apply touches_only_writeFileSync].
      intros x ->%list_elem_of_singleton. set_solver. }
    intros _. apply touches_only_bind; [apply touches_only_encrypt_output|].
    intros finalOutput.
    apply touches_only_bind; [by apply touches_only_pure|]. intros endTime.
    apply touches_only_bind; [apply touches_only_log|]. intros _.
    by apply touches_only_pure.
  - intros e. unfold convert_catch.
    apply touches_only_bind; [apply touches_only_log|]. intros _.
    by apply touches_only_pure.
Qed.

End Frames.

(** X8: whatever its result, a call of [convert] changes no file other than
    the one at the output path and the one at the encrypted path; in
    particular the input file is left as it is when its path is neither. *)
Theorem convert_touches_only_outputs (rt : Runtime)
    (inputFile outputFile : jsstring)
    (headerFields : option (jsobject jsval)) (sheetName : option jsstring)
    (encryptOutput : bool) (userId : jsstring) (world world' : World)
    (result : res Summary) (path : jsstring) :
  convert rt inputFile outputFile headerFields sheetName encryptOutput userId
    world = (result, world') ->
  path <> outputFile -> path <> encrypted_path outputFile ->
  files world' !! path = files world !! path.
Proof.
  intros Hrun Hne1 Hne2.
  pose proof (touches_only_convert rt inputFile outputFile headerFields
                sheetName encryptOutput userId world path) as H.
  rewrite Hrun in H. apply H.
  intros [->|[->|?%elem_of_nil]%elem_of_cons]%elem_of_cons; done.
Qed.

Lemma convert_touches_only_outputs_witness :
  files (convert Sample.rt_ok Sample.input_path (js "/out/a.xml") None None
           true (js "system") Sample.world0).2 !! Sample.input_path
  = files Sample.world0 !! Sample.input_path.
Proof.
  eapply (convert_touches_only_outputs Sample.rt_ok Sample.input_path
            (js "/out/a.xml") None None true (js "system") Sample.world0).
  - apply surjective_pairing.
  - by vm_compute.
  - by vm_compute.
Defined.

(** Whatever their result, [encryptFile] and [decryptFile] change no
    file other than the one at their output path. *)
Theorem cipher_touches_only_output (rt : Runtime)
    (inputPath outputPath path : jsstring) (world : World) :
  path <> outputPath ->
  files (AESEncryption.encryptFile rt inputPath outputPath world).2 !! path
  = files world !! path
  /\ files (AESEncryption.decryptFile rt inputPath outputPath world).2 !! path
     = files world !! path.
Proof.
  intros Hne. split.
  - apply touches_only_encryptFile. by intros ->%list_elem_of_singleton.
  - apply touches_only_decryptFile. by intros ->%list_elem_of_singleton.
Qed.

Lemma cipher_touches_only_output_witness :
  files (AESEncryption.encryptFile Sample.rt_ok Sample.input_path
           (js "/out/e") Sample.world0).2 !! Sample.input_path
  = files Sample.world0 !! Sample.input_path
  /\ files (AESEncryption.decryptFile Sample.rt_ok Sample.input_path
              (js "/out/e") Sample.world0).2 !! Sample.input_path
     = files Sample.world0 !! Sample.input_path.
Proof.
  apply (cipher_touches_only_output Sample.rt_ok Sample.input_path
           (js "/out/e") Sample.input_path Sample.world0).
  by vm_compute.
Defined.

(** ** The audit trail *)

Section AuditTrail.

Variable rt : Runtime.

Lemma appends_audit_bind {A B} (m : M A) (k : A -> M B) :
  appends_audit m -> (forall a, appends_audit (k a)) ->
  appends_audit (bind m k).
Proof.
  intros Hm Hk world. unfold bind. specialize (Hm world).
  destruct (m world) as [[a|e] world1]; [|done].
  simpl in Hm. etrans; [exact Hm|]. apply Hk.
Qed.

Lemma appends_audit_try_catch {A} (m : M A) (h : exn -> M A) :
  appends_audit m -> (forall e, appends_audit (h e)) ->
  appends_audit (try_catch m h).
Proof.
  intros Hm Hh world. unfold try_catch. specialize (Hm world).
  destruct (m world) as [[a|e] world1]; [done|].
  simpl in Hm. etrans; [exact Hm|]. apply Hh.
Qed.

Lemma appends_audit_pure {A} (m : M A) :
  (forall world, audit (m world).2 = audit world) -> appends_audit m.
Proof. intros Hm world. by rewrite Hm. Qed.

Lemma appends_audit_log eventType userId act dets stat :
  appends_audit (AuditLogger.log rt eventType userId act dets stat).
Proof. intros world. simpl. by apply prefix_app_r. Qed.

Lemma appends_audit_readFileSync path : appends_audit (Fs.readFileSync path).
Proof.
  apply appends_audit_pure. intros world. unfold Fs.readFileSync.
  by destruct (files world !! path).
Qed.

Lemma appends_audit_writeFileSync path data :
  appends_audit (Fs.writeFileSync rt path data).
Proof.
  apply appends_audit_pure. intros world. unfold Fs.writeFileSync.
  by destruct (writable rt path).
Qed.

Lemma appends_audit_unlinkSync path : appends_audit (Fs.unlinkSync path).
Proof.
  apply appends_audit_pure. intros world. unfold Fs.unlinkSync.
  by destruct (files world !! path).
Qed.

Lemma appends_audit_encryptFile inputPath outputPath :
  appends_audit (AESEncryption.encryptFile rt inputPath outputPath).
Proof.
  unfold AESEncryption.encryptFile, AESEncryption.encryptData.
  apply appends_audit_try_catch.
  - apply appends_audit_bind; [apply appends_audit_readFileSync|]. intros data.
    apply appends_audit_bind.
    { apply appends_audit_try_catch.
      - apply appends_audit_bind; [by apply appends_audit_pure|]. intros iv.
        apply appends_audit_bind; [by apply appends_audit_pure|]. intros ct.
        apply appends_audit_bind; [apply appends_audit_log|]. intros _.
        by apply appends_audit_pure.
      - intros e. apply appends_audit_bind; [apply appends_audit_log|].
        intros _. by apply appends_audit_pure. }
    intros text.
    apply appends_audit_bind; [apply appends_audit_writeFileSync|]. intros _.
    apply appends_audit_log.
  - intros e. apply appends_audit_bind; [apply appends_audit_log|]. intros _.
    by apply appends_audit_pure.
Qed.

Lemma appends_audit_encrypt_output outputFile encryptOutput :
  appends_audit (encrypt_output rt outputFile encryptOutput).
Proof.
  unfold encrypt_output. destruct encryptOutput;
    [|by apply appends_audit_pure].
  apply appends_audit_bind; [apply appends_audit_encryptFile|]. intros _.
  apply appends_audit_bind; [apply appends_audit_unlinkSync|]. intros _.
  by apply appends_audit_pure.
Qed.

Lemma appends_audit_convert_try startTime inputFile outputFile headerFields
    sheetName encryptOutput userId :
  appends_audit
    (convert_try rt startTime inputFile outputFile headerFields sheetName
       encryptOutput userId).
Proof.
  unfold convert_try. apply appends_audit_bind.
  { apply appends_audit_pure. intros world.
    destruct (load_sheet rt inputFile sheetName world) as [r world'] eqn:H.
    by apply load_sheet_world in H as ->. }
  intros [name worksheet]. cbv beta match.
  destruct (bool_decide _ && bool_decide _ && negb _);
    [by apply appends_audit_pure|].
  case_bool_decide; [by apply appends_audit_pure|].
  apply appends_audit_bind; [by apply appends_audit_pure|]. intros doc.
  apply appends_audit_bind; [apply appends_audit_writeFileSync|]. intros _.
  apply appends_audit_bind; [apply appends_audit_encrypt_output|].
  intros finalOutput.
  apply appends_audit_bind; [by apply appends_audit_pure|]. intros endTime.
  apply appends_audit_bind; [apply appends_audit_log|]. intros _.
  by apply appends_audit_pure.
Qed.

(** The last record of a successful [try] block. *)
Lemma convert_try_Ok_last startTime inputFile outputFile headerFields
    sheetName encryptOutput userId world summary world' :
  convert_try rt startTime inputFile outputFile headerFields sheetName
    encryptOutput userId world = (Ok summary, world') ->
  (length (audit world) < length (audit world'))%nat
  /\ exists record,
       last (audit world') = Some record
       /\ event_type record = js "conversion"
       /\ user_id record = userId
       /\ action record = js "convert_excel_to_xml"
       /\ status record = js "success".
Proof.
  unfold convert_try. intros H.
  apply bind_Ok_inv in H as ([name worksheet] & w1 & Hload & H).
  apply load_sheet_world in Hload as ->.
  cbv beta match in H.
  destruct (bool_decide _ && bool_decide _ && negb _); [done|].
  case_bool_decide; [done|].
  apply bind_Ok_inv in H as (doc & w2 & Hdoc & H).
  unfold lift in Hdoc. injection Hdoc as _ <-.
  apply bind_Ok_inv in H as ([] & w3 & Hwrite & H).
  pose proof (appends_audit_writeFileSync outputFile
                (utf8_encode rt (xml_end rt doc)) world) as H3.
  unfold Fs.writeFileSync_utf8 in Hwrite. rewrite Hwrite in H3.
  apply bind_Ok_inv in H as (finalOutput & w4 & Henc & H).
  pose proof (appends_audit_encrypt_output outputFile encryptOutput w3) as H4.
  rewrite Henc in H4.
  apply bind_Ok_inv in H as (endTime & w5 & Hnow & H).
  unfold Date_now in Hnow. injection Hnow as _ <-.
  apply bind_Ok_inv in H as ([] & w6 & Hlog & H).
  unfold ret in H. injection H as <- <-.
  unfold AuditLogger.logConversionEvent, AuditLogger.log, bind, Date_now in Hlog.
  injection Hlog as <-. simpl in *.
  apply prefix_length in H3, H4. split.
  - rewrite length_app. simpl. lia.
  - eexists. split; [apply last_snoc|]. done.
Qed.

End AuditTrail.

(** X9: whatever its result, a call of [convert] keeps the audit records
    that were there and appends at least one.  The last record is the
    success record of the conversion when the call returns, and when the
    call throws it is an error record that carries the message of the
    thrown error (or "Error" when the message is empty). *)
Theorem convert_audit_trail (rt : Runtime) (inputFile outputFile : jsstring)
    (headerFields : option (jsobject jsval)) (sheetName : option jsstring)
    (encryptOutput : bool) (userId : jsstring) (world world' : World)
    (result : res Summary) :
  convert rt inputFile outputFile headerFields sheetName encryptOutput userId
    world = (result, world') ->
  audit world `prefix_of` audit world'
  /\ (length (audit world) < length (audit world'))%nat
  /\ exists record,
       last (audit world') = Some record
       /\ user_id record = userId
       /\ action record = js "convert_excel_to_xml"
       /\ match result with
          | Ok _ =>
              event_type record = js "conversion"
              /\ status record = js "success"
          | Throw error =>
              event_type record = js "error"
              /\ status record = js "error"
              /\ JsObject.get (js "error_message") (details record)
                 = Some (VString (if truthy (message error)
                                  then message error else js "Error"))
          end.
Proof.
  rewrite convert_unfold. unfold try_catch.
  pose proof (appends_audit_convert_try rt (clock rt (clock_reads world))
                inputFile outputFile headerFields sheetName encryptOutput
                userId (tick world)) as Hpre.
  destruct (convert_try rt (clock rt (clock_reads world)) inputFile outputFile
              headerFields sheetName encryptOutput userId (tick world))
    as [[summary|e] w1] eqn:Htry; simpl in Hpre.
  - intros [= <- <-]. split; [done|].
    apply convert_try_Ok_last in Htry as (Hlen & record & ? & ? & ? & ? & ?).
    split; [by simpl in Hlen|]. by exists record.
  - unfold convert_catch, AuditLogger.logError, AuditLogger.log, bind,
      Date_now, throw.
    intros [= <- <-]. split_and!.
    + simpl. etrans; [exact Hpre|]. by apply prefix_app_r.
    + apply prefix_length in Hpre. simpl in *. rewrite length_app. simpl. lia.
    + eexists. split; [apply last_snoc|]. split_and!; try done.
Qed.

Lemma convert_audit_trail_witness :
  audit Sample.world0
    `prefix_of` audit (convert Sample.rt_ok Sample.input_path (js "/out/a.xml")
                         None (Some (js "Nowhere")) false (js "system")
                         Sample.world0).2
  /\ (length (audit Sample.world0)
      < length (audit (convert Sample.rt_ok Sample.input_path
                         (js "/out/a.xml") None (Some (js "Nowhere")) false
                         (js "system") Sample.world0).2))%nat
  /\ exists record,
       last (audit (convert Sample.rt_ok Sample.input_path (js "/out/a.xml")
                      None (Some (js "Nowhere")) false (js "system")
                      Sample.world0).2) = Some record
       /\ user_id record = js "system"
       /\ action record = js "convert_excel_to_xml"
       /\ match (convert Sample.rt_ok Sample.input_path (js "/out/a.xml")
                   None (Some (js "Nowhere")) false (js "system")
                   Sample.world0).1 with
          | Ok _ =>
              event_type record = js "conversion"
              /\ status record = js "success"
          | Throw error =>
              event_type record = js "error"
              /\ status record = js "error"
              /\ JsObject.get (js "error_message") (details record)
                 = Some (VString (if truthy (message error)
                                  then message error else js "Error"))
          end.
Proof.
  apply (convert_audit_trail Sample.rt_ok Sample.input_path (js "/out/a.xml")
           None (Some (js "Nowhere")) false (js "system") Sample.world0).
  apply surjective_pairing.
Defined.

(** ** Errors of the orchestrator *)

Section ConvertErrors.

Variable rt : Runtime.

(** A throw of the [try] block is logged and rethrown; the files stay as
    the [try] block left them. *)
Lemma convert_of_try_Throw inputFile outputFile headerFields sheetName
    encryptOutput userId world e world1 :
  convert_try rt (clock rt (clock_reads world)) inputFile outputFile
    headerFields sheetName encryptOutput userId (tick world)
  = (Throw e, world1) ->
  exists world',
    convert rt inputFile outputFile headerFields sheetName encryptOutput
      userId world = (Throw e, world')
    /\ files world' = files world1.
Proof.
  intros Htry. rewrite convert_unfold.
  rewrite (try_catch_Throw _ _ _ _ _ Htry).
  apply convert_catch_throws.
Qed.

Lemma load_sheet_missing_file inputFile sheetName world :
  files world !! inputFile = None ->
  load_sheet rt inputFile sheetName world
  = (Throw (Error (js "Input file not found: " ++ inputFile)), world).
Proof.
  intros Hfile. unfold load_sheet, bind, Fs.existsSync. rewrite Hfile.
  by rewrite bool_decide_eq_false_2 by (by intros [? ?]).
Qed.

Lemma load_sheet_unreadable inputFile sheetName world data e :
  files world !! inputFile = Some data ->
  xlsx_parse rt data = Throw e ->
  load_sheet rt inputFile sheetName world
  = (Throw (Error (js "Failed to read Excel file: " ++ message e)), world).
Proof.
  intros Hfile Hparse.
  unfold load_sheet, bind, try_catch, Fs.existsSync, XLSX_readFile, bind,
    Fs.readFileSync, lift, throw.
  rewrite Hfile. rewrite bool_decide_eq_true_2 by eauto.
  cbn [negb]. cbv beta match. rewrite Hfile. cbv beta match.
  by rewrite Hparse.
Qed.

Lemma load_sheet_no_such_sheet inputFile sheetName world data workbook :
  files world !! inputFile = Some data ->
  xlsx_parse rt data = Ok workbook ->
  name_or_undefined (sheet_to_process sheetName workbook)
    ∉ SheetNames workbook
  \/ sheet_to_process sheetName workbook = None ->
  load_sheet rt inputFile sheetName world
  = (Throw (Error (js "Sheet " ++ [34]
                   ++ name_or_undefined (sheet_to_process sheetName workbook)
                   ++ [34] ++ js " not found in workbook")), world).
Proof.
  intros Hfile Hparse Hno.
  unfold load_sheet, bind, try_catch, Fs.existsSync, XLSX_readFile, bind,
    Fs.readFileSync, lift, throw.
  rewrite Hfile. rewrite bool_decide_eq_true_2 by eauto.
  cbn [negb]. cbv beta match. rewrite Hfile. cbv beta match.
  rewrite Hparse. cbv beta match.
  destruct Hno as [Hno| ->].
  - by rewrite (bool_decide_eq_false_2 _ Hno).
  - rewrite (bool_decide_eq_false_2 (is_Some None)) by (by intros [? ?]).
    by rewrite andb_false_r.
Qed.

Lemma convert_try_load_Throw startTime inputFile outputFile headerFields
    sheetName encryptOutput userId world e :
  load_sheet rt inputFile sheetName world = (Throw e, world) ->
  convert_try rt startTime inputFile outputFile headerFields sheetName
    encryptOutput userId world = (Throw e, world).
Proof. intros H. unfold convert_try. by rewrite (bind_Throw _ _ _ _ _ H). Qed.

(** A sheet with a record has a range that ends below row 0. *)
Lemma records_range worksheet :
  _processExcelData worksheet <> [] ->
  e_r (decode_range worksheet) <> 0%nat.
Proof.
  intros Hrec Hzero. apply Hrec, header_row_only_no_records. lia.
Qed.

(** When the assembler throws, the [try] block throws the same error
    before it writes. *)
Lemma convert_try_assemble_Throw startTime inputFile outputFile headerFields
    sheetName encryptOutput userId world data workbook worksheet e :
  files world !! inputFile = Some data ->
  xlsx_parse rt data = Ok workbook ->
  selects sheetName workbook worksheet ->
  _processExcelData worksheet <> [] ->
  assemble (xml_library rt) (_processExcelData worksheet) headerFields
  = Throw e ->
  convert_try rt startTime inputFile outputFile headerFields sheetName
    encryptOutput userId world = (Throw e, world).
Proof.
  intros Hfile Hparse Hsel Hrec Hdoc.
  destruct (load_sheet_Ok rt _ _ _ _ _ _ Hfile Hparse Hsel) as [name Hload].
  unfold convert_try. rewrite (bind_Ok _ _ _ _ _ Hload). cbv beta match.
  rewrite (bool_decide_eq_false_2 _ (records_range worksheet Hrec)).
  cbn [andb].
  rewrite bool_decide_eq_false_2
    by (by destruct (_processExcelData worksheet)).
  unfold bind, lift. by rewrite Hdoc.
Qed.

End ConvertErrors.

(** X10: the three errors of the input: a missing input file, a file the
    spreadsheet parser rejects, and a sheet that is not in the workbook
    (a named one, or the first one of a workbook without sheets).  Each
    makes [convert] throw an error with the message of the source and
    leaves the files as they were. *)
Theorem convert_input_errors (rt : Runtime) (inputFile outputFile : jsstring)
    (headerFields : option (jsobject jsval)) (sheetName : option jsstring)
    (encryptOutput : bool) (userId : jsstring) (world : World) :
  (files world !! inputFile = None ->
   exists world',
     convert rt inputFile outputFile headerFields sheetName encryptOutput
       userId world
     = (Throw (Error (js "Input file not found: " ++ inputFile)), world')
     /\ files world' = files world)
  /\ (forall data e,
        files world !! inputFile = Some data ->
        xlsx_parse rt data = Throw e ->
        exists world',
          convert rt inputFile outputFile headerFields sheetName encryptOutput
            userId world
          = (Throw (Error (js "Failed to read Excel file: " ++ message e)),
             world')
          /\ files world' = files world)
  /\ (forall data workbook,
        files world !! inputFile = Some data ->
        xlsx_parse rt data = Ok workbook ->
        name_or_undefined (sheet_to_process sheetName workbook)
          ∉ SheetNames workbook
        \/ sheet_to_process sheetName workbook = None ->
        exists world',
          convert rt inputFile outputFile headerFields sheetName encryptOutput
            userId world
          = (Throw (Error (js "Sheet " ++ [34]
                           ++ name_or_undefined
                                (sheet_to_process sheetName workbook)
                           ++ [34] ++ js " not found in workbook")), world')
          /\ files world' = files world).
Proof.
  split_and!.
  - intros Hfile.
    destruct (convert_of_try_Throw rt inputFile outputFile headerFields
                sheetName encryptOutput userId world _ (tick world)
                (convert_try_load_Throw rt _ _ _ _ _ _ _ _ _
                   (load_sheet_missing_file rt inputFile sheetName
                      (tick world) Hfile)))
      as (world' & ? & ?).
    by exists world'.
  - intros data e Hfile Hparse.
    destruct (convert_of_try_Throw rt inputFile outputFile headerFields
                sheetName encryptOutput userId world _ (tick world)
                (convert_try_load_Throw rt _ _ _ _ _ _ _ _ _
                   (load_sheet_unreadable rt inputFile sheetName
                      (tick world) data e Hfile Hparse)))
      as (world' & ? & ?).
    by exists world'.
  - intros data workbook Hfile Hparse Hno.
    destruct (convert_of_try_Throw rt inputFile outputFile headerFields
                sheetName encryptOutput userId world _ (tick world)
                (convert_try_load_Throw rt _ _ _ _ _ _ _ _ _
                   (load_sheet_no_such_sheet rt inputFile sheetName
                      (tick world) data workbook Hfile Hparse Hno)))
      as (world' & ? & ?).
    by exists world'.
Qed.

Example convert_missing_sheet :
  (convert Sample.rt_ok Sample.input_path (js "/out/a.xml") None
     (Some (js "Nowhere")) false (js "system") Sample.world0).1
  = Throw (Error (js "Sheet " ++ [34] ++ js "Nowhere" ++ [34]
                  ++ js " not found in workbook")).
Proof. reflexivity. Qed.

Example convert_missing_input :
  (convert Sample.rt_ok (js "/tmp/none.xlsx") (js "/out/a.xml") None None
     false (js "system") Sample.world0).1
  = Throw (Error (js "Input file not found: /tmp/none.xlsx")).
Proof. reflexivity. Qed.

(** X11: when the assembler throws on the records of the selected sheet,
    [convert] throws the same error and writes nothing: the files are as
    they were. *)
Theorem failed_assembly_writes_nothing (rt : Runtime)
    (inputFile outputFile : jsstring)
    (headerFields : option (jsobject jsval)) (sheetName : option jsstring)
    (encryptOutput : bool) (userId : jsstring) (world : World)
    (data : list byte) (workbook : Workbook) (worksheet : Worksheet)
    (error : exn) :
  files world !! inputFile = Some data ->
  xlsx_parse rt data = Ok workbook ->
  selects sheetName workbook worksheet ->
  _processExcelData worksheet <> [] ->
  assemble (xml_library rt) (_processExcelData worksheet) headerFields
  = Throw error ->
  exists world',
    convert rt inputFile outputFile headerFields sheetName encryptOutput
      userId world = (Throw error, world')
    /\ files world' = files world.
Proof.
  intros Hfile Hparse Hsel Hrec Hdoc.
  destruct (convert_of_try_Throw rt inputFile outputFile headerFields
              sheetName encryptOutput userId world error (tick world))
    as (world' & ? & ?); [|by exists world'].
  by apply (convert_try_assemble_Throw rt _ _ _ _ _ _ _ _ data workbook
              worksheet).
Qed.

Lemma failed_assembly_writes_nothing_witness :
  exists world',
    convert Sample.rt_ok Sample.input_path (js "/out/a.xml")
      (Some [(js "1st", VNull)]) None false (js "system") Sample.world0
    = (Throw (Error (js "Error processing header field 1st: "
                     ++ js "Invalid character in name: 1st")), world')
    /\ files world' = files Sample.world0.
Proof.
  apply (failed_assembly_writes_nothing Sample.rt_ok Sample.input_path
           (js "/out/a.xml") (Some [(js "1st", VNull)]) None false
           (js "system") Sample.world0 [x50; x4b] Sample.workbook1
           Sample.sheet1).
  - reflexivity.
  - reflexivity.
  - exists (js "Sheet1"). split_and!; [reflexivity| |reflexivity].
    apply (bool_decide_unpack _). by vm_compute.
  - by vm_compute.
  - reflexivity.
Defined.

(** ** Outcome of the assembler *)

(** X12: when the XML library creates an element for every well-formed
    tag, the assembler fails only on the caller's header fields: the
    message of an error it throws is "Error processing header field ", the
    name of one of the header fields, ": " and a reason.  The records
    never make it fail: without header fields it returns the root with its
    body, one row element per record.  When the library also creates an
    element for the tag name of every header field, a document that the
    assembler returns is the root with the header section, one child per
    header field, and then the body. *)
Theorem assembler_outcome (lib : XmlBuilder.library)
    (records : list (jsobject jsstring))
    (headerFields : option (jsobject jsval)) :
  creates_tags lib ->
  (header_count headerFields = 0%nat ->
   assemble lib records headerFields
   = Ok (Element XML_ROOT_ELEMENT
           [Element XML_BODY_ELEMENT (row_element <$> records)]))
  /\ (forall error,
        assemble lib records headerFields = Throw error ->
        exists fields key msg,
          headerFields = Some fields
          /\ key ∈ JsObject.keys fields
          /\ error = Error (js "Error processing header field " ++ key
                            ++ js ": " ++ msg))
  /\ (creates_header_tags lib headerFields ->
      forall doc,
        assemble lib records headerFields = Ok doc ->
        doc = Element XML_ROOT_ELEMENT
                (header_section headerFields
                   ++ [Element XML_BODY_ELEMENT (row_element <$> records)])).
Proof.
  intros Htags. split_and!.
  - by apply assemble_no_header.
  - intros error. by apply assemble_Throw.
  - intros Hkeys doc. by apply assemble_Ok.
Qed.

Lemma assembler_outcome_witness :
  (header_count (Some [(js "Report Date", VString (js "2024-01-31"));
                       (js "! bad", VNull); (js "3rd", VNull)]) = 0%nat ->
   assemble Sample.library (_processExcelData Sample.sheet1)
     (Some [(js "Report Date", VString (js "2024-01-31"));
            (js "! bad", VNull); (js "3rd", VNull)])
   = Ok (Element XML_ROOT_ELEMENT
           [Element XML_BODY_ELEMENT
              (row_element <$> _processExcelData Sample.sheet1)]))
  /\ (forall error,
        assemble Sample.library (_processExcelData Sample.sheet1)
          (Some [(js "Report Date", VString (js "2024-01-31"));
                 (js "! bad", VNull); (js "3rd", VNull)])
        = Throw error ->
        exists fields key msg,
          Some [(js "Report Date", VString (js "2024-01-31"));
                (js "! bad", VNull); (js "3rd", VNull)] = Some fields
          /\ key ∈ JsObject.keys fields
          /\ error = Error (js "Error processing header field " ++ key
                            ++ js ": " ++ msg))
  /\ (creates_header_tags Sample.library
        (Some [(js "Report Date", VString (js "2024-01-31"));
               (js "! bad", VNull); (js "3rd", VNull)]) ->
      forall doc,
        assemble Sample.library (_processExcelData Sample.sheet1)
          (Some [(js "Report Date", VString (js "2024-01-31"));
                 (js "! bad", VNull); (js "3rd", VNull)]) = Ok doc ->
        doc = Element XML_ROOT_ELEMENT
                (header_section
                   (Some [(js "Report Date", VString (js "2024-01-31"));
                          (js "! bad", VNull); (js "3rd", VNull)])
                   ++ [Element XML_BODY_ELEMENT
                         (row_element <$> _processExcelData Sample.sheet1)])).
Proof.
  apply (assembler_outcome Sample.library).
  apply sample_library_creates_tags.
Defined.

Example assembler_names_first_rejected_field :
  assemble Sample.library (_processExcelData Sample.sheet1)
    (Some [(js "Report Date", VString (js "2024-01-31"));
           (js "! bad", VNull); (js "3rd", VNull)])
  = Throw (Error (js "Error processing header field ! bad: "
                  ++ js "Invalid character in name: !_bad")).
Proof. reflexivity. Qed.

(** ** Files after a conversion *)

(** X13: a failed call of [convert] either leaves the files as they were,
    or encryption was requested and the only change is the serialization
    of the document assembled from the records of the selected sheet, left
    in plain text at the output path. *)
Theorem failed_conversion_files (rt : Runtime)
    (inputFile outputFile : jsstring)
    (headerFields : option (jsobject jsval)) (sheetName : option jsstring)
    (encryptOutput : bool) (userId : jsstring) (world world' : World)
    (error : exn) :
  convert rt inputFile outputFile headerFields sheetName encryptOutput userId
    world = (Throw error, world') ->
  files world' = files world
  \/ encryptOutput = true
     /\ exists data workbook worksheet doc,
          files world !! inputFile = Some data
          /\ xlsx_parse rt data = Ok workbook
          /\ selects sheetName workbook worksheet
          /\ assemble (xml_library rt) (_processExcelData worksheet)
               headerFields = Ok doc
          /\ files world'
             = <[outputFile := utf8_encode rt (xml_end rt doc)]>
                 (files world).
Proof.
  rewrite convert_unfold.
  intros (e0 & w1 & Htry & Hcatch)%try_catch_Throw_inv.
  destruct (convert_catch_throws rt inputFile outputFile sheetName
              encryptOutput userId e0 w1) as (w' & Hw' & Hfiles).
  rewrite Hcatch in Hw'. injection Hw' as _ <-. rewrite Hfiles. clear Hfiles.
  unfold convert_try in Htry.
  apply bind_Throw_inv in Htry as [H|([name worksheet] & w2 & Hload & H)].
  { apply load_sheet_world in H as ->. by left. }
  pose proof (load_sheet_world _ _ _ _ _ _ Hload) as ->.
  apply load_sheet_Ok_inv in Hload
    as (_ & data & workbook & Hfile & Hparse & Hsel).
  cbv beta match in H.
  destruct (bool_decide _ && bool_decide _ && negb _);
    [left; by injection H as _ <-|].
  case_bool_decide; [left; by injection H as _ <-|].
  apply bind_Throw_inv in H as [H|(doc & w3 & Hdoc & H)].
  { left. unfold lift in H. by injection H as _ <-. }
  unfold lift in Hdoc.
  destruct (assemble _ _ _) as [doc'|] eqn:Hassemble in Hdoc; [|done].
  injection Hdoc as -> <-.
  apply bind_Throw_inv in H as [H|([] & w4 & Hwrite & H)].
  { left. unfold Fs.writeFileSync_utf8, Fs.writeFileSync in H.
    destruct (writable rt outputFile); [done|]. by injection H as _ <-. }
  unfold Fs.writeFileSync_utf8, Fs.writeFileSync in Hwrite.
  destruct (writable rt outputFile); [|done]. injection Hwrite as <-.
  apply bind_Throw_inv in H as [H|(finalOutput & w5 & _ & H)].
  { right.
    eapply encrypt_output_Throw_files in H as [-> ->];
      [|apply lookup_insert_eq].
    split; [done|]. by exists data, workbook, worksheet, doc. }
  apply bind_Throw_inv in H as [H|(endTime & w6 & _ & H)]; [done|].
  apply bind_Throw_inv in H as [H|([] & w7 & _ & H)]; [|done].
  match type of H with
  | AuditLogger.logConversionEvent rt ?u ?i ?o ?t ?s ?d ?w = _ =>
      destruct (logConversionEvent_Ok rt u i o t s d w) as (w8 & Hlog & _)
  end.
  congruence.
Qed.

Lemma failed_conversion_files_witness :
  let run :=
    convert Sample.rt_enc_denied Sample.input_path (js "/out/a.xml") None None
      true (js "system") Sample.world0 in
  files run.2 = files Sample.world0
  \/ true = true
     /\ exists data workbook worksheet doc,
          files Sample.world0 !! Sample.input_path = Some data
          /\ xlsx_parse Sample.rt_enc_denied data = Ok workbook
          /\ selects None workbook worksheet
          /\ assemble (xml_library Sample.rt_enc_denied)
               (_processExcelData worksheet) None = Ok doc
          /\ files run.2
             = <[js "/out/a.xml" :=
                   utf8_encode Sample.rt_enc_denied
                     (xml_end Sample.rt_enc_denied doc)]>
                 (files Sample.world0).
Proof.
  apply (failed_conversion_files Sample.rt_enc_denied Sample.input_path
           (js "/out/a.xml") None None true (js "system") Sample.world0 _
           (Fs.EACCES (js "/out/a.xml.enc"))).
  by vm_compute.
Defined.

(** X14: a successful call without encryption changes the files in one
    place only: the output path holds the serialization of the document
    assembled from the records of the selected sheet; every other file,
    the input file included, is as before. *)
Theorem plain_conversion_files (rt : Runtime)
    (inputFile outputFile : jsstring)
    (headerFields : option (jsobject jsval)) (sheetName : option jsstring)
    (userId : jsstring) (world world' : World) (summary : Summary) :
  convert rt inputFile outputFile headerFields sheetName false userId world
  = (Ok summary, world') ->
  exists data workbook worksheet doc,
    files world !! inputFile = Some data
    /\ xlsx_parse rt data = Ok workbook
    /\ selects sheetName workbook worksheet
    /\ assemble (xml_library rt) (_processExcelData worksheet) headerFields
       = Ok doc
    /\ files world'
       = <[outputFile := utf8_encode rt (xml_end rt doc)]> (files world).
Proof.
  intros (data & workbook & worksheet & doc & w2 & w3 & record & Hfile & Hparse
          & Hsel & _ & Hdoc & _ & Hf2 & _ & Henc & Hf' & _)%convert_Ok_inv.
  apply encrypt_output_Ok_inv in Henc as (_ & _ & ->).
  exists data, workbook, worksheet, doc. split_and!; [done..|].
  by rewrite Hf', Hf2.
Qed.

Lemma plain_conversion_files_witness :
  let run :=
    convert Sample.rt_ok Sample.input_path (js "/out/a.xml")
      Sample.header_fields1 None false (js "system") Sample.world0 in
  exists data workbook worksheet doc,
    files Sample.world0 !! Sample.input_path = Some data
    /\ xlsx_parse Sample.rt_ok data = Ok workbook
    /\ selects None workbook worksheet
    /\ assemble (xml_library Sample.rt_ok) (_processExcelData worksheet)
         Sample.header_fields1 = Ok doc
    /\ files run.2
       = <[js "/out/a.xml" :=
             utf8_encode Sample.rt_ok (xml_end Sample.rt_ok doc)]>
           (files Sample.world0).
Proof.
  apply (plain_conversion_files Sample.rt_ok Sample.input_path
           (js "/out/a.xml") Sample.header_fields1 None (js "system")
           Sample.world0 _
           {| success := true; rowsProcessed := 2; conversionTime := 5 |}).
  by vm_compute.
Defined.

(** X15: when the cipher of the runtime decrypts what it encrypts and the
    text codec leaves ASCII text unchanged, the file that a successful
    encrypted conversion leaves at the encrypted path (for an output path
    that the renaming changes) decrypts with [decryptFile] to exactly the
    serialization of the assembled document. *)
Theorem encrypted_conversion_decrypts (rt : Runtime)
    (inputFile outputFile target : jsstring)
    (headerFields : option (jsobject jsval)) (sheetName : option jsstring)
    (userId : jsstring) (world world' : World) (summary : Summary) :
  (forall iv data, length iv = 16%nat ->
     exists ct,
       cipher rt AESEncryption.algorithm (AESEncryption.key rt) iv data = Ok ct
       /\ decipher rt AESEncryption.algorithm (AESEncryption.key rt) iv ct
          = Ok data) ->
  (forall s, Forall (fun c => c < 128) s ->
             utf8_decode rt (utf8_encode rt s) = s) ->
  encrypted_path outputFile <> outputFile ->
  writable rt target = true ->
  convert rt inputFile outputFile headerFields sheetName true userId world
  = (Ok summary, world') ->
  exists data workbook worksheet doc world'',
    files world !! inputFile = Some data
    /\ xlsx_parse rt data = Ok workbook
    /\ selects sheetName workbook worksheet
    /\ assemble (xml_library rt) (_processExcelData worksheet) headerFields
       = Ok doc
    /\ AESEncryption.decryptFile rt (encrypted_path outputFile) target world'
       = (Ok tt, world'')
    /\ files world'' !! target = Some (utf8_encode rt (xml_end rt doc)).
Proof.
  intros Hcipher Hcodec Hne Hw
    (data & workbook & worksheet & doc & w2 & w3 & record & Hfile & Hparse
     & Hsel & _ & Hdoc & _ & Hf2 & _ & Henc & Hf' & _)%convert_Ok_inv.
  apply encrypt_output_Ok_inv in Henc as (_ & _ & (plain & ct & Hplain & Hct & Hf3)).
  rewrite Hf2, lookup_insert_eq in Hplain. injection Hplain as <-.
  set (plaintext := utf8_encode rt (xml_end rt doc)) in *.
  set (iv := AESEncryption.next_iv rt w2) in *.
  assert (length iv = 16%nat) as Hiv.
  { unfold iv, AESEncryption.next_iv. by rewrite length_fmap, length_seq. }
  destruct (Hcipher iv plaintext Hiv) as (ct' & Hct' & Hback).
  rewrite Hct in Hct'. injection Hct' as <-.
  assert (files world' !! encrypted_path outputFile
          = Some (utf8_encode rt (Base64.encode (iv ++ ct)))) as Hstored.
  { rewrite Hf', Hf3, lookup_delete_ne by done. apply lookup_insert_eq. }
  assert (Base64.decode (utf8_decode rt
            (utf8_encode rt (Base64.encode (iv ++ ct)))) = iv ++ ct) as Hdec.
  { rewrite Hcodec by apply encode_ascii. apply decode_encode. }
  destruct (decryptFile_Ok rt (encrypted_path outputFile) target world' _
              plaintext Hstored) as (world'' & Hdecrypt & Hfiles); [|done|].
  { rewrite Hdec. unfold AESEncryption.ivLength.
    rewrite take_app_length', drop_app_length' by done. exact Hback. }
  exists data, workbook, worksheet, doc, world''. split_and!; [done..|].
  rewrite Hfiles. apply lookup_insert_eq.
Qed.

Lemma encrypted_conversion_decrypts_witness :
  let run :=
    convert Sample.rt_ok Sample.input_path (js "/out/a.xml") None None true
      (js "system") Sample.world0 in
  exists data workbook worksheet doc world'',
    files Sample.world0 !! Sample.input_path = Some data
    /\ xlsx_parse Sample.rt_ok data = Ok workbook
    /\ selects None workbook worksheet
    /\ assemble (xml_library Sample.rt_ok) (_processExcelData worksheet) None
       = Ok doc
    /\ AESEncryption.decryptFile Sample.rt_ok
         (encrypted_path (js "/out/a.xml")) (js "/out/b.xml") run.2
       = (Ok tt, world'')
    /\ files world'' !! js "/out/b.xml"
       = Some (utf8_encode Sample.rt_ok (xml_end Sample.rt_ok doc)).
Proof.
  apply (encrypted_conversion_decrypts Sample.rt_ok Sample.input_path
           (js "/out/a.xml") (js "/out/b.xml") None None (js "system")
           Sample.world0 _
           {| success := true; rowsProcessed := 2; conversionTime := 15 |}).
  - intros iv data Hiv. apply shift_cipher_inverse; [|done].
    by vm_compute.
  - apply ascii_codec.
  - by vm_compute.
  - reflexivity.
  - by vm_compute.
Defined.

(** ** The path of the encrypted output *)

Section ReplaceFirst.

Lemma starts_with_spec (pattern s : jsstring) :
  starts_with pattern s = true <-> exists rest, s = pattern ++ rest.
Proof.
  revert s. induction pattern as [|a pattern IH]; intros s.
  { split; [by exists s|done]. }
  destruct s as [|b s]; simpl.
  { split; [done|]. by intros [rest ?]. }
  rewrite andb_true_iff, N.eqb_eq, IH. split.
  - intros [-> [rest ->]]. by exists rest.
  - intros [rest [= -> ->]]. split; [done|]. by exists rest.
Qed.

Lemma replace_first_unfold (pattern replacement s : jsstring) :
  replace_first pattern replacement s
  = if starts_with pattern s then replacement ++ drop (length pattern) s
    else match s with
         | [] => []
         | c :: s' => c :: replace_first pattern replacement s'
         end.
Proof. by destruct s. Qed.

Lemma occurs_cons (pattern s : jsstring) c :
  occurs pattern (c :: s) ->
  starts_with pattern (c :: s) = true \/ occurs pattern s.
Proof.
  intros ([|c' before] & after & Heq).
  - left. apply starts_with_spec. by exists after.
  - right. injection Heq as -> ->. by exists before, after.
Qed.

(** The string is unchanged when the pattern does not occur in it;
    otherwise one occurrence is replaced. *)
Lemma replace_first_cases (pattern replacement s : jsstring) :
  (~ occurs pattern s /\ replace_first pattern replacement s = s)
  \/ exists before after,
       s = before ++ pattern ++ after
       /\ replace_first pattern replacement s
          = before ++ replacement ++ after.
Proof.
  induction s as [|c s IH]; rewrite replace_first_unfold.
  - destruct (starts_with pattern []) eqn:Hstart.
    + right. apply starts_with_spec in Hstart as [rest Hrest].
      exists [], rest. split; [done|]. simpl. f_equal.
      by rewrite Hrest, drop_app_length.
    + left. split; [|done]. intros (before & after & Heq).
      destruct before; [|done]. destruct pattern; [done|done].
  - destruct (starts_with pattern (c :: s)) eqn:Hstart.
    + right. apply starts_with_spec in Hstart as [rest Hrest].
      exists [], rest. split; [done|]. simpl. f_equal.
      by rewrite Hrest, drop_app_length.
    + destruct IH as [[Hno Heq]|(before & after & -> & Heq)].
      * left. split; [|by rewrite Heq].
        intros [Hs|Hs]%occurs_cons; [congruence|done].
      * right. exists (c :: before), after. split; [done|]. by rewrite Heq.
Qed.

(** The occurrence that is replaced is the first one: the one that no
    occurrence starts before. *)
Lemma replace_first_at (q : jsstring) (x : N) (replacement a b : jsstring) :
  ~ occurs (q ++ [x]) (a ++ q) ->
  replace_first (q ++ [x]) replacement (a ++ (q ++ [x]) ++ b)
  = a ++ replacement ++ b.
Proof.
  induction a as [|c a IH]; intros Hno; rewrite replace_first_unfold.
  - simpl. rewrite (proj2 (starts_with_spec _ _)) by (by exists b).
    by rewrite drop_app_length.
  - destruct (starts_with (q ++ [x]) ((c :: a) ++ (q ++ [x]) ++ b)) eqn:Hstart.
    + exfalso. apply Hno. apply starts_with_spec in Hstart as [rest Hrest].
      exists [], (drop (length (q ++ [x])) ((c :: a) ++ q)).
      rewrite app_nil_l.
      rewrite <- (take_drop (length (q ++ [x])) ((c :: a) ++ q)) at 1.
      f_equal.
      transitivity (take (length (q ++ [x])) (((c :: a) ++ q) ++ [x] ++ b)).
      { symmetry. apply take_app_le. rewrite !length_app. simpl. lia. }
      replace (((c :: a) ++ q) ++ [x] ++ b)
        with ((c :: a) ++ (q ++ [x]) ++ b) by (by rewrite <- !app_assoc).
      by rewrite Hrest, take_app_length.
    + simpl. f_equal. apply IH. intros (before & after & Heq).
      apply Hno. exists (c :: before), after. simpl. by rewrite Heq.
Qed.

End ReplaceFirst.

(** X16: the encrypted path is the output path with the first occurrence
    of ".xml" replaced by ".xml.enc", wherever it is in the path; the
    path is unchanged exactly when ".xml" does not occur in it. *)
Theorem encrypted_path_first_occurrence (outputFile : jsstring) :
  (encrypted_path outputFile = outputFile <-> ~ occurs (js ".xml") outputFile)
  /\ (forall before after,
        outputFile = before ++ js ".xml" ++ after ->
        ~ occurs (js ".xml") (before ++ js ".xm") ->
        encrypted_path outputFile = before ++ js ".xml.enc" ++ after).
Proof.
  split.
  - unfold encrypted_path.
    destruct (replace_first_cases (js ".xml") (js ".xml.enc") outputFile)
      as [[Hno Heq]|(before & after & Hout & Heq)].
    + by split.
    + split.
      * rewrite Heq, Hout. intros Hlen%(f_equal length).
        rewrite !length_app in Hlen. simpl in Hlen. lia.
      * intros Hno. exfalso. apply Hno. by exists before, after.
  - intros before after -> Hno. unfold encrypted_path.
    apply (replace_first_at (js ".xm") 108 (js ".xml.enc") before after Hno).
Qed.

Example encrypted_path_inner_occurrence :
  encrypted_path (js "/data.xml.d/report.xml") = js "/data.xml.enc.d/report.xml".
Proof. reflexivity. Qed.

(** X17: after a successful conversion with encryption, nothing is left
    at the output path, and a file is left at the encrypted path exactly
    when ".xml" occurs in the output path: otherwise the two paths are the
    same and the encrypted file is removed with the plaintext. *)
Theorem encrypted_output_survives_iff (rt : Runtime)
    (inputFile outputFile : jsstring)
    (headerFields : option (jsobject jsval)) (sheetName : option jsstring)
    (userId : jsstring) (world world' : World) (summary : Summary) :
  convert rt inputFile outputFile headerFields sheetName true userId world
  = (Ok summary, world') ->
  files world' !! outputFile = None
  /\ (is_Some (files world' !! encrypted_path outputFile)
      <-> occurs (js ".xml") outputFile).
Proof.
  intros (Hout & Hne & Heq)%encrypted_conversion_files. split; [done|].
  destruct (replace_first_cases (js ".xml") (js ".xml.enc") outputFile)
    as [[Hno Hsame]|(before & after & Hocc & Hpath)].
  - split.
    + intros Hsome. rewrite (Heq Hsame) in Hsome. by destruct Hsome.
    + intros Hocc. by destruct Hno.
  - split; [by exists before, after|]. intros _. apply Hne.
    unfold encrypted_path. rewrite Hpath, Hocc. intros Hlen%(f_equal length).
    rewrite !length_app in Hlen. simpl in Hlen. lia.
Qed.

Lemma encrypted_output_survives_iff_witness :
  let run :=
    convert Sample.rt_ok Sample.input_path (js "/out/a.txt") None None true
      (js "system") Sample.world0 in
  files run.2 !! js "/out/a.txt" = None
  /\ (is_Some (files run.2 !! encrypted_path (js "/out/a.txt"))
      <-> occurs (js ".xml") (js "/out/a.txt")).
Proof.
  apply (encrypted_output_survives_iff Sample.rt_ok Sample.input_path
           (js "/out/a.txt") None None (js "system") Sample.world0 _
           {| success := true; rowsProcessed := 2; conversionTime := 15 |}).
  by vm_compute.
Defined.

(** ** Outcome of the file cipher *)

(** X18: the outcome of [encryptFile] in full.  It fails with the error
    of the first step that fails (reading the input, the cipher, writing
    the output) and then leaves every file as it was; otherwise it
    succeeds and the only change is the output file, which holds the
    Base64 text of the initialization vector followed by the
    ciphertext. *)
Theorem encryptFile_outcome (rt : Runtime) (inputPath outputPath : jsstring)
    (world : World) :
  let run := AESEncryption.encryptFile rt inputPath outputPath world in
  match files world !! inputPath with
  | None => run.1 = Throw (Fs.ENOENT inputPath) /\ files run.2 = files world
  | Some data =>
      match cipher rt AESEncryption.algorithm (AESEncryption.key rt)
              (AESEncryption.next_iv rt world) data with
      | Throw error => run.1 = Throw error /\ files run.2 = files world
      | Ok ct =>
          if writable rt outputPath
          then run.1 = Ok tt
               /\ files run.2
                  = <[outputPath :=
                        utf8_encode rt
                          (Base64.encode
                             (AESEncryption.next_iv rt world ++ ct))]>
                      (files world)
          else run.1 = Throw (Fs.EACCES outputPath)
               /\ files run.2 = files world
      end
  end.
Proof.
  unfold AESEncryption.encryptFile, AESEncryption.encryptData, try_catch,
    bind, Fs.readFileSync, Fs.writeFileSync_utf8, Fs.writeFileSync, randomBytes,
    lift, throw, ret, AuditLogger.logSecurityEvent, AuditLogger.logError,
    AuditLogger.log, Date_now, AESEncryption.next_iv. cbv zeta.
  destruct (files world !! inputPath) as [data|]; [|done].
  cbn [files random_reads].
  destruct (cipher rt _ _ _ data) as [ct|error]; [|done].
  cbn [files]. by destruct (writable rt outputPath).
Qed.

(** X19: the outcome of [decryptFile] in full.  It fails with the error
    of the first step that fails (reading the input, the decipher applied
    to the decoded content split after 16 bytes, writing the output) and
    then leaves every file as it was; otherwise the only change is the
    output file, which holds the deciphered bytes. *)
Theorem decryptFile_outcome (rt : Runtime) (inputPath outputPath : jsstring)
    (world : World) :
  let run := AESEncryption.decryptFile rt inputPath outputPath world in
  match files world !! inputPath with
  | None => run.1 = Throw (Fs.ENOENT inputPath) /\ files run.2 = files world
  | Some bytes =>
      match decipher rt AESEncryption.algorithm (AESEncryption.key rt)
              (take 16 (Base64.decode (utf8_decode rt bytes)))
              (drop 16 (Base64.decode (utf8_decode rt bytes))) with
      | Throw error => run.1 = Throw error /\ files run.2 = files world
      | Ok plain =>
          if writable rt outputPath
          then run.1 = Ok tt
               /\ files run.2 = <[outputPath := plain]> (files world)
          else run.1 = Throw (Fs.EACCES outputPath)
               /\ files run.2 = files world
      end
  end.
Proof.
  unfold AESEncryption.decryptFile, AESEncryption.decryptData, try_catch,
    bind, Fs.readFileSync_utf8, Fs.readFileSync, Fs.writeFileSync, bind,
    lift, throw, ret, AuditLogger.logSecurityEvent, AuditLogger.logError,
    AuditLogger.log, Date_now, AESEncryption.ivLength. cbv zeta.
  destruct (files world !! inputPath) as [bytes|]; [|done].
  destruct (decipher rt _ _ _ _) as [plain|error]; [|done].
  cbn [files]. by destruct (writable rt outputPath).
Qed.

(** ** Security middleware: [checkXSS] *)

Section RegExpFacts.

Import RegExp.

Lemma to_upper_idemp c : to_upper (to_upper c) = to_upper c.
Proof.
  unfold to_upper, is_lower.
  destruct ((97 <=? c) && (c <=? 122)) eqn:Hc; [|by rewrite Hc].
  apply andb_true_iff in Hc as [H1%N.leb_le H2%N.leb_le].
  replace ((97 <=? c - 32) && (c - 32 <=? 122)) with false; [done|].
  symmetry. apply andb_false_iff. left. apply N.leb_gt. lia.
Qed.

(** A code unit that is not a letter is matched by itself only. *)
Lemma to_upper_not_letter x c :
  is_letter c = false -> to_upper x = to_upper c -> x = c.
Proof.
  unfold to_upper, is_letter, is_upper, is_lower.
  intros Hc. apply orb_false_iff in Hc as [Hu Hl]. rewrite Hl.
  destruct ((97 <=? x) && (x <=? 122)) eqn:Hx; [|done].
  apply andb_true_iff in Hx as [H1%N.leb_le H2%N.leb_le]. intros <-.
  exfalso. apply andb_false_iff in Hu as [Hu|Hu]; apply N.leb_gt in Hu; lia.
Qed.

Lemma ci_equal_length w l : ci_equal w l -> length w = length l.
Proof. intros H%(f_equal length). by rewrite !length_fmap in H. Qed.

Lemma ci_equal_cons x w c l :
  ci_equal (x :: w) (c :: l) <-> to_upper x = to_upper c /\ ci_equal w l.
Proof.
  unfold ci_equal. rewrite !fmap_cons. split.
  - by intros [= ? ?].
  - by intros [-> ->].
Qed.

Lemma ci_equal_nil_r w : ci_equal w [] <-> w = [].
Proof.
  unfold ci_equal. split; [|by intros ->]. by destruct w.
Qed.

Lemma ci_equal_lookup w l j c :
  ci_equal w l -> l !! j = Some c ->
  exists x, w !! j = Some x /\ to_upper x = to_upper c.
Proof.
  intros Heq Hj.
  assert ((to_upper <$> w) !! j = Some (to_upper c)) as H
    by (by rewrite Heq, list_lookup_fmap, Hj).
  rewrite list_lookup_fmap in H.
  destruct (w !! j) as [x|]; [|done]. injection H as H. by exists x.
Qed.

(** *** The matcher *)

Lemma literal_lits s : literal s = lits (js s).
Proof. done. Qed.

Lemma match_here_One m p s :
  match_here (One m :: p) s
  = match s with
    | x :: s' => if accepts m x then S <$> match_here p s' else None
    | [] => None
    end.
Proof. done. Qed.

Lemma match_here_Star m p s :
  match_here (Star m :: p) s
  = match s with
    | x :: s' =>
        if accepts m x
        then match match_here (Star m :: p) s' with
             | Some n => Some (S n)
             | None => match_here p s
             end
        else match_here p s
    | [] => match_here p []
    end.
Proof. by destruct s. Qed.

Lemma match_here_LazyStar m p s :
  match_here (LazyStar m :: p) s
  = match match_here p s with
    | Some n => Some n
    | None =>
        match s with
        | x :: s' =>
            if accepts m x then S <$> match_here (LazyStar m :: p) s'
            else None
        | [] => None
        end
    end.
Proof. by destruct s. Qed.

(** A match is a prefix of the string. *)
Lemma match_here_length p s n :
  match_here p s = Some n -> (n <= length s)%nat.
Proof.
  revert s n. induction p as [|[m|m|m] p IH]; intros s n.
  - intros [= <-]. lia.
  - rewrite match_here_One. destruct s as [|x s]; [done|].
    destruct (accepts m x); [|done].
    destruct (match_here p s) as [k|] eqn:Hk; [|done].
    intros [= <-]. apply IH in Hk. simpl. lia.
  - revert n. induction s as [|x s IHs]; intros n; rewrite match_here_Star.
    + apply IH.
    + destruct (accepts m x); [|apply IH].
      destruct (match_here (Star m :: p) s) as [k|] eqn:Hk; [|apply IH].
      intros [= <-]. specialize (IHs k eq_refl). simpl. lia.
  - revert n. induction s as [|x s IHs]; intros n;
      rewrite match_here_LazyStar.
    + destruct (match_here p []) as [k|] eqn:Hk; [|done].
      intros [= <-]. by apply IH in Hk.
    + destruct (match_here p (x :: s)) as [k|] eqn:Hk.
      { intros [= <-]. by apply IH in Hk. }
      destruct (accepts m x); [|done].
      destruct (match_here (LazyStar m :: p) s) as [k'|] eqn:Hk'; [|done].
      intros [= <-]. specialize (IHs k' eq_refl). simpl. lia.
Qed.

(** A string of pattern characters matches the words equal to it up to
    case, and the match continues with the rest of the pattern. *)
Lemma match_here_lits l p s n :
  match_here (lits l ++ p) s = Some n
  <-> exists w rest k,
        s = w ++ rest /\ ci_equal w l
        /\ match_here p rest = Some k /\ n = (length l + k)%nat.
Proof.
  revert s n. induction l as [|c l IH]; intros s n.
  - simpl. split.
    + intros H. by exists [], s, n.
    + intros (w & rest & k & -> & ->%ci_equal_nil_r & H & ->). done.
  - change (lits (c :: l) ++ p) with (One (Char c) :: (lits l ++ p)).
    rewrite match_here_One. destruct s as [|x s].
    { split; [done|]. intros (w & rest & k & Hs & Hw & _).
      apply ci_equal_length in Hw. destruct w; [done|done]. }
    cbn [accepts]. destruct (to_upper x =? to_upper c) eqn:Hx.
    + apply N.eqb_eq in Hx. split.
      * destruct (match_here (lits l ++ p) s) as [k|] eqn:Hk; [|done].
        intros [= <-].
        apply IH in Hk as (w & rest & k' & -> & Hw & Hrest & ->).
        exists (x :: w), rest, k'. split_and!; [done| |done|done].
        by apply ci_equal_cons.
      * intros (w & rest & k & Hs & Hw & Hrest & ->).
        destruct w as [|x' w]; [by apply ci_equal_length in Hw|].
        injection Hs as <- ->. apply ci_equal_cons in Hw as [_ Hw].
        rewrite (proj2 (IH (w ++ rest) (length l + k)%nat)); [done|].
        by exists w, rest, k.
    + apply N.eqb_neq in Hx. split; [done|].
      intros (w & rest & k & Hs & Hw & _).
      destruct w as [|x' w]; [by apply ci_equal_length in Hw|].
      injection Hs as <- ->. by apply ci_equal_cons in Hw as [? _].
Qed.

(** Both repetitions find a match exactly when the rest of the pattern
    matches after some run of accepted code units. *)
Lemma match_here_Star_Some m p s :
  is_Some (match_here (Star m :: p) s)
  <-> exists run rest,
        s = run ++ rest /\ Forall (fun x => accepts m x = true) run
        /\ is_Some (match_here p rest).
Proof.
  induction s as [|x s IH]; rewrite match_here_Star.
  - split.
    + intros H. by exists [], [].
    + intros (run & rest & Hs & _ & H).
      symmetry in Hs. by apply app_eq_nil in Hs as [-> ->].
  - destruct (accepts m x) eqn:Hx.
    + destruct (match_here (Star m :: p) s) as [n|] eqn:Hn.
      * split; [|by eexists]. intros _.
        destruct (proj1 IH) as (run & rest & -> & Hrun & H); [by eexists|].
        exists (x :: run), rest. split_and!; [done| |done]. by constructor.
      * split.
        { intros H. by exists [], (x :: s). }
        intros ([|y run] & rest & Hs & Hrun & H); [by simpl in Hs; subst|].
        injection Hs as <- ->. exfalso.
        assert (is_Some (@None nat)) as [? ?]; [|done].
        apply IH. exists run, rest. split_and!; [done| |done].
        by inversion Hrun.
    + split.
      * intros H. by exists [], (x :: s).
      * intros ([|y run] & rest & Hs & Hrun & H); [by simpl in Hs; subst|].
        injection Hs as <- ->. inversion Hrun; congruence.
Qed.

Lemma match_here_LazyStar_Some m p s :
  is_Some (match_here (LazyStar m :: p) s)
  <-> exists run rest,
        s = run ++ rest /\ Forall (fun x => accepts m x = true) run
        /\ is_Some (match_here p rest).
Proof.
  induction s as [|x s IH]; rewrite match_here_LazyStar.
  - destruct (match_here p []) as [n|] eqn:Hn.
    + split; [|by eexists]. intros _. exists [], []. rewrite Hn. by eauto.
    + split; [by intros [? ?]|].
      intros (run & rest & Hs & _ & H).
      symmetry in Hs. apply app_eq_nil in Hs as [-> ->].
      rewrite Hn in H. by destruct H.
  - destruct (match_here p (x :: s)) as [n|] eqn:Hn.
    { split; [|by eexists]. intros _. exists [], (x :: s). rewrite Hn.
      by eauto. }
    destruct (accepts m x) eqn:Hx.
    + split.
      * intros H.
        destruct (proj1 IH) as (run & rest & -> & Hrun & H').
        { destruct (match_here (LazyStar m :: p) s); [by eexists|].
          by destruct H. }
        exists (x :: run), rest. split_and!; [done| |done]. by constructor.
      * intros ([|y run] & rest & Hs & Hrun & H).
        { simpl in Hs. subst rest. rewrite Hn in H. by destruct H. }
        injection Hs as <- ->.
        destruct (proj2 IH) as [k Hk].
        { exists run, rest. split_and!; [done| |done]. by inversion Hrun. }
        rewrite Hk. by eexists.
    + split; [by intros [? ?]|].
      intros ([|y run] & rest & Hs & Hrun & H).
      { simpl in Hs. subst rest. rewrite Hn in H. by destruct H. }
      injection Hs as <- ->. inversion Hrun; congruence.
Qed.

(** *** The search *)

Lemma find_unfold p s :
  find p s
  = match match_here p s with
    | Some n => Some (0%nat, n)
    | None =>
        match s with
        | [] => None
        | _ :: s' => (fun '(a, n) => (S a, n)) <$> find p s'
        end
    end.
Proof. by destruct s. Qed.

(** [find] returns the leftmost position at which the pattern matches. *)
Lemma find_Some_inv p s a n :
  find p s = Some (a, n) ->
  match_here p (drop a s) = Some n
  /\ (a <= length s)%nat
  /\ forall a', (a' < a)%nat -> match_here p (drop a' s) = None.
Proof.
  revert a. induction s as [|x s IH]; intros a; rewrite find_unfold.
  - destruct (match_here p []) as [k|] eqn:Hk; [|done].
    intros [= <- <-]. split_and!; [done|simpl; lia|lia].
  - destruct (match_here p (x :: s)) as [k|] eqn:Hk.
    { intros [= <- <-]. split_and!; [done|simpl; lia|lia]. }
    destruct (find p s) as [[a0 n0]|] eqn:Hfind; [|done].
    intros [= <- <-]. destruct (IH a0 eq_refl) as (Hm0 & Ha0 & Hleast0).
    split_and!; [done|simpl; lia|].
    intros [|a'] Ha'; [done|]. simpl. apply Hleast0. lia.
Qed.

Lemma find_None p s a : find p s = None -> match_here p (drop a s) = None.
Proof.
  revert a. induction s as [|x s IH]; intros a; rewrite find_unfold.
  - rewrite drop_nil. by destruct (match_here p []).
  - destruct (match_here p (x :: s)) as [k|] eqn:Hk; [done|].
    destruct (find p s) as [[a0 n0]|] eqn:Hfind; [done|]. intros _.
    destruct a as [|a]; [done|]. simpl. by apply IH.
Qed.

Lemma find_leftmost p s a n :
  match_here p (drop a s) = Some n ->
  (forall a', (a' < a)%nat -> match_here p (drop a' s) = None) ->
  find p s = Some (a, n).
Proof.
  intros Hm Hleast.
  destruct (find p s) as [[a0 n0]|] eqn:Hfind.
  2:{ apply (find_None _ _ a) in Hfind. congruence. }
  apply find_Some_inv in Hfind as (Hm0 & _ & Hleast0).
  destruct (lt_eq_lt_dec a a0) as [[Hlt| ->]|Hgt].
  - rewrite (Hleast0 a Hlt) in Hm. done.
  - congruence.
  - rewrite (Hleast a0 Hgt) in Hm0. done.
Qed.

Lemma find_is_Some p s :
  is_Some (find p s) <-> exists a, is_Some (match_here p (drop a s)).
Proof.
  split.
  - intros [[a n] (Hm & _)%find_Some_inv]. exists a. by eexists.
  - intros (a & n & Hm). destruct (find p s) eqn:Hfind; [by eexists|].
    apply (find_None _ _ a) in Hfind. congruence.
Qed.

End RegExpFacts.

Section CheckXSS.

Import RegExp.

Lemma match_here_lits_Some l p s :
  is_Some (match_here (lits l ++ p) s)
  <-> exists w rest,
        s = w ++ rest /\ ci_equal w l /\ is_Some (match_here p rest).
Proof.
  split.
  - intros [n (w & rest & k & -> & Hw & Hk & _)%match_here_lits].
    exists w, rest. split_and!; [done..|]. by eexists.
  - intros (w & rest & -> & Hw & [k Hk]). exists (length l + k)%nat.
    apply match_here_lits. by exists w, rest, k.
Qed.

Lemma accepts_not_gt x : accepts (NotChar 62) x = true <-> x <> 62.
Proof.
  cbn [accepts]. rewrite negb_true_iff, N.eqb_neq. split.
  - intros H ->. done.
  - intros H Heq. by apply (to_upper_not_letter x 62) in Heq.
Qed.

(** The first pattern matches at the start of a string exactly when the
    string starts with a script block. *)
Lemma match_here_script s :
  is_Some (match_here
             (literal "<script" ++ [Star (NotChar 62)] ++ literal ">"
                ++ [LazyStar AnyChar] ++ literal "</script>") s)
  <-> exists opening attrs body closing after,
        s = opening ++ attrs ++ [62] ++ body ++ closing ++ after
        /\ ci_equal opening (js "<script")
        /\ (62 ∉ attrs)
        /\ ci_equal closing (js "</script>").
Proof.
  rewrite !literal_lits, match_here_lits_Some. split.
  - intros (opening & r1 & -> & Hopen & H).
    change ([Star (NotChar 62)] ++ ?p) with (Star (NotChar 62) :: p) in H.
    apply match_here_Star_Some in H as (attrs & r2 & -> & Hattrs & H).
    apply match_here_lits_Some in H as (gt & r3 & -> & Hgt & H).
    change ([LazyStar AnyChar] ++ ?p) with (LazyStar AnyChar :: p) in H.
    apply match_here_LazyStar_Some in H as (body & r4 & -> & _ & H).
    rewrite <- (app_nil_r (lits _)) in H.
    apply match_here_lits_Some in H as (closing & after & -> & Hclose & _).
    exists opening, attrs, body, closing, after. split_and!; [|done| |done].
    + destruct gt as [|x [|y gt]]; [by apply ci_equal_length in Hgt|
                                    |by apply ci_equal_length in Hgt].
      apply ci_equal_cons in Hgt as [Hx _].
      by apply (to_upper_not_letter x 62) in Hx as ->.
    + intros Hin. apply (proj1 (Forall_forall _ _) Hattrs) in Hin.
      by apply accepts_not_gt in Hin.
  - intros (opening & attrs & body & closing & after & -> & Hopen & Hattrs
            & Hclose).
    exists opening, (attrs ++ [62] ++ body ++ closing ++ after).
    split_and!; [done..|].
    change ([Star (NotChar 62)] ++ ?p) with (Star (NotChar 62) :: p).
    apply match_here_Star_Some.
    exists attrs, ([62] ++ body ++ closing ++ after). split_and!; [done| |].
    { apply Forall_forall. intros x Hx. apply accepts_not_gt.
      by intros ->. }
    apply match_here_lits_Some.
    exists [62], (body ++ closing ++ after). split_and!; [done..|].
    change ([LazyStar AnyChar] ++ ?p) with (LazyStar AnyChar :: p).
    apply match_here_LazyStar_Some.
    exists body, (closing ++ after). split_and!; [done| |].
    { by apply Forall_forall. }
    rewrite <- (app_nil_r (lits _)). apply match_here_lits_Some.
    exists closing, after. split_and!; [done..|]. by eexists.
Qed.

Lemma find_script s :
  is_Some (find
             (literal "<script" ++ [Star (NotChar 62)] ++ literal ">"
                ++ [LazyStar AnyChar] ++ literal "</script>") s)
  <-> script_block s.
Proof.
  rewrite find_is_Some. unfold script_block. split.
  - intros (a & (opening & attrs & body & closing & after & Hs & H)
                  %match_here_script).
    exists (take a s), opening, attrs, body, closing, after.
    split; [|done]. by rewrite <- Hs, take_drop.
  - intros (before & opening & attrs & body & closing & after & -> & H).
    exists (length before). rewrite drop_app_length.
    apply match_here_script. by exists opening, attrs, body, closing, after.
Qed.

Lemma find_literal l s :
  is_Some (find (lits l) s) <-> ci_occurs l s.
Proof.
  rewrite find_is_Some. unfold ci_occurs. split.
  - intros (a & H). rewrite <- (app_nil_r (lits l)) in H.
    apply match_here_lits_Some in H as (w & rest & Hs & Hw & _).
    exists (take a s), w, rest. split; [|done].
    by rewrite <- Hs, take_drop.
  - intros (before & w & after & -> & Hw). exists (length before).
    rewrite drop_app_length, <- (app_nil_r (lits l)).
    apply match_here_lits_Some. exists w, after. split_and!; [done..|].
    by eexists.
Qed.

(** *** The state of the patterns *)

Lemma test_fresh p s :
  (test (create p) s).1 = bool_decide (is_Some (find p s)).
Proof.
  unfold test, create. cbn [lastIndex source]. rewrite drop_0.
  replace (length s <? 0)%nat with false by (symmetry; by apply Nat.ltb_ge; lia).
  destruct (find p s) as [[a n]|].
  - by rewrite bool_decide_eq_true_2 by (by eexists).
  - by rewrite bool_decide_eq_false_2 by (by intros [? ?]).
Qed.

Lemma test_false re s :
  (test re s).1 = false -> (test re s).2 = create (source re).
Proof.
  unfold test. destruct (length s <? lastIndex re)%nat; [done|].
  by destruct (find _ _) as [[a n]|].
Qed.

(** A match found from a later position is a match of the whole string. *)
Lemma test_true re s :
  (test re s).1 = true -> is_Some (find (source re) s).
Proof.
  unfold test. destruct (length s <? lastIndex re)%nat; [done|].
  destruct (find _ _) as [[a n]|] eqn:Hfind; [|done]. intros _.
  apply find_Some_inv in Hfind as (Hm & _). rewrite drop_drop in Hm.
  apply find_is_Some. eexists. by eexists.
Qed.

Lemma some_test_true patterns s :
  (some_test patterns s).1 = true
  <-> exists re, re ∈ patterns /\ (test re s).1 = true.
Proof.
  induction patterns as [|re patterns IH]; cbn [some_test].
  { split; [done|]. by intros (re & ?%elem_of_nil & _). }
  destruct (test re s) as [found re'] eqn:Htest.
  destruct found.
  - split; [|done]. intros _. exists re. rewrite Htest.
    split; [apply list_elem_of_here|done].
  - destruct (some_test patterns s) as [found' patterns''] eqn:Hrest.
    cbn [fst] in *. rewrite IH. split.
    + intros (re0 & Hin & H). exists re0. split; [|done].
      by apply list_elem_of_further.
    + intros (re0 & [->|Hin]%elem_of_cons & H).
      * rewrite Htest in H. done.
      * by exists re0.
Qed.

Lemma some_test_false patterns s :
  (some_test patterns s).1 = false ->
  (some_test patterns s).2 = create <$> (source <$> patterns).
Proof.
  induction patterns as [|re patterns IH]; cbn [some_test]; [done|].
  pose proof (test_false re s) as Hre.
  destruct (test re s) as [found re'].
  destruct found; [done|].
  destruct (some_test patterns s) as [found' patterns''].
  cbn [fst snd] in *. intros ->. rewrite !fmap_cons.
  by rewrite (Hre eq_refl), (IH eq_refl).
Qed.

End CheckXSS.

(** X20: in their initial state the patterns detect exactly these values:
    a string that holds a script block (an opening script tag closed by
    the first ">" after its name and followed somewhere by a closing
    script tag), or one of the five words "javascript:", "onerror=",
    "onload=", "eval(", "document.cookie", in any mix of upper and lower
    case. *)
Theorem checkXSS_initial_detection (s : jsstring) :
  (checkXSS (VString s) XSS_PATTERNS).1 = true
  <-> script_block s \/ exists l, l ∈ XSS_LITERALS /\ ci_occurs l s.
Proof.
  cbn [checkXSS]. rewrite some_test_true. split.
  - intros (re & Hin & Htest). unfold XSS_PATTERNS in Hin.
    apply list_elem_of_fmap in Hin as (p & -> & Hp).
    rewrite test_fresh in Htest. apply bool_decide_eq_true in Htest.
    rewrite !elem_of_cons in Hp.
    destruct Hp as [->|Hp]; [left; by apply find_script|].
    right. unfold XSS_LITERALS.
    destruct Hp as [->|[->|[->|[->|[->|Hp]]]]];
      [| | | | |by apply elem_of_nil in Hp];
      rewrite literal_lits in Htest; apply find_literal in Htest;
      (eexists; split; [|exact Htest]); set_solver.
  - intros [Hscript|(l & Hl & Hocc)].
    + eexists. split; [apply list_elem_of_here|].
      rewrite test_fresh. apply bool_decide_eq_true. by apply find_script.
    + exists (RegExp.create (RegExp.lits l)). split.
      * unfold XSS_PATTERNS. apply list_elem_of_fmap. exists (RegExp.lits l).
        split; [done|]. unfold XSS_LITERALS in Hl.
        rewrite !elem_of_cons in Hl.
        destruct Hl as [->|[->|[->|[->|[->|Hl]]]]];
          [| | | | |by apply elem_of_nil in Hl];
          rewrite <- literal_lits; set_solver.
      * rewrite test_fresh. apply bool_decide_eq_true.
        by apply find_literal.
Qed.

(** X21: whatever positions the patterns have been left at, [checkXSS]
    raises no false alarm: a value it reports is one that it reports in
    the initial state.  A call that reports nothing leaves every pattern
    in its initial state. *)
Theorem checkXSS_state_effect (s : jsstring) (patterns : list RegExp.t) :
  RegExp.source <$> patterns = RegExp.source <$> XSS_PATTERNS ->
  let run := checkXSS (VString s) patterns in
  (run.1 = true -> (checkXSS (VString s) XSS_PATTERNS).1 = true)
  /\ (run.1 = false -> run.2 = XSS_PATTERNS).
Proof.
  intros Hsources. cbn [checkXSS]. split.
  - rewrite !some_test_true. intros (re & Hin & Htest).
    exists (RegExp.create (RegExp.source re)). split.
    + assert (RegExp.source re ∈ RegExp.source <$> XSS_PATTERNS) as Hsrc.
      { rewrite <- Hsources. apply list_elem_of_fmap. by exists re. }
      apply list_elem_of_fmap in Hsrc as (re0 & Hsrc & Hin0).
      rewrite Hsrc. unfold XSS_PATTERNS in Hin0 |- *.
      apply list_elem_of_fmap in Hin0 as (p & -> & Hp).
      apply list_elem_of_fmap. by exists p.
    + rewrite test_fresh. apply bool_decide_eq_true. by apply test_true.
  - intros Hfalse. rewrite (some_test_false _ _ Hfalse), Hsources.
    reflexivity.
Qed.

Lemma checkXSS_state_effect_witness :
  let patterns := (checkXSS (VString (js "x=javascript:alert(1)"))
                     XSS_PATTERNS).2 in
  let run := checkXSS (VString (js "x=javascript:alert(1)")) patterns in
  (run.1 = true
   -> (checkXSS (VString (js "x=javascript:alert(1)")) XSS_PATTERNS).1 = true)
  /\ (run.1 = false -> run.2 = XSS_PATTERNS).
Proof.
  apply (checkXSS_state_effect (js "x=javascript:alert(1)")
           (checkXSS (VString (js "x=javascript:alert(1)")) XSS_PATTERNS).2).
  reflexivity.
Defined.

Section MissedDetection.

Import RegExp.

Lemma test_create_None p s :
  find p s = None -> test (create p) s = (false, create p).
Proof.
  intros Hfind. unfold test, create. cbn [lastIndex source]. rewrite drop_0.
  replace (length s <? 0)%nat with false by (symmetry; by apply Nat.ltb_ge; lia).
  by rewrite Hfind.
Qed.

(** A word or a script block that the search does not find does not
    occur. *)
Lemma no_occurrence l s : find (lits l) s = None -> ~ ci_occurs l s.
Proof. intros Hfind [m Hm]%find_literal. congruence. Qed.

Lemma no_script_block s :
  find (literal "<script" ++ [Star (NotChar 62)] ++ literal ">"
          ++ [LazyStar AnyChar] ++ literal "</script>") s = None ->
  ~ script_block s.
Proof. intros Hfind [m Hm]%find_script. congruence. Qed.

End MissedDetection.

(** X22: the patterns keep their search position from one call to the
    next.  For a value whose only suspicious content is one occurrence of
    "javascript:", in any letter case (no occurrence starts before it,
    none lies after it, the value holds no script block and none of the
    other four words), the first call reports it and leaves the pattern
    positioned after the occurrence; the next call with the same value then
    finds nothing, reports nothing and resets the patterns. *)
Theorem checkXSS_misses_repeated_value (pre w post : jsstring) :
  ci_equal w (js "javascript:") ->
  ~ ci_occurs (js "javascript:") (pre ++ take 10 w) ->
  ~ ci_occurs (js "javascript:") post ->
  ~ script_block (pre ++ w ++ post) ->
  (forall l, l ∈ XSS_LITERALS -> l <> js "javascript:" ->
             ~ ci_occurs l (pre ++ w ++ post)) ->
  let value := VString (pre ++ w ++ post) in
  let first := checkXSS value XSS_PATTERNS in
  let second := checkXSS value first.2 in
  first.1 = true /\ second.1 = false /\ second.2 = XSS_PATTERNS.
Proof.
  intros Hw Hbefore Hafter Hscript Hothers.
  set (s := pre ++ w ++ post).
  pose proof (ci_equal_length _ _ Hw) as Hlen. simpl in Hlen.
  assert (forall l, l ∈ XSS_LITERALS -> l <> js "javascript:" ->
            RegExp.find (RegExp.lits l) s = None) as Hother.
  { intros l Hl Hne. destruct (RegExp.find _ s) as [m|] eqn:Hfind; [|done].
    exfalso. apply (Hothers l Hl Hne). apply find_literal. fold s.
    by rewrite Hfind. }
  assert (RegExp.find (RegExp.literal "javascript:") s
          = Some (length pre, 11%nat)) as Hfirst.
  { apply find_leftmost.
    - unfold s. rewrite drop_app_length.
      rewrite literal_lits, <- (app_nil_r (RegExp.lits _)).
      apply match_here_lits. exists w, post, 0%nat. by split_and!.
    - intros a' Ha'.
      destruct (RegExp.match_here _ (drop a' s)) as [n|] eqn:Hm; [|done].
      exfalso. apply Hbefore.
      rewrite literal_lits, <- (app_nil_r (RegExp.lits _)) in Hm.
      assert (is_Some (RegExp.match_here
                         (RegExp.lits (js "javascript:") ++ []) (drop a' s)))
        as (w' & rest & Hs & Hw' & _)%match_here_lits_Some by (by eexists).
      pose proof (ci_equal_length _ _ Hw') as Hlen'. simpl in Hlen'.
      exists (take a' s), w', (take (length pre + 10 - a' - 11) rest).
      split; [|done].
      assert (pre ++ take 10 w = take (length pre + 10) s) as ->.
      { unfold s. rewrite take_app_ge by lia.
        replace (length pre + 10 - length pre)%nat with 10%nat by lia.
        rewrite take_app_le by lia. done. }
      rewrite <- (take_drop a' s) at 1. rewrite Hs.
      rewrite take_app_ge by (rewrite length_take; lia).
      rewrite length_take.
      replace (length pre + 10 - a' `min` length s)%nat
        with (length w' + (length pre + 10 - a' - 11))%nat.
      2:{ unfold s. rewrite !length_app. lia. }
      by rewrite take_app_add'. }
  assert (RegExp.find (RegExp.literal "javascript:") post = None) as Hsecond.
  { destruct (RegExp.find _ post) as [m|] eqn:Hfind; [|done].
    exfalso. apply Hafter. apply find_literal.
    rewrite <- literal_lits. by rewrite Hfind. }
  assert (RegExp.find
            (RegExp.literal "<script" ++ [RegExp.Star (RegExp.NotChar 62)]
               ++ RegExp.literal ">" ++ [RegExp.LazyStar RegExp.AnyChar]
               ++ RegExp.literal "</script>") s = None) as H0.
  { match goal with |- ?f = None => destruct f as [m|] eqn:Hfind end; [|done].
    exfalso. apply Hscript. apply find_script. fold s. by rewrite Hfind. }
  assert (RegExp.find (RegExp.literal "onerror=") s = None) as H2.
  { rewrite literal_lits. apply Hother; [|done].
    apply (bool_decide_unpack _). by vm_compute. }
  assert (RegExp.find (RegExp.literal "onload=") s = None) as H3.
  { rewrite literal_lits. apply Hother; [|done].
    apply (bool_decide_unpack _). by vm_compute. }
  assert (RegExp.find (RegExp.literal "eval(") s = None) as H4.
  { rewrite literal_lits. apply Hother; [|done].
    apply (bool_decide_unpack _). by vm_compute. }
  assert (RegExp.find (RegExp.literal "document.cookie") s = None) as H5.
  { rewrite literal_lits. apply Hother; [|done].
    apply (bool_decide_unpack _). by vm_compute. }
  assert (RegExp.test (RegExp.create (RegExp.literal "javascript:")) s
          = (true, {| RegExp.source := RegExp.literal "javascript:";
                      RegExp.lastIndex := length pre + 11 |})) as Ht1.
  { unfold RegExp.test, RegExp.create. cbn [RegExp.lastIndex RegExp.source].
    rewrite drop_0.
    replace (length s <? 0)%nat with false
      by (symmetry; by apply Nat.ltb_ge; lia).
    by rewrite Hfirst. }
  assert (RegExp.test
            {| RegExp.source := RegExp.literal "javascript:";
               RegExp.lastIndex := length pre + 11 |} s
          = (false, RegExp.create (RegExp.literal "javascript:"))) as Ht2.
  { unfold RegExp.test. cbn [RegExp.lastIndex RegExp.source].
    replace (length s <? length pre + 11)%nat with false.
    2:{ symmetry. apply Nat.ltb_ge. unfold s. rewrite !length_app. lia. }
    replace (drop (length pre + 11) s) with post.
    2:{ unfold s. rewrite <- drop_drop, drop_app_length.
        rewrite <- Hlen at 1. by rewrite drop_app_length. }
    by rewrite Hsecond. }
  cbv zeta. cbn [checkXSS]. fold s. unfold XSS_PATTERNS.
  cbn [fmap list_fmap some_test].
  rewrite (test_create_None _ _ H0), Ht1. cbn [fst snd some_test].
  rewrite (test_create_None _ _ H0), Ht2. cbn [some_test].
  rewrite (test_create_None _ _ H2), (test_create_None _ _ H3),
    (test_create_None _ _ H4), (test_create_None _ _ H5).
  done.
Qed.

Lemma checkXSS_misses_repeated_value_witness :
  let value := VString (js "x=" ++ js "JavaScript:" ++ js "alert(1)") in
  let first := checkXSS value XSS_PATTERNS in
  let second := checkXSS value first.2 in
  first.1 = true /\ second.1 = false /\ second.2 = XSS_PATTERNS.
Proof.
  apply (checkXSS_misses_repeated_value (js "x=") (js "JavaScript:")
           (js "alert(1)")).
  - reflexivity.
  - apply no_occurrence. reflexivity.
  - apply no_occurrence. reflexivity.
  - apply no_script_block. reflexivity.
  - intros l Hl Hne. unfold XSS_LITERALS in Hl. rewrite !elem_of_cons in Hl.
    destruct Hl as [->|[->|[->|[->|[->|Hl]]]]];
      [done|apply no_occurrence; reflexivity..|by apply elem_of_nil in Hl].
Defined.

(** ** Routes: the download handler *)

Section DownloadFacts.

Variable rt : Runtime.
Variable getOutputPath : jsstring -> jsstring.

Lemma unlink_if_exists_run path world :
  exists world',
    unlink_if_exists path world = (Ok tt, world')
    /\ files world' = delete path (files world)
    /\ audit world' = audit world.
Proof.
  unfold unlink_if_exists, bind, Fs.existsSync, Fs.unlinkSync, ret.
  destruct (files world !! path) as [data|] eqn:Hfile.
  - rewrite bool_decide_eq_true_2 by (by eexists). rewrite Hfile.
    by eexists.
  - rewrite bool_decide_eq_false_2 by (by intros [? ?]).
    exists world. by rewrite delete_id.
Qed.

Lemma download_cleanup_run tempPath unencryptedPath encryptedPath world :
  exists world',
    download_cleanup tempPath unencryptedPath encryptedPath world
    = (Ok tt, world')
    /\ files world'
       = delete encryptedPath
           (delete unencryptedPath
              (match tempPath with
               | Some path => delete path (files world)
               | None => files world
               end))
    /\ audit world' = audit world.
Proof.
  unfold download_cleanup.
  assert (exists w1,
            match tempPath with
            | Some path => unlink_if_exists path
            | None => ret tt
            end world = (Ok tt, w1)
            /\ files w1 = match tempPath with
                          | Some path => delete path (files world)
                          | None => files world
                          end
            /\ audit w1 = audit world) as (w1 & H1 & Hf1 & Ha1).
  { destruct tempPath as [path|]; [apply unlink_if_exists_run|by exists world]. }
  rewrite (bind_Ok _ _ _ _ _ H1).
  destruct (unlink_if_exists_run unencryptedPath w1) as (w2 & H2 & Hf2 & Ha2).
  rewrite (bind_Ok _ _ _ _ _ H2).
  destruct (unlink_if_exists_run encryptedPath w2) as (w3 & H3 & Hf3 & Ha3).
  exists w3. split_and!; [done| |congruence]. by rewrite Hf3, Hf2, Hf1.
Qed.

Lemma logFileOperation_Ok userId act fileName fileSize stat dets world :
  exists world',
    logFileOperation rt userId act fileName fileSize stat dets world
    = (Ok tt, world')
    /\ files world' = files world.
Proof.
  destruct (log_Ok rt (js "file_operation") userId act
              (AuditLogger.object_of
                 ([(js "file_name", VString fileName);
                   (js "file_size", VNumber fileSize)] ++ dets)) stat world)
    as (world' & H & Hf & _).
  by exists world'.
Qed.

(** The part of the handler that follows the choice of the file. *)
Lemma download_send fileId filePath tempPath unencryptedPath encryptedPath
    content world :
  files world !! filePath = Some content ->
  exists world',
    (let! fileSize := statSync_size filePath in
     logFileOperation rt (js "system") (js "file_download")
       (fileId ++ js ".xml") fileSize (js "success") [] ;;
     let! content := Fs.readFileSync filePath in
     download_cleanup tempPath unencryptedPath encryptedPath ;;
     ret (Download content (js "converted_" ++ fileId ++ js ".xml"))) world
    = (Ok (Download content (js "converted_" ++ fileId ++ js ".xml")), world')
    /\ files world'
       = delete encryptedPath
           (delete unencryptedPath
              (match tempPath with
               | Some path => delete path (files world)
               | None => files world
               end)).
Proof.
  intros Hfile. unfold bind at 1, statSync_size. rewrite Hfile.
  destruct (logFileOperation_Ok (js "system") (js "file_download")
              (fileId ++ js ".xml") (Z.of_nat (length content)) (js "success")
              [] world) as (w1 & Hlog & Hf1).
  rewrite (bind_Ok _ _ _ _ _ Hlog).
  unfold bind at 1, Fs.readFileSync. rewrite Hf1, Hfile.
  destruct (download_cleanup_run tempPath unencryptedPath encryptedPath w1)
    as (w2 & Hclean & Hf2 & _).
  rewrite (bind_Ok _ _ _ _ _ Hclean). exists w2. split; [done|].
  by rewrite Hf2, Hf1.
Qed.

Lemma decryptFile_run inputPath outputPath world :
  exists world',
    AESEncryption.decryptFile rt inputPath outputPath world
    = (match files world !! inputPath with
       | None => Throw (Fs.ENOENT inputPath)
       | Some bytes =>
           match decipher rt AESEncryption.algorithm (AESEncryption.key rt)
                   (take 16 (Base64.decode (utf8_decode rt bytes)))
                   (drop 16 (Base64.decode (utf8_decode rt bytes))) with
           | Throw error => Throw error
           | Ok plain =>
               if writable rt outputPath then Ok tt
               else Throw (Fs.EACCES outputPath)
           end
       end, world')
    /\ files world'
       = match files world !! inputPath with
         | None => files world
         | Some bytes =>
             match decipher rt AESEncryption.algorithm (AESEncryption.key rt)
                     (take 16 (Base64.decode (utf8_decode rt bytes)))
                     (drop 16 (Base64.decode (utf8_decode rt bytes))) with
             | Throw error => files world
             | Ok plain =>
                 if writable rt outputPath
                 then <[outputPath := plain]> (files world)
                 else files world
             end
         end.
Proof.
  unfold AESEncryption.decryptFile, AESEncryption.decryptData, try_catch,
    bind, Fs.readFileSync_utf8, Fs.readFileSync, Fs.writeFileSync, bind,
    lift, throw, ret, AuditLogger.logSecurityEvent, AuditLogger.logError,
    AuditLogger.log, Date_now, AESEncryption.ivLength. cbv zeta.
  destruct (files world !! inputPath) as [bytes|]; [|by eexists].
  destruct (decipher rt _ _ _ _) as [plain|error]; [|by eexists].
  cbn [files]. destruct (writable rt outputPath); by eexists.
Qed.

Lemma download_run fileId world :
  let encryptedPath := getOutputPath (fileId ++ js "_output.xml.enc") in
  let unencryptedPath := getOutputPath (fileId ++ js "_output.xml") in
  let tempPath := getOutputPath (js "temp_" ++ fileId ++ js ".xml") in
  let filename := js "converted_" ++ fileId ++ js ".xml" in
  exists response world',
    download rt getOutputPath fileId world = (Ok response, world')
    /\ match files world !! unencryptedPath with
       | Some content =>
           response = Download content filename
           /\ files world'
              = delete encryptedPath (delete unencryptedPath (files world))
       | None =>
           match files world !! encryptedPath with
           | None =>
               response
               = Json 404 [(js "detail", VString (js "File not found"))]
               /\ files world' = files world
           | Some bytes =>
               match decipher rt AESEncryption.algorithm (AESEncryption.key rt)
                       (take 16 (Base64.decode (utf8_decode rt bytes)))
                       (drop 16 (Base64.decode (utf8_decode rt bytes))) with
               | Throw error =>
                   response
                   = Json 400 [(js "detail", VString (message error))]
                   /\ files world' = files world
               | Ok plain =>
                   if writable rt tempPath
                   then response = Download plain filename
                        /\ files world'
                           = delete encryptedPath
                               (delete tempPath (files world))
                   else response
                        = Json 400
                            [(js "detail",
                              VString (message (Fs.EACCES tempPath)))]
                        /\ files world' = files world
               end
           end
       end.
Proof.
  cbv zeta.
  set (encryptedPath := getOutputPath (fileId ++ js "_output.xml.enc")).
  set (unencryptedPath := getOutputPath (fileId ++ js "_output.xml")).
  set (tempPath := getOutputPath (js "temp_" ++ fileId ++ js ".xml")).
  unfold download. fold encryptedPath unencryptedPath tempPath.
  unfold try_catch, bind at 1, Fs.existsSync.
  destruct (files world !! unencryptedPath) as [content|] eqn:Hplain.
  - rewrite bool_decide_eq_true_2 by (by eexists).
    unfold bind at 1, ret at 1.
    destruct (download_send fileId unencryptedPath None unencryptedPath
                encryptedPath content world Hplain) as (w' & -> & Hf).
    by eexists _, w'.
  - rewrite bool_decide_eq_false_2 by (by intros [? ?]).
    unfold bind at 1, bind at 1.
    destruct (files world !! encryptedPath) as [bytes|] eqn:Henc.
    2:{ rewrite bool_decide_eq_false_2 by (by intros [? ?]).
        unfold ret at 1.
        destruct (logFileOperation_Ok (js "system") (js "download")
                    (fileId ++ js ".xml") 0 (js "error")
                    [(js "error", VString (js "File not found"))] world)
          as (w1 & Hlog & Hf1).
        rewrite (bind_Ok _ _ _ _ _ Hlog). by eexists _, w1. }
    rewrite bool_decide_eq_true_2 by (by eexists).
    destruct (decryptFile_run encryptedPath tempPath world)
      as (w1 & Hdec & Hf1).
    rewrite Henc in Hdec, Hf1.
    destruct (decipher rt _ _ _ _) as [plain|error].
    2:{ rewrite (bind_Throw _ _ _ _ _ Hdec).
        destruct (logError_Ok rt (js "system") (js "download_file") error
                    [(js "file_id", VString fileId)] w1)
          as (w2 & Hlog & Hf2 & _).
        rewrite (bind_Ok _ _ _ _ _ Hlog). eexists _, w2.
        split_and!; [done..|]. congruence. }
    destruct (writable rt tempPath).
    2:{ rewrite (bind_Throw _ _ _ _ _ Hdec).
        destruct (logError_Ok rt (js "system") (js "download_file")
                    (Fs.EACCES tempPath)
                    [(js "file_id", VString fileId)] w1)
          as (w2 & Hlog & Hf2 & _).
        rewrite (bind_Ok _ _ _ _ _ Hlog). eexists _, w2.
        split_and!; [done..|]. congruence. }
    rewrite (bind_Ok _ _ _ _ _ Hdec). unfold ret at 1.
    destruct (download_send fileId tempPath (Some tempPath) unencryptedPath
                encryptedPath plain w1) as (w' & -> & Hf).
    { rewrite Hf1. apply lookup_insert_eq. }
    eexists _, w'. split_and!; [done..|].
    rewrite Hf, Hf1, delete_insert_eq.
    f_equal. apply delete_id.
    destruct (decide (tempPath = unencryptedPath)) as [<-|Hne].
    + apply lookup_delete_eq.
    + by rewrite lookup_delete_ne.
Qed.

End DownloadFacts.

(** X23: the outcome of the download handler in full.  It never throws.
    When the plaintext output of [fileId] exists it is sent, and the
    plaintext and encrypted outputs are then both removed.  Otherwise,
    when the encrypted output exists, it is decrypted to a temporary
    file, which is sent, and the temporary and encrypted files are then
    removed; when the decryption fails the answer is status 400 with the
    error's message and every file is left as it was.  When neither file
    exists the answer is status 404 and nothing changes. *)
Theorem download_outcome (rt : Runtime) (getOutputPath : jsstring -> jsstring)
    (fileId : jsstring) (world : World) :
  let encryptedPath := getOutputPath (fileId ++ js "_output.xml.enc") in
  let unencryptedPath := getOutputPath (fileId ++ js "_output.xml") in
  let tempPath := getOutputPath (js "temp_" ++ fileId ++ js ".xml") in
  let filename := js "converted_" ++ fileId ++ js ".xml" in
  let run := download rt getOutputPath fileId world in
  match files world !! unencryptedPath with
  | Some content =>
      run.1 = Ok (Download content filename)
      /\ files run.2 = delete encryptedPath (delete unencryptedPath (files world))
  | None =>
      match files world !! encryptedPath with
      | None =>
          run.1 = Ok (Json 404 [(js "detail", VString (js "File not found"))])
          /\ files run.2 = files world
      | Some bytes =>
          match decipher rt AESEncryption.algorithm (AESEncryption.key rt)
                  (take 16 (Base64.decode (utf8_decode rt bytes)))
                  (drop 16 (Base64.decode (utf8_decode rt bytes))) with
          | Throw error =>
              run.1 = Ok (Json 400 [(js "detail", VString (message error))])
              /\ files run.2 = files world
          | Ok plain =>
              if writable rt tempPath
              then run.1 = Ok (Download plain filename)
                   /\ files run.2
                      = delete encryptedPath (delete tempPath (files world))
              else run.1
                   = Ok (Json 400
                           [(js "detail",
                             VString (message (Fs.EACCES tempPath)))])
                   /\ files run.2 = files world
          end
      end
  end.
Proof.
  cbv zeta.
  destruct (download_run rt getOutputPath fileId world)
    as (response & world' & Hrun & H).
  rewrite Hrun. cbn [fst snd].
  destruct (files world !! getOutputPath (fileId ++ js "_output.xml"))
    as [content|]; [by destruct H as [-> ->]|].
  destruct (files world !! getOutputPath (fileId ++ js "_output.xml.enc"))
    as [bytes|]; [|by destruct H as [-> ->]].
  destruct (decipher rt _ _ _ _) as [plain|error]; [|by destruct H as [-> ->]].
  destruct (writable rt _); by destruct H as [-> ->].
Qed.

(** X24: conversion followed by download.  After a successful call of
    [convert] with the output path that the conversion route builds for
    [fileId], the download handler sends exactly the serialization of the
    assembled document, decrypted when the conversion encrypted it, and leaves
    neither the plaintext nor the encrypted output behind (nor the
    temporary file).  For the encrypted case this needs that the renaming
    of the output path yields the path at which the handler looks for the
    encrypted file, that the cipher decrypts what it encrypts, that the
    text codec preserves ASCII text and that the temporary file can be
    written. *)
Theorem convert_then_download (rt : Runtime)
    (getOutputPath : jsstring -> jsstring) (fileId inputFile : jsstring)
    (headerFields : option (jsobject jsval)) (sheetName : option jsstring)
    (encryptOutput : bool) (userId : jsstring) (world world' : World)
    (summary : Summary) :
  let outputPath := getOutputPath (fileId ++ js "_output.xml") in
  let encryptedPath := getOutputPath (fileId ++ js "_output.xml.enc") in
  let tempPath := getOutputPath (js "temp_" ++ fileId ++ js ".xml") in
  convert rt inputFile outputPath headerFields sheetName encryptOutput userId
    world = (Ok summary, world') ->
  (encryptOutput = true ->
   encrypted_path outputPath = encryptedPath
   /\ encryptedPath <> outputPath
   /\ writable rt tempPath = true
   /\ (forall iv data, length iv = 16%nat ->
         exists ct,
           cipher rt AESEncryption.algorithm (AESEncryption.key rt) iv data
           = Ok ct
           /\ decipher rt AESEncryption.algorithm (AESEncryption.key rt) iv ct
              = Ok data)
   /\ (forall s, Forall (fun c => c < 128) s ->
                 utf8_decode rt (utf8_encode rt s) = s)) ->
  exists data workbook worksheet doc world'',
    files world !! inputFile = Some data
    /\ xlsx_parse rt data = Ok workbook
    /\ selects sheetName workbook worksheet
    /\ assemble (xml_library rt) (_processExcelData worksheet) headerFields
       = Ok doc
    /\ download rt getOutputPath fileId world'
       = (Ok (Download (utf8_encode rt (xml_end rt doc))
                (js "converted_" ++ fileId ++ js ".xml")), world'')
    /\ files world'' !! outputPath = None
    /\ files world'' !! encryptedPath = None
    /\ (encryptOutput = true -> files world'' !! tempPath = None).
Proof.
  cbv zeta.
  set (outputPath := getOutputPath (fileId ++ js "_output.xml")).
  set (encryptedPath := getOutputPath (fileId ++ js "_output.xml.enc")).
  set (tempPath := getOutputPath (js "temp_" ++ fileId ++ js ".xml")).
  intros (data & workbook & worksheet & doc & w2 & w3 & record & Hfile & Hparse
          & Hsel & _ & Hdoc & _ & Hf2 & _ & Henc & Hf' & _)%convert_Ok_inv
    Hencrypted.
  set (plaintext := utf8_encode rt (xml_end rt doc)) in *.
  destruct (download_run rt getOutputPath fileId world')
    as (response & world'' & Hrun & H).
  fold outputPath encryptedPath tempPath in H.
  exists data, workbook, worksheet, doc, world''.
  apply encrypt_output_Ok_inv in Henc as (_ & _ & Henc).
  destruct encryptOutput.
  - (* encrypted: the handler decrypts the encrypted output *)
    destruct (Hencrypted eq_refl) as (Hpath & Hne & Hw & Hcipher & Hcodec).
    destruct Henc as (plain & ct & Hplain & Hct & Hf3).
    rewrite Hf2, lookup_insert_eq in Hplain. injection Hplain as <-.
    assert (length (AESEncryption.next_iv rt w2) = 16%nat) as Hiv.
    { unfold AESEncryption.next_iv. by rewrite length_fmap, length_seq. }
    destruct (Hcipher _ plaintext Hiv) as (ct' & Hct' & Hback).
    rewrite Hct in Hct'. injection Hct' as <-.
    rewrite Hpath in Hf3.
    assert (files world' !! outputPath = None) as Hout.
    { rewrite Hf', Hf3. apply lookup_delete_eq. }
    assert (files world' !! encryptedPath
            = Some (utf8_encode rt
                      (Base64.encode (AESEncryption.next_iv rt w2 ++ ct))))
      as Hstored.
    { rewrite Hf', Hf3, lookup_delete_ne by done. apply lookup_insert_eq. }
    rewrite Hout, Hstored in H.
    rewrite Hcodec in H by apply encode_ascii.
    rewrite decode_encode in H.
    rewrite take_app_length', drop_app_length' in H by done.
    rewrite Hback, Hw in H. destruct H as [-> Hf''].
    split_and!; [done..| | |]; rewrite Hf''.
    + rewrite lookup_delete_ne by done.
      destruct (decide (tempPath = outputPath)) as [->|Hne'];
        [apply lookup_delete_eq|by rewrite lookup_delete_ne].
    + apply lookup_delete_eq.
    + intros _. destruct (decide (encryptedPath = tempPath)) as [->|Hne'];
        [apply lookup_delete_eq|rewrite lookup_delete_ne by done].
      apply lookup_delete_eq.
  - (* plain: the handler sends the output file *)
    subst w3.
    assert (files world' !! outputPath = Some plaintext) as Hout.
    { rewrite Hf', Hf2. apply lookup_insert_eq. }
    rewrite Hout in H. destruct H as [-> Hf''].
    split_and!; [done..| | |done]; rewrite Hf''.
    + destruct (decide (encryptedPath = outputPath)) as [->|Hne'];
        [apply lookup_delete_eq|rewrite lookup_delete_ne by done].
      apply lookup_delete_eq.
    + apply lookup_delete_eq.
Qed.

Lemma convert_then_download_witness :
  let getOutputPath := fun name => js "/out/" ++ name in
  let run :=
    convert Sample.rt_ok Sample.input_path
      (getOutputPath (js "7f3a" ++ js "_output.xml")) None None true
      (js "system") Sample.world0 in
  exists data workbook worksheet doc world'',
    files Sample.world0 !! Sample.input_path = Some data
    /\ xlsx_parse Sample.rt_ok data = Ok workbook
    /\ selects None workbook worksheet
    /\ assemble (xml_library Sample.rt_ok) (_processExcelData worksheet) None
       = Ok doc
    /\ download Sample.rt_ok getOutputPath (js "7f3a") run.2
       = (Ok (Download (utf8_encode Sample.rt_ok (xml_end Sample.rt_ok doc))
                (js "converted_" ++ js "7f3a" ++ js ".xml")), world'')
    /\ files world'' !! getOutputPath (js "7f3a" ++ js "_output.xml") = None
    /\ files world'' !! getOutputPath (js "7f3a" ++ js "_output.xml.enc")
       = None
    /\ (true = true ->
        files world'' !! getOutputPath (js "temp_" ++ js "7f3a" ++ js ".xml")
        = None).
Proof.
  apply (convert_then_download Sample.rt_ok (fun name => js "/out/" ++ name)
           (js "7f3a") Sample.input_path None None true (js "system")
           Sample.world0 _
           {| success := true; rowsProcessed := 2; conversionTime := 15 |}).
  - by vm_compute.
  - intros _. split_and!.
    + reflexivity.
    + by vm_compute.
    + reflexivity.
    + intros iv data Hiv. apply shift_cipher_inverse; [|done]. by vm_compute.
    + apply ascii_codec.
Defined.

Example download_misses_renamed_directory :
  let getOutputPath := fun name => js "/data.xml/" ++ name in
  let run :=
    convert Sample.rt_ok Sample.input_path
      (getOutputPath (js "7f3a" ++ js "_output.xml")) None None true
      (js "system") Sample.world0 in
  run.1 = Ok {| success := true; rowsProcessed := 2; conversionTime := 15 |}
  /\ (download Sample.rt_ok getOutputPath (js "7f3a") run.2).1
     = Ok (Json 404 [(js "detail", VString (js "File not found"))]).
Proof. by vm_compute. Qed.

(** ** Validation of an uploaded spreadsheet *)

Section ValidationFacts.

Variable rt : Runtime.
Variable extname : jsstring -> jsstring.
Variable toLowerCase : jsstring -> jsstring.
Variable readFile_default : list byte -> res Workbook.
Variable sheet_to_json : option Worksheet -> res (list (jsobject jsval)).
Variable MAX_UPLOAD_SIZE_MB : Z.

(** The [try] block reads and does nothing else. *)
Lemma validateExcelFile_try filePath world :
  exists r,
    (if negb (validateFileExtension extname toLowerCase filePath) then ret false
     else
       let! data := Fs.readFileSync filePath in
       let! workbook := lift (readFile_default data) in
       match SheetNames workbook with
       | [] => ret false
       | first :: _ =>
           let firstSheet := Sheets workbook !! first in
           let! jsonData := lift (sheet_to_json firstSheet) in
           if (length jsonData =? 0)%nat then ret false else ret true
       end) world = (r, world)
    /\ (r = Ok true <->
        validateFileExtension extname toLowerCase filePath = true
        /\ exists data workbook first rows,
             files world !! filePath = Some data
             /\ readFile_default data = Ok workbook
             /\ head (SheetNames workbook) = Some first
             /\ sheet_to_json (Sheets workbook !! first) = Ok rows
             /\ rows <> []).
Proof.
  destruct (validateFileExtension extname toLowerCase filePath) eqn:Hext;
    cbn [negb].
  2:{ exists (Ok false). split; [done|]. split; [done|]. by intros [? _]. }
  unfold bind, Fs.readFileSync, lift, ret.
  destruct (files world !! filePath) as [data|] eqn:Hfile.
  2:{ eexists. split; [done|]. split; [done|].
      by intros (_ & data & workbook & first & rows & ? & _). }
  destruct (readFile_default data) as [workbook|error] eqn:Hparse.
  2:{ eexists. split; [done|]. split; [done|].
      intros (_ & data' & workbook & first & rows & [= <-] & Hp & _).
      congruence. }
  destruct (SheetNames workbook) as [|first names] eqn:Hnames.
  { eexists. split; [done|]. split; [done|].
    intros (_ & data' & workbook' & first & rows & [= <-] & Hp & Hhead & _).
    rewrite Hparse in Hp. injection Hp as <-. by rewrite Hnames in Hhead. }
  destruct (sheet_to_json (Sheets workbook !! first)) as [rows|error]
    eqn:Hrows.
  2:{ eexists. split; [done|]. split; [done|].
      intros (_ & data' & workbook' & first' & rows & [= <-] & Hp & Hhead
              & Hr & _).
      rewrite Hparse in Hp. injection Hp as <-. rewrite Hnames in Hhead.
      injection Hhead as <-. congruence. }
  destruct rows as [|row rows]; cbn [length Nat.eqb].
  - eexists. split; [done|]. split; [done|].
    intros (_ & data' & workbook' & first' & rows & [= <-] & Hp & Hhead
            & Hr & Hne).
    rewrite Hparse in Hp. injection Hp as <-. rewrite Hnames in Hhead.
    injection Hhead as <-. congruence.
  - eexists. split; [done|]. split; [|done]. intros _.
    split; [done|]. exists data, workbook, first, (row :: rows).
    split_and!; [done..|by rewrite Hnames|done|done].
Qed.

Lemma validateExcelFile_run filePath world :
  exists valid world',
    validateExcelFile rt extname toLowerCase readFile_default sheet_to_json
      filePath world = (Ok valid, world')
    /\ files world' = files world
    /\ audit world `prefix_of` audit world'
    /\ (valid = true <->
        validateFileExtension extname toLowerCase filePath = true
        /\ exists data workbook first rows,
             files world !! filePath = Some data
             /\ readFile_default data = Ok workbook
             /\ head (SheetNames workbook) = Some first
             /\ sheet_to_json (Sheets workbook !! first) = Ok rows
             /\ rows <> []).
Proof.
  destruct (validateExcelFile_try filePath world) as (r & Htry & Htrue).
  unfold validateExcelFile. destruct r as [valid|error].
  - rewrite (try_catch_Ok _ _ _ _ _ Htry). exists valid, world.
    split_and!; [done..|]. rewrite <- Htrue. split; congruence.
  - rewrite (try_catch_Throw _ _ _ _ _ Htry).
    unfold bind, AuditLogger.logError, AuditLogger.log, bind, Date_now, ret.
    eexists false, _. split_and!; [done|done| |].
    + simpl. by apply prefix_app_r.
    + rewrite <- Htrue. split; congruence.
Qed.

End ValidationFacts.

(** X25: [validateExcelFile] never throws and changes no file; it only
    adds to the audit log, when reading the file or listing its rows
    throws.  It answers true exactly when the extension is allowed, the
    file exists and is read as a workbook with at least one sheet, and
    the first sheet lists at least one row. *)
Theorem validateExcelFile_total_readonly (rt : Runtime)
    (extname toLowerCase : jsstring -> jsstring)
    (readFile_default : list byte -> res Workbook)
    (sheet_to_json : option Worksheet -> res (list (jsobject jsval)))
    (filePath : jsstring) (world : World) :
  exists valid world',
    validateExcelFile rt extname toLowerCase readFile_default sheet_to_json
      filePath world = (Ok valid, world')
    /\ files world' = files world
    /\ audit world `prefix_of` audit world'
    /\ (valid = true <->
        validateFileExtension extname toLowerCase filePath = true
        /\ exists data workbook first rows,
             files world !! filePath = Some data
             /\ readFile_default data = Ok workbook
             /\ head (SheetNames workbook) = Some first
             /\ sheet_to_json (Sheets workbook !! first) = Ok rows
             /\ rows <> []).
Proof.
  destruct (validateExcelFile_run rt extname toLowerCase readFile_default
              sheet_to_json filePath world)
    as (valid & world' & Hrun & Hfiles & Haudit & Hvalid).
  exists valid, world'. by split_and!.
Qed.

(** X26: the handler of the validation route never throws and removes
    the uploaded file on every path; no other file is changed.  Its answer
    says that the file is valid only when [validateExcelFile] says so for
    the uploaded file, the size is within the limit and the extension of
    the original name is allowed. *)
Theorem validate_removes_upload (rt : Runtime)
    (extname toLowerCase : jsstring -> jsstring)
    (readFile_default : list byte -> res Workbook)
    (sheet_to_json : option Worksheet -> res (list (jsobject jsval)))
    (MAX_UPLOAD_SIZE_MB : Z) (upload : Upload.t) (world : World) :
  exists body world',
    validate rt extname toLowerCase readFile_default sheet_to_json
      MAX_UPLOAD_SIZE_MB (Some upload) world = (Ok (Json 200 body), world')
    /\ files world'
       = (if truthy (Upload.path upload)
          then delete (Upload.path upload) (files world)
          else files world)
    /\ (JsObject.get (js "is_valid") body = Some (VBool true) ->
        (Upload.size upload <= MAX_UPLOAD_SIZE_MB * 1024 * 1024)%Z
        /\ validateFileExtension extname toLowerCase
             (Upload.originalname upload) = true
        /\ (validateExcelFile rt extname toLowerCase readFile_default
              sheet_to_json (Upload.path upload) world).1 = Ok true).
Proof.
  unfold validate.
  assert (forall (response : Response) w,
            files w = files world ->
            exists world',
              (match Upload.path <$> Some upload with
               | Some uploadedPath =>
                   if truthy uploadedPath then unlink_if_exists uploadedPath
                   else ret tt
               | None => ret tt
               end ;; ret response) w = (Ok response, world')
              /\ files world'
                 = (if truthy (Upload.path upload)
                    then delete (Upload.path upload) (files world)
                    else files world)) as Hfinally.
  { intros response w Hw. cbn [fmap option_fmap option_map].
    destruct (truthy (Upload.path upload)).
    - destruct (unlink_if_exists_run (Upload.path upload) w)
        as (w' & Hrun & Hf & _).
      rewrite (bind_Ok _ _ _ _ _ Hrun). exists w'. split; [done|].
      by rewrite Hf, Hw.
    - exists w. by split. }
  unfold bind at 1, try_catch.
  destruct (MAX_UPLOAD_SIZE_MB * 1024 * 1024 <? Upload.size upload)%Z
    eqn:Hsize.
  { destruct (Hfinally
                (Json 200
                   [(js "is_valid", VBool false);
                    (js "message",
                     VString (js "File size exceeds "
                              ++ decimal_of_Z MAX_UPLOAD_SIZE_MB
                              ++ js "MB limit"));
                    (js "file_size", VNumber (Upload.size upload));
                    (js "file_type",
                     VString (extname (Upload.originalname upload)))])
                world eq_refl) as (w' & Hrun & Hf).
    eexists _, w'. unfold ret at 1. split_and!; [exact Hrun|done|done]. }
  apply Z.ltb_ge in Hsize.
  destruct (validateFileExtension extname toLowerCase
              (Upload.originalname upload)) eqn:Hext; cbn [negb].
  2:{ destruct (Hfinally
                  (Json 200
                     [(js "is_valid", VBool false);
                      (js "message",
                       VString (js ("Invalid file type. "
                                    ++ "Only .xls and .xlsx files are allowed")));
                      (js "file_size", VNumber (Upload.size upload));
                      (js "file_type",
                       VString (extname (Upload.originalname upload)))])
                  world eq_refl) as (w' & Hrun & Hf).
      eexists _, w'. unfold ret at 1. split_and!; [exact Hrun|done|done]. }
  destruct (validateExcelFile_run rt extname toLowerCase readFile_default
              sheet_to_json (Upload.path upload) world)
    as (valid & w1 & Hvalid & Hf1 & _).
  rewrite (bind_Ok _ _ _ _ _ Hvalid). unfold ret at 1.
  destruct (Hfinally
              (Json 200
                 [(js "is_valid", VBool valid);
                  (js "message",
                   VString (if valid then js "File is valid"
                            else js "Invalid Excel file format"));
                  (js "file_size", VNumber (Upload.size upload));
                  (js "file_type",
                   VString (extname (Upload.originalname upload)))])
              w1 Hf1) as (w' & Hrun & Hf).
  eexists _, w'. split_and!; [exact Hrun|done|].
  rewrite Hvalid. destruct valid; [done|]. by vm_compute.
Qed.

Example validate_sample :
  let run :=
    validate Sample.rt_ok (fun name => drop (length name - 5) name)
      (fun s => s) (xlsx_parse Sample.rt_ok)
      (fun sheet => Ok (match sheet with
                        | Some worksheet =>
                            (fun _ => []) <$> _processExcelData worksheet
                        | None => []
                        end))
      10
      (Some {| Upload.path := Sample.input_path; Upload.size := 2;
               Upload.originalname := js "report.xlsx";
               Upload.mimetype := js "application/octet-stream" |})
      Sample.world0 in
  run.1 = Ok (Json 200 [(js "is_valid", VBool true);
                        (js "message", VString (js "File is valid"));
                        (js "file_size", VNumber 2);
                        (js "file_type", VString (js ".xlsx"))])
  /\ files run.2 !! Sample.input_path = None.
Proof. by vm_compute. Qed.

(** ** Security middleware: [getClientIP] *)

Section ClientIP.

Lemma first_field_split s :
  exists rest,
    s = first_field s ++ rest /\ (rest = [] \/ exists rest', rest = 44 :: rest').
Proof.
  induction s as [|c s (rest & IH & Hrest)]; [by exists []; split; [|left]|].
  simpl. destruct (c =? 44) eqn:Hc.
  - apply N.eqb_eq in Hc as ->. exists (44 :: s). split; [done|].
    right. by exists s.
  - exists rest. split; [|done]. simpl. by rewrite <- IH.
Qed.

Lemma first_field_no_comma s : 44 ∉ first_field s.
Proof.
  induction s as [|c s IH]; simpl; [by apply not_elem_of_nil|].
  destruct (c =? 44) eqn:Hc; [by apply not_elem_of_nil|].
  apply N.eqb_neq in Hc. apply not_elem_of_cons. by split.
Qed.

Lemma trimStart_suffix s : trimStart s `suffix_of` s.
Proof.
  induction s as [|c s IH]; [done|]. simpl.
  destruct (is_space c); [by apply suffix_cons_r|done].
Qed.

Lemma trimStart_head s c : head (trimStart s) = Some c -> is_space c = false.
Proof.
  induction s as [|d s IH]; [done|]. simpl.
  destruct (is_space d) eqn:Hd; [done|]. by intros [= <-].
Qed.

Lemma trimEnd_prefix s : trimEnd s `prefix_of` s.
Proof.
  unfold trimEnd. destruct (trimStart_suffix (rev s)) as [k Hk].
  exists (rev k). apply (f_equal (@rev N)) in Hk.
  by rewrite rev_involutive, rev_app_distr in Hk.
Qed.

Lemma last_rev {A} (l : list A) : last (rev l) = head l.
Proof. destruct l as [|a l]; [done|]. simpl. apply last_snoc. Qed.

Lemma trimEnd_last s c : last (trimEnd s) = Some c -> is_space c = false.
Proof. unfold trimEnd. rewrite last_rev. apply trimStart_head. Qed.

Lemma trim_sublist s c : c ∈ trim s -> c ∈ s.
Proof.
  unfold trim. intros Hc.
  destruct (trimEnd_prefix (trimStart s)) as [k Hk].
  destruct (trimStart_suffix s) as [k' Hk'].
  rewrite Hk', Hk. rewrite !elem_of_app. tauto.
Qed.

Lemma trim_head s c : head (trim s) = Some c -> is_space c = false.
Proof.
  unfold trim. intros Hc.
  destruct (trimEnd_prefix (trimStart s)) as [k Hk].
  apply (trimStart_head s). rewrite Hk.
  by destruct (trimEnd (trimStart s)).
Qed.

End ClientIP.

(** X27: when the request carries a non-empty x-forwarded-for header,
    the client address is the first comma-separated entry of the header
    with surrounding white space removed, whatever the address of the
    socket is: it has no comma and neither starts nor ends with white
    space (it may be empty). *)
Theorem getClientIP_forwarded_entry (header : jsstring)
    (remoteAddress ip : option jsstring) :
  truthy header = true ->
  let address := getClientIP (Some header) remoteAddress ip in
  address = trim (first_field header)
  /\ (exists rest,
        header = first_field header ++ rest
        /\ (rest = [] \/ exists rest', rest = 44 :: rest'))
  /\ (44 ∉ address)
  /\ (forall c, head address = Some c -> is_space c = false)
  /\ (forall c, last address = Some c -> is_space c = false).
Proof.
  intros Hheader. cbv zeta. unfold getClientIP. rewrite Hheader.
  split_and!.
  - done.
  - apply first_field_split.
  - intros Hin%trim_sublist. by apply first_field_no_comma in Hin.
  - apply trim_head.
  - unfold trim. apply trimEnd_last.
Qed.

Lemma getClientIP_forwarded_entry_witness :
  let address :=
    getClientIP (Some (js " 10.0.0.1 , 172.16.0.9")) (Some (js "192.0.2.7"))
      None in
  address = trim (first_field (js " 10.0.0.1 , 172.16.0.9"))
  /\ (exists rest,
        js " 10.0.0.1 , 172.16.0.9"
        = first_field (js " 10.0.0.1 , 172.16.0.9") ++ rest
        /\ (rest = [] \/ exists rest', rest = 44 :: rest'))
  /\ (44 ∉ address)
  /\ (forall c, head address = Some c -> is_space c = false)
  /\ (forall c, last address = Some c -> is_space c = false).
Proof.
  apply (getClientIP_forwarded_entry (js " 10.0.0.1 , 172.16.0.9")
           (Some (js "192.0.2.7")) None).
  reflexivity.
Defined.

Example getClientIP_blank_entry :
  getClientIP (Some (js " , 172.16.0.9")) (Some (js "192.0.2.7")) None = [].
Proof. reflexivity. Qed.

(** ** From the sheet to the document *)

(** X28: extraction and assembly together.  When the XML library creates
    an element for every well-formed tag and for the tag name of every
    header field, and the header names of the columns in range are pairwise
    distinct, none of them "__proto__" and none an array index, the
    assembled document has, after the header section, one row element for
    each data row that holds text, in row order; the children of a row
    element are, in column order, one element per column, named by the
    sanitized header name and holding the text of the row's cell in that
    column. *)
Theorem sheet_document (lib : XmlBuilder.library) (worksheet : Worksheet)
    (headerFields : option (jsobject jsval)) (doc : XmlNode) :
  creates_tags lib ->
  creates_header_tags lib headerFields ->
  NoDup (header_name worksheet <$> sheet_columns worksheet) ->
  JsObject.PROTO ∉ header_name worksheet <$> sheet_columns worksheet ->
  Forall (fun c => JsObject.array_index (header_name worksheet c) = None)
    (sheet_columns worksheet) ->
  assemble lib (_processExcelData worksheet) headerFields = Ok doc ->
  doc
  = Element XML_ROOT_ELEMENT
      (header_section headerFields
         ++ [Element XML_BODY_ELEMENT
               ((fun r =>
                   Element XML_ROW_ELEMENT
                     ((fun c =>
                         Element (_sanitizeXmlTag (header_name worksheet c))
                           [Text (cell_text worksheet r c)])
                        <$> sheet_columns worksheet))
                  <$> filter (fun r => row_has_data worksheet r = true)
                        (sheet_data_rows worksheet))]).
Proof.
  intros Htags Hkeys Hnd Hno Hindex ->%(assemble_Ok lib Htags _ _ _ Hkeys).
  do 4 f_equal.
  rewrite processExcelData_rows, <- list_fmap_compose.
  apply list_fmap_ext. intros _ r _. cbn [compose].
  unfold row_element. f_equal.
  rewrite row_record_header_name.
  rewrite assign_all_distinct by (by rewrite <- list_fmap_compose).
  rewrite app_nil_l, entries_no_index.
  - by rewrite <- list_fmap_compose.
  - apply Forall_fmap. by apply (Forall_impl _ _ _ Hindex).
Qed.

Lemma sheet_document_witness :
  Sample.document1
  = Element XML_ROOT_ELEMENT
      (header_section Sample.header_fields1
         ++ [Element XML_BODY_ELEMENT
               ((fun r =>
                   Element XML_ROW_ELEMENT
                     ((fun c =>
                         Element
                           (_sanitizeXmlTag (header_name Sample.sheet1 c))
                           [Text (cell_text Sample.sheet1 r c)])
                        <$> sheet_columns Sample.sheet1))
                  <$> filter (fun r => row_has_data Sample.sheet1 r = true)
                        (sheet_data_rows Sample.sheet1))]).
Proof.
  apply (sheet_document Sample.library Sample.sheet1 Sample.header_fields1).
  - apply sample_library_creates_tags.
  - intros fields key [= <-] Hin.
    apply sample_library_creates_tags.
    change (key ∈ [js "Bank Code"; js "Period"]) in Hin.
    rewrite !elem_of_cons in Hin.
    destruct Hin as [->|[->|Hin]]; [reflexivity..|by apply elem_of_nil in Hin].
  - apply (bool_decide_unpack _). by vm_compute.
  - apply (bool_decide_unpack _). by vm_compute.
  - apply (bool_decide_unpack _). by vm_compute.
  - reflexivity.
Defined.

(** ** Errors of the cipher in the audit log *)

(** X29: an error of the cipher during a conversion with encryption is
    logged three times.  The call throws the cipher's error, and the audit
    log gains exactly three error records that carry its message: one
    written by [encryptData], one by [encryptFile] and one by [convert],
    in this order. *)
Theorem cipher_error_logged_three_times (rt : Runtime)
    (inputFile outputFile : jsstring)
    (headerFields : option (jsobject jsval)) (sheetName : option jsstring)
    (userId : jsstring) (world : World) (data : list byte)
    (workbook : Workbook) (worksheet : Worksheet) (doc : XmlNode)
    (error : exn) :
  files world !! inputFile = Some data ->
  xlsx_parse rt data = Ok workbook ->
  selects sheetName workbook worksheet ->
  _processExcelData worksheet <> [] ->
  assemble (xml_library rt) (_processExcelData worksheet) headerFields
  = Ok doc ->
  writable rt outputFile = true ->
  cipher rt AESEncryption.algorithm (AESEncryption.key rt)
    (entropy rt <$> seq (random_reads world) 16)
    (utf8_encode rt (xml_end rt doc)) = Throw error ->
  exists world' r1 r2 r3,
    convert rt inputFile outputFile headerFields sheetName true userId world
    = (Throw error, world')
    /\ audit world' = audit world ++ [r1; r2; r3]
    /\ action <$> [r1; r2; r3]
       = [js "encrypt_data"; js "encrypt_file"; js "convert_excel_to_xml"]
    /\ Forall (fun r =>
                 event_type r = js "error"
                 /\ JsObject.get (js "error_message") (details r)
                    = Some (VString (if truthy (message error)
                                     then message error else js "Error")))
         [r1; r2; r3].
Proof.
  intros Hfile Hparse Hsel Hrec Hdoc Hw Hcipher.
  destruct (load_sheet_Ok rt inputFile sheetName (tick world) data workbook
              worksheet Hfile Hparse Hsel) as [name Hload].
  rewrite convert_unfold. unfold try_catch, convert_try.
  rewrite (bind_Ok _ _ _ _ _ Hload). cbv beta match.
  rewrite (bool_decide_eq_false_2 _ (records_range worksheet Hrec)).
  cbn [andb].
  rewrite bool_decide_eq_false_2
    by (by destruct (_processExcelData worksheet)).
  unfold bind at 1, lift at 1. rewrite Hdoc.
  unfold bind at 1, Fs.writeFileSync_utf8, Fs.writeFileSync. rewrite Hw.
  unfold bind at 1, encrypt_output, bind at 1, AESEncryption.encryptFile,
    try_catch, bind at 1, Fs.readFileSync.
  cbn [files Fs.with_files tick]. rewrite lookup_insert_eq.
  unfold bind at 1, AESEncryption.encryptData, try_catch, bind at 1,
    randomBytes, bind at 1, lift at 1, AESEncryption.ivLength.
  cbn [random_reads Fs.with_files tick]. rewrite Hcipher.
  unfold convert_catch, bind, throw, AuditLogger.logError, AuditLogger.log,
    bind, Date_now.
  cbn [audit files clock_reads random_reads].
  eexists _, _, _, _. split; [reflexivity|].
  split; [cbn [audit tick Fs.with_files]; by rewrite <- !app_assoc|].
  split; [done|]. repeat constructor.
Qed.

Lemma cipher_error_logged_three_times_witness :
  exists world' r1 r2 r3,
    convert
      {| xml_library := Sample.library; xml_end := Sample.serialize;
         xlsx_parse := xlsx_parse Sample.rt_ok;
         utf8_encode := Sample.ascii_encode;
         utf8_decode := Sample.ascii_decode;
         pbkdf2Sync := fun _ _ _ _ _ => [];
         cipher := Sample.shift_cipher; decipher := Sample.shift_decipher;
         clock := clock Sample.rt_ok; entropy := entropy Sample.rt_ok;
         writable := fun _ => true; ENCRYPTION_KEY := None |}
      Sample.input_path (js "/out/a.xml") Sample.header_fields1 None true
      (js "system") Sample.world0
    = (Throw (Error (js "Invalid key length")), world')
    /\ audit world' = audit Sample.world0 ++ [r1; r2; r3]
    /\ action <$> [r1; r2; r3]
       = [js "encrypt_data"; js "encrypt_file"; js "convert_excel_to_xml"]
    /\ Forall (fun r =>
                 event_type r = js "error"
                 /\ JsObject.get (js "error_message") (details r)
                    = Some (VString
                              (if truthy (message
                                            (Error (js "Invalid key length")))
                               then message (Error (js "Invalid key length"))
                               else js "Error")))
         [r1; r2; r3].
Proof.
  apply (cipher_error_logged_three_times _ Sample.input_path (js "/out/a.xml")
           Sample.header_fields1 None (js "system") Sample.world0 [x50; x4b]
           Sample.workbook1 Sample.sheet1 Sample.document1).
  - reflexivity.
  - reflexivity.
  - exists (js "Sheet1"). split_and!; [reflexivity| |reflexivity].
    apply (bool_decide_unpack _). by vm_compute.
  - by vm_compute.
  - by vm_compute.
  - reflexivity.
  - by vm_compute.
Defined.
